(** * Hybrid retrieval engine of [Backend/retrieval.py]

    A shallow embedding of [find_similar_properties] (structured filter,
    TF-IDF ranking, over-fetch, de-duplication and projection), of
    [extract_keywords_from_text], of the [__main__] driver and of the
    functions that clean, store and load the table, followed by the
    properties of the retrieval pipeline.

    Modelling conventions.
    - A pandas [DataFrame] is the list of its rows in positional order;
      boolean-mask indexing is [filter], [pd.concat] is [++].
    - Python [str] values are [string]s of ASCII characters.
    - A number held by the table or by the query is the rational it
      denotes ([Q]); infinities and NaN are not among them.  Arithmetic
      on floats is IEEE 754 arithmetic with rounding to nearest, ties to
      even, as specified by [SpecFloat]: binary64 for Python floats and
      for the matrix of scikit-learn, binary32 for what faiss computes.
    - [np.log] is an argument of the model, like the other library
      functions whose results are not computed here.
    - An exception raised by Python is an explicit outcome.
    - [Ideal] holds the vector space and the Euclidean distance in exact
      real arithmetic, for comparison with what the program computes. *)

From Stdlib Require Import List String Ascii Bool Arith ZArith QArith.
From Stdlib Require Import SpecFloat Reals Lia Lra Sorted Permutation.
Import ListNotations.

Local Open Scope string_scope.
Local Open Scope list_scope.

(** ** Floating-point numbers *)

(** IEEE 754 binary64: Python's [float] and numpy's [float64]. *)
Module F64.

Definition zero : spec_float := S754_zero false.

Definition add : spec_float -> spec_float -> spec_float := SFadd 53 1024.
Definition mul : spec_float -> spec_float -> spec_float := SFmul 53 1024.
Definition div : spec_float -> spec_float -> spec_float := SFdiv 53 1024.
Definition sqrt : spec_float -> spec_float := SFsqrt 53 1024.

(** The float nearest to an integer. *)
Definition of_Z (z : Z) : spec_float := binary_normalize 53 1024 z 0 false.

Definition of_nat (n : nat) : spec_float := of_Z (Z.of_nat n).

(** The float nearest to a rational: the quotient is taken with more
    than 53 significant bits and a last bit that records a non-zero
    remainder, then rounded once.  A rational that is a float is its own
    nearest float. *)
Definition of_Q (q : Q) : spec_float :=
  let n := Qnum q in
  let d := Zpos (Qden q) in
  let a := Z.abs n in
  let k := Z.max 0 (60 + Z.log2 d - Z.log2 a) in
  let (quot, rem) := Z.div_eucl (a * 2 ^ k) d in
  let m := (2 * quot + (if (rem =? 0)%Z then 0 else 1))%Z in
  binary_normalize 53 1024 (if (n <? 0)%Z then (- m)%Z else m) (- (k + 1))
    false.

End F64.

(** IEEE 754 binary32: numpy's [float32] and the [float] of faiss. *)
Module F32.

Definition zero : spec_float := S754_zero false.

Definition add : spec_float -> spec_float -> spec_float := SFadd 24 128.
Definition sub : spec_float -> spec_float -> spec_float := SFsub 24 128.
Definition mul : spec_float -> spec_float -> spec_float := SFmul 24 128.

(** [x.astype("float32")] on one binary64 number. *)
Definition of_F64 (x : spec_float) : spec_float :=
  match x with
  | S754_finite s m e => binary_round 24 128 s m e
  | _ => x
  end.

(** The largest finite number, [FLT_MAX]. *)
Definition max : spec_float := S754_finite false 16777215 104.

End F32.

(** ** Python values and built-ins *)

Module Py.

(** The exceptions the modelled functions can raise. *)
Inductive exn : Type :=
| AttributeError
| TypeError
| ValueError
| IndexError
| OverflowError
| ReError.

(** Values the extractor can put into the fields of its dictionary. *)
Inductive value : Type :=
| PNone
| PInt (z : Z)
| PFloat (q : Q)
| PStr (s : string).

Definition is_upper (c : ascii) : bool :=
  let n := nat_of_ascii c in (65 <=? n)%nat && (n <=? 90)%nat.

Definition lower_char (c : ascii) : ascii :=
  if is_upper c then ascii_of_nat (nat_of_ascii c + 32) else c.

(** [str.lower()] *)
Fixpoint lower (s : string) : string :=
  match s with
  | EmptyString => EmptyString
  | String c s' => String (lower_char c) (lower s')
  end.

(** [sep.join(parts)] *)
Fixpoint join (sep : string) (parts : list string) : string :=
  match parts with
  | [] => ""
  | [p] => p
  | p :: rest => p ++ sep ++ join sep rest
  end.

(** [x.lower()] on an arbitrary value: only [str] has the method. *)
Definition method_lower (v : value) : exn + string :=
  match v with
  | PStr s => inr (lower s)
  | _ => inl AttributeError
  end.

(** The number a value denotes, when it is an [int] or a [float]. *)
Definition as_number (v : value) : option Q :=
  match v with
  | PInt z => Some (inject_Z z)
  | PFloat q => Some q
  | _ => None
  end.

(** The left operand of [x * 1.05] as a float: a [float] is one, an
    [int] is converted to the nearest float and raises [OverflowError]
    when it is too large for one, [None] and [str] raise [TypeError]. *)
Definition to_float (v : value) : exn + spec_float :=
  match v with
  | PInt z =>
      match F64.of_Z z with
      | S754_infinity _ => inl OverflowError
      | x => inr x
      end
  | PFloat q => inr (F64.of_Q q)
  | _ => inl TypeError
  end.

(** [x * f] for a float literal [f]: the binary64 product. *)
Definition mul_float (v : value) (f : Q) : exn + spec_float :=
  match to_float v with
  | inl e => inl e
  | inr x => inr (F64.mul x (F64.of_Q f))
  end.

End Py.

(** ** Regular expressions, as far as [Series.str.contains] needs them

    [Series.str.contains(pat)] treats [pat] as a regular expression
    ([regex=True] is the default) and tests [re.search].  Patterns made
    of ordinary characters and of [.] are interpreted here; every other
    pattern is handed to [general], standing for the rest of Python's
    [re.compile]: it answers [None] when the pattern does not compile
    ([re.error]) and the search predicate otherwise. *)

Module Re.

Inductive atom : Type :=
| Lit (c : ascii)
| AnyChar.

Definition is_meta (c : ascii) : bool :=
  existsb (Ascii.eqb c)
    ["."; "^"; "$"; "*"; "+"; "?"; "{"; "}"; "["; "]"; "\"; "|"; "("; ")"]%char.

Fixpoint parse (pat : string) : option (list atom) :=
  match pat with
  | EmptyString => Some []
  | String c pat' =>
      match parse pat' with
      | None => None
      | Some atoms =>
          if Ascii.eqb c "."%char then Some (AnyChar :: atoms)
          else if is_meta c then None
          else Some (Lit c :: atoms)
      end
  end.

Definition atom_matches (a : atom) (c : ascii) : bool :=
  match a with
  | Lit x => Ascii.eqb x c
  | AnyChar => negb (Ascii.eqb c (ascii_of_nat 10))
  end.

(** The atoms match a prefix of [s]. *)
Fixpoint match_here (atoms : list atom) (s : string) : bool :=
  match atoms, s with
  | [], _ => true
  | _ :: _, EmptyString => false
  | a :: atoms', String c s' => atom_matches a c && match_here atoms' s'
  end.

(** [re.search]: the atoms match at some offset of [s]. *)
Fixpoint search (atoms : list atom) (s : string) : bool :=
  match_here atoms s ||
  match s with
  | EmptyString => false
  | String _ s' => search atoms s'
  end.

Definition compile (general : string -> option (string -> bool))
    (pat : string) : option (string -> bool) :=
  match parse pat with
  | Some atoms => Some (search atoms)
  | None => general pat
  end.

(** Plain substring test: [pat in s]. *)
Fixpoint prefixb (pat s : string) : bool :=
  match pat, s with
  | EmptyString, _ => true
  | String _ _, EmptyString => false
  | String a pat', String c s' => Ascii.eqb a c && prefixb pat' s'
  end.

Fixpoint substringb (pat s : string) : bool :=
  prefixb pat s ||
  match s with
  | EmptyString => false
  | String _ s' => substringb pat s'
  end.

(** A pattern without any metacharacter. *)
Fixpoint literal (pat : string) : bool :=
  match pat with
  | EmptyString => true
  | String c pat' => negb (is_meta c) && literal pat'
  end.

End Re.

(** ** The listing table *)

(** One row of the [properties] table.  A missing location (SQL NULL,
    read back as [None]) is [None]; the comparisons of the location
    stage are false on it ([na=False]). *)
Record Row : Type := mkRow {
  link : string;
  size : Z;
  price : Q;
  location : option string;
  amenities : list string;
  description : string;
  building_name : string
}.

(** A row of [df_filtered] once line 82 has added the derived column. *)
Record Candidate : Type := mkCandidate {
  row : Row;
  amenities_str : string
}.

Module Pandas.

(** [df.drop_duplicates(subset=[key], keep="first")]; [seen] holds the
    keys already emitted. *)
Fixpoint drop_duplicates_from {A : Type} (key : A -> string)
    (seen : list string) (df : list A) : list A :=
  match df with
  | [] => []
  | r :: df' =>
      if existsb (String.eqb (key r)) seen
      then drop_duplicates_from key seen df'
      else r :: drop_duplicates_from key (key r :: seen) df'
  end.

Definition drop_duplicates {A : Type} (key : A -> string) (df : list A)
    : list A :=
  drop_duplicates_from key [] df.

(** Position [i] of a frame of [n] rows: negative positions count from
    the end, anything outside [-n, n) raises [IndexError]. *)
Definition position (n : nat) (i : Z) : option nat :=
  if ((0 <=? i) && (i <? Z.of_nat n))%Z then Some (Z.to_nat i)
  else if ((- Z.of_nat n <=? i) && (i <? 0))%Z
       then Some (Z.to_nat (Z.of_nat n + i))
       else None.

(** [df.iloc[indices]] for an array of integer positions. *)
Fixpoint iloc {A : Type} (df : list A) (indices : list Z)
    : option (list A) :=
  match indices with
  | [] => Some []
  | i :: rest =>
      match position (List.length df) i with
      | None => None
      | Some p =>
          match nth_error df p, iloc df rest with
          | Some r, Some rs => Some (r :: rs)
          | _, _ => None
          end
      end
  end.

(** [df.head(n)] *)
Definition head {A : Type} (n : nat) (df : list A) : list A := firstn n df.

(** [df.empty] *)
Definition empty {A : Type} (df : list A) : bool :=
  match df with [] => true | _ => false end.

(** [series == scalar] on the integer column [size]: a number is
    compared by value, [None] and strings compare unequal to every
    cell. *)
Definition eq_scalar (cell : Z) (v : Py.value) : bool :=
  match v with
  | Py.PInt z => Z.eqb cell z
  | Py.PFloat q => Qeq_bool (inject_Z cell) q
  | _ => false
  end.

(** [series == s] on the text column [location]. *)
Definition eq_str (cell : option string) (s : string) : bool :=
  match cell with
  | Some c => String.eqb c s
  | None => false
  end.

(** One cell of [series.str.contains(pat, na=False)], the pattern
    being compiled already. *)
Definition contains_cell (found : string -> bool) (cell : option string)
    : bool :=
  match cell with
  | Some c => found c
  | None => false
  end.

End Pandas.

(** ** scikit-learn: [TfidfVectorizer()] with its default settings

    [lowercase=True], [token_pattern = (?u)\b\w\w+\b], word unigrams, no
    stop words, [use_idf=True], [smooth_idf=True], [sublinear_tf=False],
    [norm="l2"]. *)

Module Sklearn.

(** [\w] on ASCII text: letters, digits and the underscore. *)
Definition is_word (c : ascii) : bool :=
  let n := nat_of_ascii c in
  ((48 <=? n) && (n <=? 57) || (65 <=? n) && (n <=? 90)
   || (97 <=? n) && (n <=? 122) || (n =? 95))%nat.

(** Maximal runs of word characters; [cur] is the run being read. *)
Fixpoint word_runs (s : string) (cur : string) : list string :=
  match s with
  | EmptyString => [cur]
  | String c s' =>
      if is_word c then word_runs s' (cur ++ String c EmptyString)
      else cur :: word_runs s' EmptyString
  end.

(** The analyzer: lower-case, then every run of two or more word
    characters is a token. *)
Definition tokenize (doc : string) : list string :=
  filter (fun t => (2 <=? String.length t)%nat)
         (word_runs (Py.lower doc) EmptyString).

(** Insertion into a strictly increasing list of terms. *)
Fixpoint add_term (t : string) (terms : list string) : list string :=
  match terms with
  | [] => [t]
  | u :: terms' =>
      match String.compare t u with
      | Lt => t :: terms
      | Eq => terms
      | Gt => u :: add_term t terms'
      end
  end.

(** [vectorizer.vocabulary_]: the distinct tokens of the corpus, in
    increasing order (the order of the feature columns). *)
Definition vocabulary (docs : list string) : list string :=
  fold_right add_term [] (List.concat (map tokenize docs)).

(** Raw term counts of one document over the feature columns. *)
Definition term_counts (vocab : list string) (doc : string) : list nat :=
  let tokens := tokenize doc in
  map (fun t => count_occ string_dec tokens t) vocab.

(** Number of documents in which each feature occurs. *)
Fixpoint document_frequency (nfeatures : nat) (counts : list (list nat))
    : list nat :=
  match counts with
  | [] => repeat 0%nat nfeatures
  | c :: counts' =>
      map (fun p => if (0 <? fst p)%nat then S (snd p) else snd p)
          (combine c (document_frequency nfeatures counts'))
  end.

(** Smoothed inverse document frequency,
    [np.log((1 + n_samples) / (1 + df)) + 1], in binary64. *)
Definition idf (np_log : spec_float -> spec_float) (n_samples df : nat)
    : spec_float :=
  F64.add (np_log (F64.div (F64.of_nat (1 + n_samples)) (F64.of_nat (1 + df))))
    (F64.of_Z 1).

(** The weights of one document: the count times the idf where the term
    occurs; the other entries are not stored by the sparse matrix and
    read as zero. *)
Definition weigh (idfs : list spec_float) (counts : list nat)
    : list spec_float :=
  map (fun p => if (fst p =? 0)%nat then F64.zero
                else F64.mul (F64.of_nat (fst p)) (snd p))
      (combine counts idfs).

(** The sum of the squares of a row, accumulated from left to right. *)
Definition sum_squares (v : list spec_float) : spec_float :=
  fold_left (fun sum x => F64.add sum (F64.mul x x)) v F64.zero.

(** Row-wise L2 normalisation: a row whose sum of squares equals zero
    is left as it is; otherwise every stored entry is divided by the
    square root of the sum. *)
Definition normalize (counts : list nat) (v : list spec_float)
    : list spec_float :=
  let sum := sum_squares v in
  if SFeqb sum F64.zero then v
  else
    let norm := F64.sqrt sum in
    map (fun p => if (fst p =? 0)%nat then F64.zero
                  else F64.div (snd p) norm)
        (combine counts v).

(** [vectorizer.fit_transform(docs).toarray()]: one row per document,
    one column per vocabulary term.  An empty vocabulary raises
    [ValueError] ([None]). *)
Definition fit_transform (np_log : spec_float -> spec_float)
    (docs : list string) : option (list (list spec_float)) :=
  let vocab := vocabulary docs in
  match vocab with
  | [] => None
  | _ :: _ =>
      let counts := map (term_counts vocab) docs in
      let dfs := document_frequency (List.length vocab) counts in
      let idfs := map (idf np_log (List.length docs)) dfs in
      Some (map (fun c => normalize c (weigh idfs c)) counts)
  end.

End Sklearn.

(** ** faiss: [IndexFlatL2]

    An exact index: [search] compares the query with every stored
    vector by squared Euclidean distance, computed in binary32, and
    reports the labels of the [k] nearest ones, nearest first; among
    equal distances the smaller label comes first.  A vector enters the
    result only when its distance is below [FLT_MAX], the value the
    result heap starts from, and the labels that are missing in the end
    are [-1]. *)

Module Faiss.

(** [fvec_L2sqr]: the loop of the reference implementation. *)
Definition fvec_L2sqr (x y : list spec_float) : spec_float :=
  fold_left (fun res p =>
               let tmp := F32.sub (fst p) (snd p) in
               F32.add res (F32.mul tmp tmp))
            (combine x y) F32.zero.

(** Insertion of a (label, distance) pair in front of the first pair
    that is not strictly nearer. *)
Fixpoint insert (e : nat * spec_float) (l : list (nat * spec_float))
    : list (nat * spec_float) :=
  match l with
  | [] => [e]
  | h :: t =>
      if SFltb (snd h) (snd e) then h :: insert e t else e :: l
  end.

Definition sort_by_distance (l : list (nat * spec_float))
    : list (nat * spec_float) :=
  fold_right insert [] l.

Definition labelled (distances : list spec_float) : list (nat * spec_float) :=
  combine (seq 0 (List.length distances)) distances.

(** The distance is below the initial threshold of the result heap. *)
Definition within_reach (e : nat * spec_float) : bool :=
  SFltb (snd e) F32.max.

(** Labels of the [k] smallest distances within reach, padded with
    [-1]. *)
Definition knn (distances : list spec_float) (k : nat) : list Z :=
  let nearest :=
    firstn k
      (sort_by_distance (filter within_reach (labelled distances))) in
  map (fun e => Z.of_nat (fst e)) nearest
  ++ repeat (-1)%Z (k - List.length nearest).

(** [index.add(xb); _, I = index.search(xq, k); I[0]] *)
Definition search (xb : list (list spec_float)) (xq : list spec_float)
    (k : nat) : list Z :=
  knn (map (fvec_L2sqr xq) xb) k.

End Faiss.

(** ** The vector space in exact arithmetic

    The TF-IDF rows and the squared Euclidean distance as real numbers,
    without any rounding: what the rows and distances of the program
    approximate. *)

Module Ideal.

Definition idf (n_samples df : nat) : R :=
  (ln ((1 + INR n_samples) / (1 + INR df)) + 1)%R.

Definition sum_squares (v : list R) : R :=
  fold_right (fun x acc => (x * x + acc)%R) 0%R v.

Definition normalize (v : list R) : list R :=
  let ss := sum_squares v in
  if Req_dec_T ss 0 then v else map (fun x => (x / sqrt ss)%R) v.

Definition weigh (idfs : list R) (counts : list nat) : list R :=
  map (fun p => (INR (fst p) * snd p)%R) (combine counts idfs).

Definition fit_transform (docs : list string) : option (list (list R)) :=
  let vocab := Sklearn.vocabulary docs in
  match vocab with
  | [] => None
  | _ :: _ =>
      let counts := map (Sklearn.term_counts vocab) docs in
      let dfs := Sklearn.document_frequency (List.length vocab) counts in
      let idfs := map (idf (List.length docs)) dfs in
      Some (map (fun c => normalize (weigh idfs c)) counts)
  end.

Fixpoint fvec_L2sqr (x y : list R) : R :=
  match x, y with
  | a :: x', b :: y' => ((a - b) * (a - b) + fvec_L2sqr x' y')%R
  | _, _ => 0%R
  end.

(** Squared Euclidean distance between the query row (the last row of
    the matrix) and the row of candidate [i]. *)
Definition squared_distance (tfidf_matrix : list (list R)) (i : nat) : R :=
  fvec_L2sqr (last tfidf_matrix []) (nth i tfidf_matrix []).

End Ideal.

(** ** [find_similar_properties] *)

(** What a call produces: the value it returns, or the exception that
    leaves it. *)
Inductive Result : Type :=
| Message (text : string)
| Frame (columns : list string) (rows : list Row)
| Raised (e : Py.exn).

(** Outcome of the filtering part of the function (lines 63-80): go on
    with a table, return a message at once, or raise. *)
Inductive Stage : Type :=
| Continue (df_filtered : list Row)
| Return_ (text : string)
| Raise (e : Py.exn).

Definition no_size : string := "No properties found with the given size.".
Definition no_location : string :=
  "No properties found in the specified location.".
Definition no_price : string := "No properties found within the price range.".

(** Line 63. *)
Definition size_match (df : list Row) (user_size : Py.value) : list Row :=
  filter (fun r => Pandas.eq_scalar (size r) user_size) df.

(** Line 67. *)
Definition exact_match (df_filtered : list Row) (loc : string) : list Row :=
  filter (fun r => Pandas.eq_str (location r) loc) df_filtered.

(** Lines 68-70. *)
Definition partial_match (df_filtered : list Row) (found : string -> bool)
    : list Row :=
  filter (fun r => Pandas.contains_cell found (location r)) df_filtered.

(** Lines 71-73. *)
Definition location_match (df_filtered : list Row) (loc : string)
    (found : string -> bool) : list Row :=
  Pandas.drop_duplicates link
    (exact_match df_filtered loc ++ partial_match df_filtered found).

(** Line 78: the cells of the [price] column, as binary64 numbers,
    compared with the limit. *)
Definition price_band (df_filtered : list Row) (upper_price_limit : spec_float)
    : list Row :=
  filter (fun r => SFleb (F64.of_Q (price r)) upper_price_limit) df_filtered.

(** Lines 63-80. *)
Definition structured_filter (general : string -> option (string -> bool))
    (df : list Row) (user_size user_price user_location : Py.value) : Stage :=
  let df_filtered := size_match df user_size in
  if Pandas.empty df_filtered then Return_ no_size
  else
    match Py.method_lower user_location with
    | inl e => Raise e
    | inr loc =>
        match Re.compile general loc with
        | None => Raise Py.ReError
        | Some found =>
            let df_filtered := location_match df_filtered loc found in
            if Pandas.empty df_filtered then Return_ no_location
            else
              match Py.mul_float user_price 1.05 with
              | inl e => Raise e
              | inr upper_price_limit =>
                  let df_filtered := price_band df_filtered upper_price_limit in
                  if Pandas.empty df_filtered then Return_ no_price
                  else Continue df_filtered
              end
        end
    end.

(** Line 82. *)
Definition with_amenities_str (df_filtered : list Row) : list Candidate :=
  map (fun r => mkCandidate r (Py.join " " (amenities r))) df_filtered.

(** Lines 86-88: the corpus handed to the vectorizer. *)
Definition corpus (candidates : list Candidate) (user_amenities : list string)
    : list string :=
  map amenities_str candidates ++ [Py.join " " user_amenities].

(** Lines 98-108: the columns of the returned table. *)
Definition projection : list string :=
  ["link"; "size"; "price"; "location"; "amenities"; "description";
   "building_name"].

(** Lines 82-108. *)
Definition rank (np_log : spec_float -> spec_float) (df_filtered : list Row)
    (user_amenities : list string) : Result :=
  let candidates := with_amenities_str df_filtered in
  match Sklearn.fit_transform np_log (corpus candidates user_amenities) with
  | None => Raised Py.ValueError
  | Some tfidf_matrix =>
      let embeddings := map (map F32.of_F64) (removelast tfidf_matrix) in
      let user_embedding := map F32.of_F64 (last tfidf_matrix []) in
      let indices := Faiss.search embeddings user_embedding 10 in
      match Pandas.iloc candidates indices with
      | None => Raised Py.IndexError
      | Some nearest =>
          let top_results :=
            Pandas.head 5
              (Pandas.drop_duplicates (fun c => link (row c)) nearest) in
          Frame projection (map row top_results)
      end
  end.

Definition find_similar_properties (np_log : spec_float -> spec_float)
    (general : string -> option (string -> bool)) (df : list Row)
    (user_size user_price user_location : Py.value)
    (user_amenities : list string) : Result :=
  match structured_filter general df user_size user_price user_location with
  | Return_ text => Message text
  | Raise e => Raised e
  | Continue df_filtered => rank np_log df_filtered user_amenities
  end.

(** ** [extract_keywords_from_text] and the driver *)

(** The dictionary the extractor returns. *)
Record Extracted : Type := mkExtracted {
  e_size : Py.value;
  e_price : Py.value;
  e_location : Py.value;
  e_amenities : list string
}.

Fixpoint from_open_brace (s : string) : option string :=
  match s with
  | EmptyString => None
  | String c s' =>
      if Ascii.eqb c "{"%char then Some s else from_open_brace s'
  end.

Fixpoint to_last_close_brace (s : string) : option string :=
  match s with
  | EmptyString => None
  | String c s' =>
      match to_last_close_brace s' with
      | Some t => Some (String c t)
      | None =>
          if Ascii.eqb c "}"%char then Some (String c EmptyString) else None
      end
  end.

(** [re.search(r"\{.*\}", text, re.DOTALL)]: from the first opening
    brace to the last closing brace after it. *)
Definition search_braces (text : string) : option string :=
  match from_open_brace text with
  | None => None
  | Some t => to_last_close_brace t
  end.

(** Lines 140-145. *)
Definition nothing_extracted : Extracted :=
  mkExtracted Py.PNone Py.PNone Py.PNone [].

(** Lines 133-147.  [respond] is the text the language model answers
    for a user text, [eval_] is Python's [eval] on the matched text. *)
Definition extract_keywords_from_text (respond : string -> string)
    (eval_ : string -> Extracted) (user_text : string) : Extracted :=
  match search_braces (respond user_text) with
  | Some matched => eval_ matched
  | None => nothing_extracted
  end.

(** Lines 154-159: what the driver prints. *)
Definition main (np_log : spec_float -> spec_float)
    (general : string -> option (string -> bool))
    (respond : string -> string) (eval_ : string -> Extracted)
    (df : list Row) (user_query : string) : Result :=
  let result := extract_keywords_from_text respond eval_ user_query in
  find_similar_properties np_log general df
    (e_size result) (e_price result) (e_location result) (e_amenities result).


(** ** Cleaning, storing and loading the table

    [preprocess_data], [save_cleaned_data] and [load_cleaned_data] work
    on the table before it reaches [find_similar_properties]: there the
    amenities of a listing are a text (in the CSV file and in SQLite), a
    list of strings, a list with an item that is no string, or
    missing. *)

(** [s.split(sep)] for a one-character separator: every occurrence
    cuts, empty pieces are kept, and the empty string gives one empty
    piece. *)
Fixpoint split (sep : ascii) (s : string) : list string :=
  match s with
  | EmptyString => [EmptyString]
  | String c s' =>
      if Ascii.eqb c sep then EmptyString :: split sep s'
      else
        match split sep s' with
        | piece :: pieces => String c piece :: pieces
        | [] => [String c EmptyString]
        end
  end.

(** A cell of the amenities column. *)
Inductive Cell : Type :=
| Text (s : string)
| Items (l : list string)
| Mixed
| Missing.

(** A row of the table in the CSV file and in SQLite. *)
Record RawRow : Type := mkRawRow {
  raw_link : string;
  raw_size : Z;
  raw_price : Q;
  raw_location : option string;
  raw_amenities : Cell;
  raw_description : string;
  raw_building_name : string
}.

Definition set_amenities (r : RawRow) (x : Cell) : RawRow :=
  mkRawRow (raw_link r) (raw_size r) (raw_price r) (raw_location r) x
    (raw_description r) (raw_building_name r).

(** Line 21: [ast.literal_eval(x) if isinstance(x, str) else x].
    [literal_eval] stands for Python's [ast.literal_eval] on texts that
    denote a string, a list or [None]; it answers the exception when the
    text is no literal. *)
Definition eval_amenities (literal_eval : string -> Py.exn + Cell) (x : Cell)
    : Py.exn + Cell :=
  match x with
  | Text s => literal_eval s
  | _ => inr x
  end.

(** Line 25, [",".join(x) if isinstance(x, list) else x], on a cell
    whose list, if it is one, holds strings only. *)
Definition join_amenities (x : Cell) : Cell :=
  match x with
  | Items l => Text (Py.join "," l)
  | _ => x
  end.

(** Line 25 on any cell: [",".join] raises [TypeError] on a list with
    an item that is no string. *)
Definition join_checked (x : Cell) : Py.exn + Cell :=
  match x with
  | Mixed => inl Py.TypeError
  | _ => inr (join_amenities x)
  end.

(** Line 46: [x.split(",") if isinstance(x, str) else x]. *)
Definition split_amenities (x : Cell) : Cell :=
  match x with
  | Text s => Items (split ","%char s)
  | _ => x
  end.

(** [df["amenities"] = df["amenities"].apply(f)] for an [f] that can
    raise: the first row on which it raises ends the call. *)
Fixpoint apply_amenities (f : Cell -> Py.exn + Cell) (df : list RawRow)
    : Py.exn + list RawRow :=
  match df with
  | [] => inr []
  | r :: df' =>
      match f (raw_amenities r) with
      | inl e => inl e
      | inr x =>
          match apply_amenities f df' with
          | inl e => inl e
          | inr rest => inr (set_amenities r x :: rest)
          end
      end
  end.

(** One cell of [df["location"].str.lower()]: a missing location stays
    missing. *)
Definition lower_location (r : RawRow) : RawRow :=
  mkRawRow (raw_link r) (raw_size r) (raw_price r)
    (option_map Py.lower (raw_location r)) (raw_amenities r)
    (raw_description r) (raw_building_name r).

Definition missing_location (r : RawRow) : bool :=
  match raw_location r with
  | None => true
  | Some _ => false
  end.

(** The location column of a frame read by [pd.read_csv] has rows and
    no text in any of them: its dtype is then [float64], not
    [object]. *)
Definition location_without_text (df : list RawRow) : bool :=
  negb (Pandas.empty df) && forallb missing_location df.

(** Line 23: [df["location"] = df["location"].str.lower()].  The
    accessor [.str] raises [AttributeError] on a column that is not of
    dtype [object]. *)
Definition str_lower_location (df : list RawRow) : Py.exn + list RawRow :=
  if location_without_text df then inl Py.AttributeError
  else inr (map lower_location df).

(** Lines 18-27, for a frame as [pd.read_csv] builds it. *)
Definition preprocess_data (literal_eval : string -> Py.exn + Cell)
    (df : list RawRow) : Py.exn + list RawRow :=
  match apply_amenities (eval_amenities literal_eval) df with
  | inl e => inl e
  | inr df =>
      match str_lower_location df with
      | inl e => inl e
      | inr df => apply_amenities join_checked df
      end
  end.

(** Lines 30-37: the content written to the [properties] table for the
    frame [raw_df] read from the CSV file. *)
Definition save_cleaned_data (literal_eval : string -> Py.exn + Cell)
    (raw_df : list RawRow) : Py.exn + list RawRow :=
  preprocess_data literal_eval raw_df.

(** Lines 40-48, for the content [table] of the [properties] table. *)
Definition load_cleaned_data (table : list RawRow) : list RawRow :=
  map (fun r => set_amenities r (split_amenities (raw_amenities r))) table.

(** A loaded row as [find_similar_properties] reads it: a row whose
    amenities are a list.  After loading no amenities are a text, and
    missing amenities make line 82 raise. *)
Definition as_row (r : RawRow) : option Row :=
  match raw_amenities r with
  | Items l =>
      Some (mkRow (raw_link r) (raw_size r) (raw_price r) (raw_location r) l
              (raw_description r) (raw_building_name r))
  | _ => None
  end.


(** ** [get_user_input]

    Lines 51-58, for the four lines typed at the prompts.  [int_] and
    [float_] stand for Python's [int] and [float] on a text; what the
    function prints is left out. *)
Definition get_user_input (int_ : string -> Py.exn + Z)
    (float_ : string -> Py.exn + Q)
    (size_line price_line location_line amenities_line : string)
    : Py.exn + (Z * Q * string * list string) :=
  match int_ size_line with
  | inl e => inl e
  | inr user_size =>
      match float_ price_line with
      | inl e => inl e
      | inr user_price =>
          let user_location := location_line in
          let user_amenities := split ","%char amenities_line in
          inr (user_size, user_price, user_location, user_amenities)
      end
  end.

(** ** Vocabulary of the statements *)

(** The squared distance the index computes between the query row (the
    last row of the matrix) and the row of candidate [i], both cast to
    binary32. *)
Definition squared_distance (tfidf_matrix : list (list spec_float)) (i : nat)
    : spec_float :=
  Faiss.fvec_L2sqr (map F32.of_F64 (last tfidf_matrix []))
    (map F32.of_F64 (nth i tfidf_matrix [])).

(** The distances computed for the candidates of a filtered table, in
    its order; none when the vectorizer raises. *)
Definition scores (np_log : spec_float -> spec_float) (df_filtered : list Row)
    (user_amenities : list string) : list spec_float :=
  match Sklearn.fit_transform np_log
          (corpus (with_amenities_str df_filtered) user_amenities) with
  | None => []
  | Some tfidf_matrix =>
      map (squared_distance tfidf_matrix) (seq 0 (List.length df_filtered))
  end.

(** Every candidate is within reach of the index: its computed distance
    is a number below [FLT_MAX]. *)
Definition all_within_reach (np_log : spec_float -> spec_float)
    (df_filtered : list Row) (user_amenities : list string) : bool :=
  forallb (fun d => SFltb d F32.max) (scores np_log df_filtered user_amenities).

(** Position [i] is ranked before position [j] under the score [d]: its
    score is strictly smaller, or equal with [i] the earlier position. *)
Definition ranked (d : nat -> spec_float) (i j : nat) : Prop :=
  SFltb (d i) (d j) = true \/ (SFeqb (d i) (d j) = true /\ (i < j)%nat).

(** The same order on (label, distance) pairs, as the index sees them. *)
Definition before (a b : nat * spec_float) : Prop :=
  SFltb (snd a) (snd b) = true
  \/ (SFeqb (snd a) (snd b) = true /\ (fst a < fst b)%nat).

Definition is_nan (x : spec_float) : bool :=
  match x with
  | S754_nan => true
  | _ => false
  end.

(** The place of a number on the line of floats: its class, then its
    exponent, then its mantissa. *)
Definition key (x : spec_float) : Z * Z * Z :=
  match x with
  | S754_infinity true => (-2, 0, 0)
  | S754_finite true m e => (-1, - e, Zneg m)
  | S754_zero _ => (0, 0, 0)
  | S754_nan => (0, 0, 0)
  | S754_finite false m e => (1, e, Zpos m)
  | S754_infinity false => (2, 0, 0)
  end%Z.

Definition key_lt (a b : Z * Z * Z) : Prop :=
  (fst (fst a) < fst (fst b)
   \/ (fst (fst a) = fst (fst b)
       /\ (snd (fst a) < snd (fst b)
           \/ (snd (fst a) = snd (fst b) /\ snd a < snd b))))%Z.

(** A number without a minus sign, or no number at all. *)
Definition unsigned (x : spec_float) : Prop :=
  match x with
  | S754_zero s | S754_infinity s | S754_finite s _ _ => s = false
  | S754_nan => True
  end.

(** The amenity text of a listing yields at least one token. *)
Definition has_token (r : Row) : bool :=
  negb (Pandas.empty (Sklearn.tokenize (Py.join " " (amenities r)))).

(** The character [c] occurs in [s]. *)
Fixpoint occurs (c : ascii) (s : string) : bool :=
  match s with
  | EmptyString => false
  | String d s' => Ascii.eqb d c || occurs c s'
  end.

(** What [find_similar_properties] checks of a listing: the size, the
    location against the lower-cased query location [loc] and its
    compiled pattern [found], and the price against [limit]. *)
Definition meets (user_size : Py.value) (loc : string)
    (found : string -> bool) (limit : spec_float) (r : Row) : Prop :=
  Pandas.eq_scalar (size r) user_size = true
  /\ (Pandas.eq_str (location r) loc = true
      \/ Pandas.contains_cell found (location r) = true)
  /\ SFleb (F64.of_Q (price r)) limit = true.

(** [isinstance(result, str)] *)
Definition isinstance_str (result : Result) : bool :=
  match result with
  | Message _ => true
  | _ => false
  end.

(** Stand-in for the part of [re.compile] that [Re.compile] delegates,
    for inputs on which it is never consulted. *)
Definition not_consulted : string -> option (string -> bool) :=
  fun _ => None.

(** Stand-in for [np.log] in the concrete scenarios: the logarithms of
    2 and of 4/3, the only arguments met there, rounded to binary64. *)
Definition log_of_scenarios (x : spec_float) : spec_float :=
  if SFeqb x (F64.of_Z 2) then S754_finite false 6243314768165359 (-53)
  else if SFeqb x (F64.div (F64.of_Z 4) (F64.of_Z 3))
       then S754_finite false 5182419497180049 (-54)
       else S754_nan.

(** Listings used in the concrete scenarios. *)
Definition listing_gym : Row :=
  mkRow "id1" 2 100000 (Some "mumbai") ["gym"] "two rooms" "tower a".
Definition listing_pool : Row :=
  mkRow "id2" 2 118000 (Some "mumbai") ["pool"] "two rooms" "tower b".
Definition listing_bare : Row :=
  mkRow "id3" 2 90000 (Some "mumbai") [] "two rooms" "tower c".
Definition listing_abc : Row :=
  mkRow "id4" 2 90000 (Some "abc") ["gym"] "two rooms" "tower d".
Definition listing_at_limit : Row :=
  mkRow "id5" 2 126000 (Some "mumbai") ["lift"] "two rooms" "tower e".
Definition listing_duo : Row :=
  mkRow "id8" 2 95000 (Some "mumbai") ["pool"; "lift"] "two rooms" "tower h".
Definition listing_above : Row :=
  mkRow "id9" 2 3.1500000000000004 (Some "mumbai") ["gym"] "two rooms"
    "tower i".

(** * Properties *)

(** ** Lists and tables *)

Lemma empty_true_iff {A : Type} (l : list A) : Pandas.empty l = true <-> l = [].
Proof. destruct l; simpl; split; intro H; congruence. Qed.

Lemma empty_false_iff {A : Type} (l : list A) :
  Pandas.empty l = false <-> l <> [].
Proof. destruct l; simpl; split; intro H; congruence. Qed.

Lemma existsb_eqb_In (k : string) (seen : list string) :
  existsb (String.eqb k) seen = true <-> In k seen.
Proof.
  rewrite existsb_exists. split.
  - intros [x [Hin Heq]]. apply String.eqb_eq in Heq. now subst.
  - intro Hin. exists k. split; [assumption | apply String.eqb_refl].
Qed.

Lemma existsb_eqb_not_In (k : string) (seen : list string) :
  existsb (String.eqb k) seen = false <-> ~ In k seen.
Proof.
  rewrite <- existsb_eqb_In.
  destruct (existsb (String.eqb k) seen); split; intro H.
  - discriminate.
  - now elim H.
  - intro H'. discriminate.
  - reflexivity.
Qed.

Section DropDuplicates.

Context {A : Type} (key : A -> string).

Lemma drop_duplicates_from_In (l : list A) : forall seen x,
  In x (Pandas.drop_duplicates_from key seen l) ->
  In x l /\ ~ In (key x) seen.
Proof.
  induction l as [| r l IH]; intros seen x Hin; simpl in *.
  - contradiction.
  - destruct (existsb (String.eqb (key r)) seen) eqn:E.
    + destruct (IH _ _ Hin) as [H1 H2]. auto.
    + apply existsb_eqb_not_In in E. destruct Hin as [-> | Hin].
      * auto.
      * destruct (IH _ _ Hin) as [H1 H2]. split; [auto |].
        intro H. apply H2. now right.
Qed.

Lemma drop_duplicates_from_keys (l : list A) : forall seen x,
  In x l -> ~ In (key x) seen ->
  In (key x) (map key (Pandas.drop_duplicates_from key seen l)).
Proof.
  induction l as [| r l IH]; intros seen x Hin Hseen; simpl in *.
  - contradiction.
  - destruct (existsb (String.eqb (key r)) seen) eqn:E.
    + apply existsb_eqb_In in E. destruct Hin as [-> | Hin].
      * contradiction.
      * now apply IH.
    + simpl. destruct Hin as [-> | Hin]; [now left |].
      destruct (string_dec (key r) (key x)) as [Heq | Hne]; [now left |].
      right. apply IH; [assumption |]. intros [H | H]; auto.
Qed.

Lemma drop_duplicates_from_NoDup (l : list A) : forall seen,
  NoDup (map key (Pandas.drop_duplicates_from key seen l)).
Proof.
  induction l as [| r l IH]; intro seen; simpl.
  - constructor.
  - destruct (existsb (String.eqb (key r)) seen) eqn:E; [apply IH |].
    simpl. constructor; [| apply IH].
    intro Hin. apply in_map_iff in Hin. destruct Hin as [x [Hk Hx]].
    apply drop_duplicates_from_In in Hx. destruct Hx as [_ Hx].
    apply Hx. left. now symmetry.
Qed.

(** The first row carrying a key is the one that is kept. *)
Lemma drop_duplicates_from_first (l1 : list A) : forall seen x l2,
  ~ In (key x) seen -> ~ In (key x) (map key l1) ->
  In x (Pandas.drop_duplicates_from key seen (l1 ++ x :: l2)).
Proof.
  induction l1 as [| r l1 IH]; intros seen x l2 Hseen Hl1; simpl in *.
  - apply existsb_eqb_not_In in Hseen. rewrite Hseen. now left.
  - destruct (existsb (String.eqb (key r)) seen).
    + apply IH; auto.
    + right. apply IH; [| auto]. intros [H | H]; auto.
Qed.

Lemma first_with_key (l : list A) : forall x,
  In x l ->
  exists l1 x' l2,
    l = l1 ++ x' :: l2 /\ key x' = key x /\ ~ In (key x) (map key l1).
Proof.
  induction l as [| r l IH]; intros x Hin; [contradiction |].
  destruct (string_dec (key r) (key x)) as [Heq | Hne].
  - exists [], r, l. simpl. auto.
  - destruct Hin as [-> | Hin]; [congruence |].
    destruct (IH _ Hin) as (l1 & x' & l2 & -> & Hk & Hn).
    exists (r :: l1), x', l2. simpl. repeat split; auto.
    intros [H | H]; auto.
Qed.

Lemma drop_duplicates_from_Forall (P : A -> Prop) (l : list A) seen :
  Forall P l -> Forall P (Pandas.drop_duplicates_from key seen l).
Proof.
  rewrite !Forall_forall. intros H x Hx.
  apply drop_duplicates_from_In in Hx. now apply H.
Qed.

Lemma drop_duplicates_from_id (l : list A) : forall seen,
  NoDup (map key l) -> (forall x, In x l -> ~ In (key x) seen) ->
  Pandas.drop_duplicates_from key seen l = l.
Proof.
  induction l as [| r l IH]; intros seen Hnd Hseen; simpl; [reflexivity |].
  inversion Hnd as [| ? ? Hr Hl]; subst.
  assert (E : existsb (String.eqb (key r)) seen = false).
  { apply existsb_eqb_not_In. apply Hseen. now left. }
  rewrite E. f_equal. apply IH; [assumption |].
  intros x Hx [H | H].
  - apply Hr. rewrite H. now apply in_map.
  - apply (Hseen x); [now right | assumption].
Qed.

(** Rows whose key was met before add nothing. *)
Lemma drop_duplicates_from_absorb (l extra : list A) : forall seen,
  (forall b, In b extra -> In (key b) (map key l) \/ In (key b) seen) ->
  Pandas.drop_duplicates_from key seen (l ++ extra)
  = Pandas.drop_duplicates_from key seen l.
Proof.
  induction l as [| r l IH]; intros seen Hex; simpl.
  - induction extra as [| b extra IHe]; simpl; [reflexivity |].
    assert (E : existsb (String.eqb (key b)) seen = true).
    { apply existsb_eqb_In. destruct (Hex b (or_introl eq_refl)) as [H | H];
        [contradiction | assumption]. }
    rewrite E. apply IHe. intros b' Hb'. apply Hex. now right.
  - destruct (existsb (String.eqb (key r)) seen) eqn:E.
    + apply IH. intros b Hb. destruct (Hex b Hb) as [[H | H] | H]; auto.
      right. rewrite <- H. now apply existsb_eqb_In.
    + f_equal. apply IH. intros b Hb.
      destruct (Hex b Hb) as [[H | H] | H]; simpl; auto.
Qed.

End DropDuplicates.

Lemma drop_duplicates_from_map {A B : Type} (key : B -> string) (f : A -> B)
    (l : list A) : forall seen,
  Pandas.drop_duplicates_from key seen (map f l)
  = map f (Pandas.drop_duplicates_from (fun x => key (f x)) seen l).
Proof.
  induction l as [| r l IH]; intro seen; simpl; [reflexivity |].
  destruct (existsb (String.eqb (key (f r))) seen); simpl; now rewrite IH.
Qed.

(** ** The structured filter *)

Section Filter.

Variable general : string -> option (string -> bool).

Lemma structured_filter_Continue df user_size user_price user_location l :
  structured_filter general df user_size user_price user_location = Continue l
  <->
  exists loc found limit,
    Py.method_lower user_location = inr loc
    /\ Re.compile general loc = Some found
    /\ Py.mul_float user_price 1.05 = inr limit
    /\ size_match df user_size <> []
    /\ location_match (size_match df user_size) loc found <> []
    /\ l = price_band (location_match (size_match df user_size) loc found) limit
    /\ l <> [].
Proof.
  unfold structured_filter. split.
  - destruct (Pandas.empty (size_match df user_size)) eqn:E1; [discriminate |].
    destruct (Py.method_lower user_location) as [e | loc] eqn:El;
      [discriminate |].
    destruct (Re.compile general loc) as [found |] eqn:Ec; [| discriminate].
    destruct (Pandas.empty (location_match _ loc found)) eqn:E2;
      [discriminate |].
    destruct (Py.mul_float user_price 1.05) as [e | limit] eqn:Em;
      [discriminate |].
    destruct (Pandas.empty (price_band _ limit)) eqn:E3; [discriminate |].
    intro H. injection H as <-. exists loc, found, limit.
    apply empty_false_iff in E1, E2, E3. repeat split; assumption.
  - intros (loc & found & limit & -> & -> & -> & H1 & H2 & -> & H3).
    apply empty_false_iff in H1, H2, H3. now rewrite H1, H2, H3.
Qed.

Lemma structured_filter_no_size df user_size user_price user_location :
  structured_filter general df user_size user_price user_location
  = Return_ no_size
  <-> size_match df user_size = [].
Proof.
  unfold structured_filter. split.
  - destruct (Pandas.empty (size_match df user_size)) eqn:E1;
      [intros _; now apply empty_true_iff |].
    destruct (Py.method_lower user_location) as [e | loc] eqn:El;
      [discriminate |].
    destruct (Re.compile general loc) as [found |] eqn:Ec; [| discriminate].
    destruct (Pandas.empty (location_match _ loc found)); [discriminate |].
    destruct (Py.mul_float user_price 1.05) as [e | limit] eqn:Em;
      [discriminate |].
    destruct (Pandas.empty (price_band _ limit)); discriminate.
  - intro H. apply empty_true_iff in H. now rewrite H.
Qed.

Lemma structured_filter_no_location df user_size user_price user_location :
  structured_filter general df user_size user_price user_location
  = Return_ no_location
  <->
  size_match df user_size <> []
  /\ exists loc found,
       Py.method_lower user_location = inr loc
       /\ Re.compile general loc = Some found
       /\ location_match (size_match df user_size) loc found = [].
Proof.
  unfold structured_filter. split.
  - destruct (Pandas.empty (size_match df user_size)) eqn:E1; [discriminate |].
    destruct (Py.method_lower user_location) as [e | loc] eqn:El;
      [discriminate |].
    destruct (Re.compile general loc) as [found |] eqn:Ec; [| discriminate].
    destruct (Pandas.empty (location_match _ loc found)) eqn:E2.
    + intros _. apply empty_false_iff in E1. apply empty_true_iff in E2.
      split; [assumption |]. now exists loc, found.
    + destruct (Py.mul_float user_price 1.05) as [e | limit] eqn:Em;
      [discriminate |].
      destruct (Pandas.empty (price_band _ limit)); discriminate.
  - intros (H1 & loc & found & -> & -> & H2).
    apply empty_false_iff in H1. apply empty_true_iff in H2.
    now rewrite H1, H2.
Qed.

Lemma structured_filter_no_price df user_size user_price user_location :
  structured_filter general df user_size user_price user_location
  = Return_ no_price
  <->
  size_match df user_size <> []
  /\ exists loc found limit,
       Py.method_lower user_location = inr loc
       /\ Re.compile general loc = Some found
       /\ location_match (size_match df user_size) loc found <> []
       /\ Py.mul_float user_price 1.05 = inr limit
       /\ price_band (location_match (size_match df user_size) loc found) limit
          = [].
Proof.
  unfold structured_filter. split.
  - destruct (Pandas.empty (size_match df user_size)) eqn:E1; [discriminate |].
    destruct (Py.method_lower user_location) as [e | loc] eqn:El;
      [discriminate |].
    destruct (Re.compile general loc) as [found |] eqn:Ec; [| discriminate].
    destruct (Pandas.empty (location_match _ loc found)) eqn:E2;
      [discriminate |].
    destruct (Py.mul_float user_price 1.05) as [e | limit] eqn:Em;
      [discriminate |].
    destruct (Pandas.empty (price_band _ limit)) eqn:E3; [| discriminate].
    intros _. apply empty_false_iff in E1, E2. apply empty_true_iff in E3.
    split; [assumption |]. now exists loc, found, limit.
  - intros (H1 & loc & found & limit & -> & -> & H2 & -> & H3).
    apply empty_false_iff in H1, H2. apply empty_true_iff in H3.
    now rewrite H1, H2, H3.
Qed.

Lemma structured_filter_messages df user_size user_price user_location text :
  structured_filter general df user_size user_price user_location
  = Return_ text ->
  text = no_size \/ text = no_location \/ text = no_price.
Proof.
  unfold structured_filter.
  destruct (Pandas.empty (size_match df user_size));
    [intro H; injection H; auto |].
  destruct (Py.method_lower user_location) as [e | loc]; [discriminate |].
  destruct (Re.compile general loc) as [found |]; [| discriminate].
  destruct (Pandas.empty (location_match _ loc found));
    [intro H; injection H; auto |].
  destruct (Py.mul_float user_price 1.05) as [e | limit]; [discriminate |].
  destruct (Pandas.empty (price_band _ limit));
    [intro H; injection H; auto | discriminate].
Qed.

Lemma size_match_In df user_size r :
  In r (size_match df user_size)
  <-> In r df /\ Pandas.eq_scalar (size r) user_size = true.
Proof. unfold size_match. apply filter_In. Qed.

Lemma price_band_In df_filtered limit r :
  In r (price_band df_filtered limit)
  <-> In r df_filtered /\ SFleb (F64.of_Q (price r)) limit = true.
Proof. unfold price_band. apply filter_In. Qed.


Lemma location_match_In df_filtered loc found r :
  In r (location_match df_filtered loc found) ->
  In r (exact_match df_filtered loc) \/ In r (partial_match df_filtered found).
Proof.
  unfold location_match, Pandas.drop_duplicates. intro H.
  apply drop_duplicates_from_In in H. destruct H as [H _].
  now apply in_app_or.
Qed.

Lemma location_match_subset df_filtered loc found r :
  In r (location_match df_filtered loc found) -> In r df_filtered.
Proof.
  intro H. apply location_match_In in H.
  unfold exact_match, partial_match in H.
  destruct H as [H | H]; apply filter_In in H; destruct H as [H _]; exact H.
Qed.

Lemma location_match_links df_filtered loc found r :
  In r (exact_match df_filtered loc) \/ In r (partial_match df_filtered found)
  -> In (link r) (map link (location_match df_filtered loc found)).
Proof.
  intro H. unfold location_match, Pandas.drop_duplicates.
  apply drop_duplicates_from_keys; [| intros []].
  apply in_or_app. exact H.
Qed.

Lemma location_match_NoDup df_filtered loc found :
  NoDup (map link (location_match df_filtered loc found)).
Proof. apply drop_duplicates_from_NoDup. Qed.

(** The price band keeps links distinct. *)
Lemma price_band_NoDup df_filtered limit :
  NoDup (map link df_filtered) ->
  NoDup (map link (price_band df_filtered limit)).
Proof.
  unfold price_band. intro Hnd.
  induction df_filtered as [| r rest IH]; simpl; [constructor |].
  apply NoDup_cons_iff in Hnd. destruct Hnd as [Hr Hrest].
  destruct (SFleb (F64.of_Q (price r)) limit); simpl; [| now apply IH].
  apply NoDup_cons_iff. split; [| now apply IH].
  intro Hin. apply Hr. apply in_map_iff in Hin.
  destruct Hin as (x & Hx & Hin). apply filter_In in Hin.
  rewrite <- Hx. apply in_map. apply Hin.
Qed.


Lemma structured_filter_nonempty df user_size user_price user_location l :
  structured_filter general df user_size user_price user_location = Continue l
  -> l <> [].
Proof.
  intro H. apply structured_filter_Continue in H.
  destruct H as (loc & found & limit & _ & _ & _ & _ & _ & _ & Hne).
  exact Hne.
Qed.

Lemma structured_filter_NoDup df user_size user_price user_location l :
  structured_filter general df user_size user_price user_location = Continue l
  -> NoDup (map link l).
Proof.
  intro H. apply structured_filter_Continue in H.
  destruct H as (loc & found & limit & _ & _ & _ & _ & _ & -> & _).
  apply price_band_NoDup, location_match_NoDup.
Qed.

(** On a pattern without metacharacters the compiled search is the
    substring test. *)
Lemma literal_parse pat :
  Re.literal pat = true ->
  exists atoms, Re.parse pat = Some atoms
    /\ forall s, Re.match_here atoms s = Re.prefixb pat s.
Proof.
  induction pat as [| c pat IH]; simpl; intro H.
  - exists []. split; [reflexivity |]. intros []; reflexivity.
  - apply andb_true_iff in H. destruct H as [Hc Hp].
    destruct (IH Hp) as (atoms & -> & Hm).
    assert (Hdot : Ascii.eqb c "."%char = false).
    { destruct (Ascii.eqb c "."%char) eqn:E; [| reflexivity].
      apply Ascii.eqb_eq in E. subst c. discriminate. }
    rewrite Hdot. apply negb_true_iff in Hc. rewrite Hc.
    exists (Re.Lit c :: atoms). split; [reflexivity |].
    intros [| d s]; simpl; [reflexivity |]. now rewrite Hm.
Qed.

Lemma literal_compile pat :
  Re.literal pat = true ->
  exists found, Re.compile general pat = Some found
    /\ forall s, found s = Re.substringb pat s.
Proof.
  intro H. destruct (literal_parse pat H) as (atoms & Hp & Hm).
  unfold Re.compile. rewrite Hp. exists (Re.search atoms).
  split; [reflexivity |].
  induction s as [| d s IHs]; simpl; rewrite Hm; [reflexivity |].
  now rewrite IHs.
Qed.

End Filter.

(** ** The order of floats *)

Lemma SFcompare_key x y :
  is_nan x = false -> is_nan y = false ->
  exists c, SFcompare x y = Some c
    /\ match c with
       | Lt => key_lt (key x) (key y)
       | Eq => key x = key y
       | Gt => key_lt (key y) (key x)
       end.
Proof.
  intros Hx Hy.
  destruct x as [sx | sx | | sx mx ex]; try discriminate;
  destruct y as [sy | sy | | sy my ey]; try discriminate;
  try (destruct sx); try (destruct sy); simpl;
  try (eexists; split; [reflexivity |]; unfold key_lt; simpl;
       first [reflexivity | lia]).
  - change (Pos.compare_cont Eq mx my) with (Pos.compare mx my).
    destruct (Z.compare_spec ex ey) as [E | E | E];
      [| eexists; split; [reflexivity |]; unfold key_lt; simpl; lia ..].
    subst ey. destruct (Pos.compare_spec mx my) as [E | E | E]; simpl;
      (eexists; split; [reflexivity |]); unfold key_lt; simpl; try lia.
    now subst.
  - change (Pos.compare_cont Eq mx my) with (Pos.compare mx my).
    destruct (Z.compare_spec ex ey) as [E | E | E];
      [| eexists; split; [reflexivity |]; unfold key_lt; simpl; lia ..].
    subst ey. destruct (Pos.compare_spec mx my) as [E | E | E]; simpl;
      (eexists; split; [reflexivity |]); unfold key_lt; simpl; try lia.
    now subst.
Qed.

Lemma key_lt_irrefl a : ~ key_lt a a.
Proof. unfold key_lt. lia. Qed.

Lemma key_lt_trans a b c : key_lt a b -> key_lt b c -> key_lt a c.
Proof. unfold key_lt. lia. Qed.

Lemma key_lt_total a b : key_lt a b \/ a = b \/ key_lt b a.
Proof.
  destruct a as [[a1 a2] a3], b as [[b1 b2] b3]. unfold key_lt. simpl.
  destruct (Z.lt_total a1 b1) as [H | [H | H]]; [lia | | lia].
  destruct (Z.lt_total a2 b2) as [H2 | [H2 | H2]]; [lia | | lia].
  destruct (Z.lt_total a3 b3) as [H3 | [H3 | H3]]; [lia | | lia].
  right. left. now subst.
Qed.

Lemma SFltb_not_nan x y :
  SFltb x y = true -> is_nan x = false /\ is_nan y = false.
Proof. destruct x, y; simpl; auto; discriminate. Qed.

Lemma SFeqb_not_nan x y :
  SFeqb x y = true -> is_nan x = false /\ is_nan y = false.
Proof. destruct x, y; simpl; auto; discriminate. Qed.

Lemma SFleb_not_nan x y :
  SFleb x y = true -> is_nan x = false /\ is_nan y = false.
Proof. destruct x, y; simpl; auto; discriminate. Qed.

Lemma SFltb_key x y :
  is_nan x = false -> is_nan y = false ->
  SFltb x y = true <-> key_lt (key x) (key y).
Proof.
  intros Hx Hy. destruct (SFcompare_key x y Hx Hy) as (c & Hc & Hk).
  unfold SFltb. rewrite Hc. destruct c; split; intro H;
    try discriminate; try reflexivity; try assumption.
  - rewrite Hk in H. now apply key_lt_irrefl in H.
  - elim (key_lt_irrefl (key x)). now apply (key_lt_trans _ (key y)).
Qed.

Lemma SFeqb_key x y :
  is_nan x = false -> is_nan y = false ->
  SFeqb x y = true <-> key x = key y.
Proof.
  intros Hx Hy. destruct (SFcompare_key x y Hx Hy) as (c & Hc & Hk).
  unfold SFeqb. rewrite Hc. destruct c; split; intro H;
    try discriminate; try reflexivity; try assumption.
  - rewrite H in Hk. now apply key_lt_irrefl in Hk.
  - rewrite H in Hk. now apply key_lt_irrefl in Hk.
Qed.

Lemma SFleb_cases x y :
  SFleb x y = true <-> SFltb x y = true \/ SFeqb x y = true.
Proof.
  unfold SFleb, SFltb, SFeqb.
  destruct (SFcompare x y) as [[| |] |]; split; intro H; auto;
    try discriminate; destruct H; discriminate.
Qed.

(** Numbers compare one way or the other. *)
Lemma SFltb_false x y :
  is_nan x = false -> is_nan y = false -> SFltb x y = false ->
  SFltb y x = true \/ SFeqb y x = true.
Proof.
  intros Hx Hy H.
  destruct (key_lt_total (key y) (key x)) as [Hk | [Hk | Hk]].
  - left. now apply SFltb_key.
  - right. now apply SFeqb_key.
  - apply (SFltb_key x y Hx Hy) in Hk. congruence.
Qed.

Lemma SFleb_trans x y z :
  SFleb x y = true -> SFleb y z = true -> SFleb x z = true.
Proof.
  intros Hxy Hyz.
  destruct (SFleb_not_nan _ _ Hxy) as [Hx Hy].
  destruct (SFleb_not_nan _ _ Hyz) as [_ Hz].
  apply SFleb_cases in Hxy, Hyz. apply SFleb_cases.
  rewrite (SFltb_key x y Hx Hy), (SFeqb_key x y Hx Hy) in Hxy.
  rewrite (SFltb_key y z Hy Hz), (SFeqb_key y z Hy Hz) in Hyz.
  rewrite (SFltb_key x z Hx Hz), (SFeqb_key x z Hx Hz).
  destruct Hxy as [H1 | H1], Hyz as [H2 | H2].
  - left. now apply (key_lt_trans _ (key y)).
  - left. now rewrite <- H2.
  - left. now rewrite H1.
  - right. congruence.
Qed.

Lemma before_trans a b c :
  before a b -> before b c -> before a c.
Proof.
  unfold before. intros Hab Hbc.
  assert (Ha : is_nan (snd a) = false)
    by (destruct Hab as [H | [H _]];
        [apply SFltb_not_nan in H | apply SFeqb_not_nan in H]; apply H).
  assert (Hb : is_nan (snd b) = false)
    by (destruct Hab as [H | [H _]];
        [apply SFltb_not_nan in H | apply SFeqb_not_nan in H]; apply H).
  assert (Hc : is_nan (snd c) = false)
    by (destruct Hbc as [H | [H _]];
        [apply SFltb_not_nan in H | apply SFeqb_not_nan in H]; apply H).
  rewrite (SFltb_key _ _ Ha Hb), (SFeqb_key _ _ Ha Hb) in Hab.
  rewrite (SFltb_key _ _ Hb Hc), (SFeqb_key _ _ Hb Hc) in Hbc.
  rewrite (SFltb_key _ _ Ha Hc), (SFeqb_key _ _ Ha Hc).
  destruct Hab as [H1 | [H1 L1]], Hbc as [H2 | [H2 L2]].
  - left. now apply (key_lt_trans _ (key (snd b))).
  - left. now rewrite <- H2.
  - left. now rewrite H1.
  - right. split; [congruence | lia].
Qed.

(** ** The flat index: nearest first, earlier label first among ties *)

Lemma insert_Permutation e l : Permutation (Faiss.insert e l) (e :: l).
Proof.
  induction l as [| h t IH]; simpl; [reflexivity |].
  destruct (SFltb (snd h) (snd e)); [| reflexivity].
  rewrite IH. apply perm_swap.
Qed.

Lemma sort_by_distance_Permutation l :
  Permutation (Faiss.sort_by_distance l) l.
Proof.
  induction l as [| e l IH]; simpl; [reflexivity |].
  rewrite insert_Permutation. now constructor.
Qed.

Lemma insert_Forall (P : nat * spec_float -> Prop) e l :
  P e -> Forall P l -> Forall P (Faiss.insert e l).
Proof.
  intros He Hl. rewrite Forall_forall. intros x Hx.
  apply (Permutation_in _ (insert_Permutation e l)) in Hx.
  destruct Hx as [<- | Hx]; [assumption |].
  rewrite Forall_forall in Hl. now apply Hl.
Qed.

Lemma insert_sorted e l :
  is_nan (snd e) = false ->
  Forall (fun h => is_nan (snd h) = false) l ->
  StronglySorted before l ->
  Forall (fun h => (fst e < fst h)%nat) l ->
  StronglySorted before (Faiss.insert e l).
Proof.
  intro He. induction l as [| h t IH]; simpl; intros Hnan Hs Hlab.
  - repeat constructor.
  - inversion Hs as [| ? ? Ht Hh]; subst.
    inversion Hlab as [| ? ? Heh Het]; subst.
    inversion Hnan as [| ? ? Hhn Htn]; subst.
    destruct (SFltb (snd h) (snd e)) eqn:Hlt.
    + constructor; [now apply IH |].
      apply insert_Forall; [now left | assumption].
    + assert (Hbefore : before e h).
      { destruct (SFltb_false _ _ Hhn He Hlt) as [H | H];
          [now left | right; now split]. }
      constructor; [assumption |]. constructor; [exact Hbefore |].
      rewrite Forall_forall in Hh |- *. intros x Hx.
      apply (before_trans e h x); [exact Hbefore | now apply Hh].
Qed.

Lemma sort_by_distance_Forall (P : nat * spec_float -> Prop) l :
  Forall P l -> Forall P (Faiss.sort_by_distance l).
Proof.
  intro H. rewrite Forall_forall in *. intros x Hx. apply H.
  now apply (Permutation_in _ (sort_by_distance_Permutation l)).
Qed.

Lemma sort_by_distance_sorted l :
  Forall (fun h => is_nan (snd h) = false) l ->
  StronglySorted (fun a b => (fst a < fst b)%nat) l ->
  StronglySorted before (Faiss.sort_by_distance l).
Proof.
  induction l as [| e l IH]; simpl; intros Hnan Hs; [constructor |].
  inversion Hs as [| ? ? Hl He]; subst.
  inversion Hnan as [| ? ? Hen Hln]; subst.
  apply insert_sorted; [assumption | | now apply IH |].
  - now apply sort_by_distance_Forall.
  - now apply sort_by_distance_Forall.
Qed.

Lemma In_firstn {A : Type} (l : list A) : forall n x,
  In x (firstn n l) -> In x l.
Proof.
  induction l as [| a l IH]; intros [| n] x H; simpl in *; try contradiction.
  destruct H as [H | H]; [now left | right; now apply (IH n)].
Qed.

Lemma firstn_sorted {A : Type} (rel : A -> A -> Prop) (l : list A) :
  forall n, StronglySorted rel l -> StronglySorted rel (firstn n l).
Proof.
  induction l as [| a l IH]; intros [| n] Hs; simpl; try constructor.
  - inversion Hs; subst. now apply IH.
  - inversion Hs as [| ? ? Hl Ha]; subst.
    rewrite Forall_forall in *. intros x Hx. apply Ha.
    now apply (In_firstn l n).
Qed.

Lemma filter_sorted {A : Type} (rel : A -> A -> Prop) (p : A -> bool)
    (l : list A) :
  StronglySorted rel l -> StronglySorted rel (filter p l).
Proof.
  induction 1 as [| a l Hl IH Ha]; simpl; [constructor |].
  destruct (p a); [| exact IH].
  constructor; [exact IH |].
  rewrite Forall_forall in *. intros x Hx. apply Ha.
  apply filter_In in Hx. apply Hx.
Qed.

Lemma filter_all {A : Type} (p : A -> bool) (l : list A) :
  forallb p l = true -> filter p l = l.
Proof.
  induction l as [| a l IH]; simpl; intro H; [reflexivity |].
  apply andb_true_iff in H. destruct H as [Ha Hl].
  now rewrite Ha, IH.
Qed.

(** The labelled distances: label [i] carries the [i]-th distance. *)
Lemma labelled_shape (distances : list spec_float) : forall start,
  let l := combine (seq start (List.length distances)) distances in
  StronglySorted (fun a b => (fst a < fst b)%nat) l
  /\ Forall (fun e => (start <= fst e < start + List.length distances)%nat
                      /\ nth_error distances (fst e - start) = Some (snd e)) l.
Proof.
  induction distances as [| d ds IH]; intro start; simpl.
  - split; constructor.
  - destruct (IH (S start)) as [Hs Hf]. split.
    + constructor; [assumption |].
      rewrite Forall_forall in *. intros x Hx. specialize (Hf x Hx).
      simpl. lia.
    + constructor.
      * simpl. rewrite Nat.sub_diag. split; [lia | reflexivity].
      * rewrite Forall_forall in *. intros x Hx. specialize (Hf x Hx).
        destruct Hf as [Hr Hn]. split; [lia |].
        replace (fst x - start)%nat with (S (fst x - S start)) by lia.
        exact Hn.
Qed.

Lemma labelled_labels (distances : list spec_float) :
  map fst (Faiss.labelled distances) = seq 0 (List.length distances).
Proof.
  unfold Faiss.labelled.
  generalize 0%nat. induction distances as [| d ds IH]; intro s; simpl;
    [reflexivity | now rewrite IH].
Qed.

Lemma labelled_within_reach (distances : list spec_float) :
  forallb (fun d => SFltb d F32.max) distances = true ->
  filter Faiss.within_reach (Faiss.labelled distances)
  = Faiss.labelled distances.
Proof.
  intro H. apply filter_all. apply forallb_forall. intros [i d] He.
  unfold Faiss.labelled in He. apply in_combine_r in He.
  rewrite forallb_forall in H. now apply H.
Qed.

(** What [knn] answers: the labels [nearest] of the nearest vectors
    within reach, in ranked order, then [-1] up to [k] labels. *)
Lemma knn_spec (distances : list spec_float) (k : nat) :
  exists nearest : list nat,
    Faiss.knn distances k
    = map Z.of_nat nearest ++ repeat (-1)%Z (k - List.length nearest)
    /\ nearest
       = map fst
           (firstn k
              (Faiss.sort_by_distance
                 (filter Faiss.within_reach (Faiss.labelled distances))))
    /\ (List.length nearest <= k)%nat
    /\ Forall (fun i => (i < List.length distances)%nat) nearest
    /\ StronglySorted (ranked (fun i => nth i distances S754_nan)) nearest
    /\ (forallb (fun d => SFltb d F32.max) distances = true ->
        List.length nearest = Nat.min k (List.length distances)
        /\ ((List.length distances <= k)%nat ->
            Permutation nearest (seq 0 (List.length distances)))).
Proof.
  set (reached := filter Faiss.within_reach (Faiss.labelled distances)).
  set (sorted := Faiss.sort_by_distance reached).
  exists (map fst (firstn k sorted)).
  destruct (labelled_shape distances 0) as [Hlab Hshape]. simpl in Hlab, Hshape.
  fold (Faiss.labelled distances) in Hlab, Hshape.
  assert (Hperm : Permutation sorted reached)
    by apply sort_by_distance_Permutation.
  assert (Hsh : Forall (fun e => (fst e < List.length distances)%nat
                   /\ nth (fst e) distances S754_nan = snd e) sorted).
  { apply sort_by_distance_Forall. rewrite Forall_forall in *.
    intros x Hx. apply filter_In in Hx. destruct Hx as [Hx _].
    destruct (Hshape x Hx) as [Hr Hn].
    rewrite Nat.sub_0_r in Hn. split; [lia |]. now apply nth_error_nth. }
  assert (Hso : StronglySorted before sorted).
  { apply sort_by_distance_sorted.
    - rewrite Forall_forall. intros x Hx. apply filter_In in Hx.
      destruct Hx as [_ Hx]. unfold Faiss.within_reach in Hx.
      now apply SFltb_not_nan in Hx.
    - now apply filter_sorted. }
  repeat split.
  - unfold Faiss.knn. fold reached sorted. now rewrite map_map, !length_map.
  - rewrite length_map, length_firstn. lia.
  - rewrite Forall_forall in *. intros i Hi. apply in_map_iff in Hi.
    destruct Hi as [e [<- He]]. apply In_firstn in He.
    now apply Hsh.
  - assert (Hf : Forall (fun e => (fst e < List.length distances)%nat
                   /\ nth (fst e) distances S754_nan = snd e)
                        (firstn k sorted)).
    { rewrite Forall_forall in *. intros x Hx. apply Hsh.
      now apply In_firstn in Hx. }
    assert (Hs : StronglySorted before (firstn k sorted))
      by now apply firstn_sorted.
    clear - Hf Hs. induction Hs as [| a l Hl IH Ha]; simpl; [constructor |].
    inversion Hf as [| ? ? Hfa Hfl]; subst.
    constructor; [now apply IH |].
    rewrite Forall_forall in *. intros i Hi. apply in_map_iff in Hi.
    destruct Hi as [e [<- He]]. specialize (Ha e He).
    destruct (Hfl e He) as [_ Hne]. destruct Hfa as [_ Hna].
    unfold ranked, before in *. now rewrite Hna, Hne.
  - rewrite length_map, length_firstn.
    rewrite (Permutation_length Hperm). unfold reached.
    rewrite (labelled_within_reach _ H). unfold Faiss.labelled.
    rewrite length_combine, length_seq, Nat.min_id. reflexivity.
  - intro Hk. rewrite firstn_all2.
    + rewrite <- labelled_labels. apply Permutation_map.
      unfold sorted, reached in *.
      rewrite (labelled_within_reach _ H) in *. exact Hperm.
    + rewrite (Permutation_length Hperm). unfold reached.
      rewrite (labelled_within_reach _ H). unfold Faiss.labelled.
      rewrite length_combine, length_seq, Nat.min_id. exact Hk.
Qed.

Lemma knn_length (distances : list spec_float) (k : nat) :
  List.length (Faiss.knn distances k) = k.
Proof.
  unfold Faiss.knn. rewrite length_app, repeat_length, !length_map.
  rewrite length_firstn. lia.
Qed.

(** ** Positional indexing *)

Lemma position_label (n i : nat) :
  (i < n)%nat -> Pandas.position n (Z.of_nat i) = Some i.
Proof.
  intro H. unfold Pandas.position.
  assert (E : ((0 <=? Z.of_nat i) && (Z.of_nat i <? Z.of_nat n))%Z = true).
  { apply andb_true_iff. split; [apply Z.leb_le | apply Z.ltb_lt]; lia. }
  rewrite E. now rewrite Nat2Z.id.
Qed.

Lemma position_minus_one (n : nat) :
  (0 < n)%nat -> Pandas.position n (-1)%Z = Some (n - 1)%nat.
Proof.
  intro H. unfold Pandas.position.
  assert (E : ((- Z.of_nat n <=? -1) && (-1 <? 0))%Z = true).
  { apply andb_true_iff. split; [apply Z.leb_le | apply Z.ltb_lt]; lia. }
  simpl ((0 <=? -1)%Z). simpl. rewrite E. f_equal. lia.
Qed.

Lemma iloc_app {A : Type} (df : list A) (a b : list Z) (xs ys : list A) :
  Pandas.iloc df a = Some xs -> Pandas.iloc df b = Some ys ->
  Pandas.iloc df (a ++ b) = Some (xs ++ ys).
Proof.
  revert xs. induction a as [| i a IH]; simpl; intros xs Ha Hb.
  - injection Ha as <-. exact Hb.
  - destruct (Pandas.position (List.length df) i) as [p |]; [| discriminate].
    destruct (nth_error df p) as [r |]; [| discriminate].
    destruct (Pandas.iloc df a) as [rs |]; [| discriminate].
    injection Ha as <-. now rewrite (IH rs eq_refl Hb).
Qed.

Lemma iloc_labels {A : Type} (df : list A) (d : A) (labels : list nat) :
  Forall (fun i => (i < List.length df)%nat) labels ->
  Pandas.iloc df (map Z.of_nat labels)
  = Some (map (fun i => nth i df d) labels).
Proof.
  induction 1 as [| i labels Hi Hl IH]; simpl; [reflexivity |].
  rewrite (position_label _ _ Hi), IH.
  destruct (nth_error df i) as [r |] eqn:E.
  - now rewrite (nth_error_nth _ _ d E).
  - apply nth_error_None in E. lia.
Qed.

Lemma nth_error_last {A : Type} (df : list A) (d : A) :
  df <> [] -> nth_error df (List.length df - 1) = Some (last df d).
Proof.
  induction df as [| a df IH]; intro H; [congruence |].
  destruct df as [| b df]; [reflexivity |].
  change (last (a :: b :: df) d) with (last (b :: df) d).
  rewrite <- IH by discriminate. simpl. now rewrite Nat.sub_0_r.
Qed.

Lemma iloc_padding {A : Type} (df : list A) (d : A) (m : nat) :
  df <> [] ->
  Pandas.iloc df (repeat (-1)%Z m) = Some (repeat (last df d) m).
Proof.
  intro H. induction m as [| m IH]; simpl; [reflexivity |].
  rewrite position_minus_one by (destruct df; simpl; [congruence | lia]).
  now rewrite (nth_error_last df d H), IH.
Qed.

Lemma iloc_not_nil {A : Type} (df : list A) (indices : list Z) (xs : list A) :
  Pandas.iloc df indices = Some xs -> indices <> [] -> xs <> [].
Proof.
  destruct indices as [| i rest]; [congruence |]. simpl.
  destruct (Pandas.position (List.length df) i) as [p |]; [| discriminate].
  destruct (nth_error df p) as [r |]; [| discriminate].
  destruct (Pandas.iloc df rest) as [rs |]; [| discriminate].
  intros H _. injection H as <-. discriminate.
Qed.

Lemma length_removelast {A : Type} (l : list A) :
  List.length (removelast l) = (List.length l - 1)%nat.
Proof.
  induction l as [| a l IH]; [reflexivity |].
  destruct l as [| b l]; [reflexivity |].
  change (removelast (a :: b :: l)) with (a :: removelast (b :: l)).
  simpl List.length in *. rewrite IH. lia.
Qed.

Lemma nth_removelast {A : Type} (l : list A) (d : A) : forall i,
  (i < List.length l - 1)%nat -> nth i (removelast l) d = nth i l d.
Proof.
  induction l as [| a l IH]; intros i Hi; [reflexivity |].
  destruct l as [| b l]; [simpl in Hi; lia |].
  change (removelast (a :: b :: l)) with (a :: removelast (b :: l)).
  destruct i as [| i]; [reflexivity |].
  simpl nth. apply IH. simpl in *. lia.
Qed.

Lemma map_nth_seq {A : Type} (l : list A) (d : A) :
  map (fun i => nth i l d) (seq 0 (List.length l)) = l.
Proof.
  induction l as [| a l IH]; [reflexivity |].
  simpl. f_equal. rewrite <- seq_shift, map_map. exact IH.
Qed.

Lemma StronglySorted_weaken {A : Type} (r1 r2 : A -> A -> Prop) (l : list A) :
  (forall x y, In x l -> In y l -> r1 x y -> r2 x y) ->
  StronglySorted r1 l -> StronglySorted r2 l.
Proof.
  intros H Hs. induction Hs as [| a l Hl IH Ha]; [constructor |].
  constructor.
  - apply IH. intros x y Hx Hy. apply H; now right.
  - rewrite Forall_forall in *. intros x Hx.
    apply H; [now left | now right | now apply Ha].
Qed.

(** ** The ranking stage *)

Lemma fit_transform_length np_log docs M :
  Sklearn.fit_transform np_log docs = Some M ->
  List.length M = List.length docs.
Proof.
  unfold Sklearn.fit_transform.
  destruct (Sklearn.vocabulary docs); [discriminate |].
  intro H. injection H as <-. now rewrite !length_map.
Qed.

Lemma fit_transform_Some np_log docs :
  Sklearn.vocabulary docs <> [] ->
  exists M, Sklearn.fit_transform np_log docs = Some M.
Proof.
  unfold Sklearn.fit_transform.
  destruct (Sklearn.vocabulary docs); [congruence | eauto].
Qed.

Lemma fit_transform_None np_log docs :
  Sklearn.vocabulary docs = [] <-> Sklearn.fit_transform np_log docs = None.
Proof.
  unfold Sklearn.fit_transform.
  destruct (Sklearn.vocabulary docs); split; congruence.
Qed.

Lemma corpus_length candidates user_amenities :
  List.length (corpus candidates user_amenities)
  = S (List.length candidates).
Proof. unfold corpus. rewrite length_app, length_map. simpl. lia. Qed.

Lemma matrix_length np_log df_filtered user_amenities M :
  Sklearn.fit_transform np_log
    (corpus (with_amenities_str df_filtered) user_amenities) = Some M ->
  List.length M = S (List.length df_filtered).
Proof.
  intro HM. rewrite (fit_transform_length _ _ _ HM), corpus_length.
  unfold with_amenities_str. now rewrite length_map.
Qed.

(** The distances the index computes are the squared distances of the
    rows of the matrix to its last row, all cast to binary32. *)
Lemma search_distances (M : list (list spec_float)) :
  map (Faiss.fvec_L2sqr (map F32.of_F64 (last M [])))
      (map (map F32.of_F64) (removelast M))
  = map (squared_distance M) (seq 0 (List.length M - 1)).
Proof.
  rewrite map_map.
  rewrite <- (map_nth_seq (removelast M) []) at 1.
  rewrite map_map, length_removelast. apply map_ext_in. intros i Hi.
  apply in_seq in Hi. unfold squared_distance.
  rewrite nth_removelast by lia. reflexivity.
Qed.

Lemma scores_matrix np_log df_filtered user_amenities M :
  Sklearn.fit_transform np_log
    (corpus (with_amenities_str df_filtered) user_amenities) = Some M ->
  scores np_log df_filtered user_amenities
  = map (Faiss.fvec_L2sqr (map F32.of_F64 (last M [])))
        (map (map F32.of_F64) (removelast M)).
Proof.
  intro HM. unfold scores. rewrite HM, search_distances.
  rewrite (matrix_length _ _ _ _ HM). simpl. now rewrite Nat.sub_0_r.
Qed.

Lemma scores_length np_log df_filtered user_amenities M :
  Sklearn.fit_transform np_log
    (corpus (with_amenities_str df_filtered) user_amenities) = Some M ->
  List.length (scores np_log df_filtered user_amenities)
  = List.length df_filtered.
Proof. intro HM. unfold scores. now rewrite HM, length_map, length_seq. Qed.

Lemma scores_nth np_log df_filtered user_amenities M i :
  Sklearn.fit_transform np_log
    (corpus (with_amenities_str df_filtered) user_amenities) = Some M ->
  (i < List.length df_filtered)%nat ->
  nth i (scores np_log df_filtered user_amenities) S754_nan
  = squared_distance M i.
Proof.
  intros HM Hi. unfold scores. rewrite HM.
  rewrite (nth_indep _ S754_nan (squared_distance M 0))
    by now rewrite length_map, length_seq.
  rewrite map_nth, seq_nth by exact Hi. reflexivity.
Qed.

Lemma iloc_nil {A : Type} (indices : list Z) (xs : list A) :
  Pandas.iloc [] indices = Some xs -> indices = [].
Proof.
  destruct indices as [| i rest]; [reflexivity |]. simpl.
  unfold Pandas.position. simpl.
  destruct (0 <=? i)%Z eqn:E1, (i <? 0)%Z eqn:E2; simpl; try discriminate.
  apply Z.leb_le in E1. apply Z.ltb_lt in E2. lia.
Qed.

(** The steps of lines 82-108 behind a returned table. *)
Lemma rank_unfold np_log df_filtered user_amenities columns rows :
  rank np_log df_filtered user_amenities = Frame columns rows ->
  exists tfidf_matrix nearest,
    Sklearn.fit_transform np_log
      (corpus (with_amenities_str df_filtered) user_amenities)
    = Some tfidf_matrix
    /\ Pandas.iloc (with_amenities_str df_filtered)
         (Faiss.search (map (map F32.of_F64) (removelast tfidf_matrix))
            (map F32.of_F64 (last tfidf_matrix [])) 10)
       = Some nearest
    /\ columns = projection
    /\ rows
       = map row
           (Pandas.head 5
              (Pandas.drop_duplicates (fun c => link (row c)) nearest)).
Proof.
  unfold rank.
  destruct (Sklearn.fit_transform _ _) as [M |] eqn:EM; [| discriminate].
  destruct (Pandas.iloc _ _) as [nearest |] eqn:EI; [| discriminate].
  intro H. injection H as <- <-. exists M, nearest. auto.
Qed.

Lemma rank_not_Message np_log df_filtered user_amenities text :
  rank np_log df_filtered user_amenities <> Message text.
Proof.
  unfold rank.
  destruct (Sklearn.fit_transform _ _); [| discriminate].
  destruct (Pandas.iloc _ _); discriminate.
Qed.

(** A returned table has a row and at most five. *)
Lemma rank_rows_count np_log df_filtered user_amenities columns rows :
  rank np_log df_filtered user_amenities = Frame columns rows ->
  rows <> [] /\ (List.length rows <= 5)%nat.
Proof.
  intro H. destruct (rank_unfold _ _ _ _ _ H) as (M & nearest & _ & Hiloc & _ & ->).
  assert (Hnn : nearest <> []).
  { apply (iloc_not_nil _ _ _ Hiloc). intro E.
    pose proof (knn_length
                  (map (Faiss.fvec_L2sqr (map F32.of_F64 (last M [])))
                       (map (map F32.of_F64) (removelast M))) 10) as Hlen.
    unfold Faiss.search in E. rewrite E in Hlen. discriminate. }
  split.
  - destruct nearest as [| c nearest]; [congruence | discriminate].
  - rewrite length_map. unfold Pandas.head. rewrite length_firstn. lia.
Qed.

(** A returned table, when every candidate is within reach of the
    index: the candidates at the labels [nearest], which are in ranked
    order, de-duplicated and cut to five rows. *)
Lemma rank_Frame np_log df_filtered user_amenities columns rows :
  rank np_log df_filtered user_amenities = Frame columns rows ->
  all_within_reach np_log df_filtered user_amenities = true ->
  exists tfidf_matrix nearest,
    Sklearn.fit_transform np_log
      (corpus (with_amenities_str df_filtered) user_amenities)
    = Some tfidf_matrix
    /\ columns = projection
    /\ df_filtered <> []
    /\ nearest
       = map fst
           (firstn 10
              (Faiss.sort_by_distance
                 (Faiss.labelled (scores np_log df_filtered user_amenities))))
    /\ Forall (fun i => (i < List.length df_filtered)%nat) nearest
    /\ StronglySorted (ranked (squared_distance tfidf_matrix)) nearest
    /\ forall d,
         rows
         = Pandas.head 5
             (Pandas.drop_duplicates link
                (map (fun i => nth i df_filtered d) nearest)).
Proof.
  intros H Hreach. apply rank_unfold in H.
  destruct H as (M & picked & HM & Hiloc & -> & ->).
  set (cands := with_amenities_str df_filtered) in *.
  unfold Faiss.search in Hiloc.
  rewrite <- (scores_matrix _ _ _ _ HM) in Hiloc.
  unfold all_within_reach in Hreach.
  set (ds := scores np_log df_filtered user_amenities) in *.
  assert (Hlends : List.length ds = List.length df_filtered)
    by apply (scores_length _ _ _ _ HM).
  assert (Hlenc : List.length cands = List.length df_filtered).
  { unfold cands, with_amenities_str. now rewrite length_map. }
  assert (Hne : df_filtered <> []).
  { intro E. pose proof (knn_length ds 10) as Hk.
    assert (Ec : cands = []) by (unfold cands; now rewrite E).
    rewrite Ec in Hiloc. apply iloc_nil in Hiloc. rewrite Hiloc in Hk.
    discriminate. }
  assert (Hpos0 : (0 < List.length df_filtered)%nat)
    by (destruct df_filtered; [congruence | simpl; lia]).
  destruct (knn_spec ds 10)
    as (nearest & Hknn & Hdef & _ & Hlt & Hso & Hall).
  destruct (Hall Hreach) as [Hlen Hperm]. clear Hall.
  rewrite (labelled_within_reach _ Hreach) in Hdef.
  exists M, nearest. rewrite Hlends in *.
  split; [assumption |]. split; [reflexivity |]. split; [assumption |].
  split; [exact Hdef |]. split; [assumption |]. split.
  { apply (StronglySorted_weaken (ranked (fun i => nth i ds S754_nan)));
      [| assumption].
    rewrite Forall_forall in Hlt. intros x y Hx Hy. unfold ranked, ds.
    rewrite !(scores_nth _ _ _ M) by (try exact HM; now apply Hlt).
    auto. }
  intro d.
  set (dc := mkCandidate d (Py.join " " (amenities d))).
  set (pads := (10 - List.length nearest)%nat) in *.
  assert (Hcne : cands <> []).
  { intro E. rewrite E in Hlenc. simpl in Hlenc. lia. }
  assert (Hpicked : picked
            = map (fun i => nth i cands dc) nearest
              ++ repeat (last cands dc) pads).
  { rewrite Hknn in Hiloc.
    rewrite (iloc_app cands _ _ _ _
               (iloc_labels cands dc nearest
                  ltac:(now rewrite Hlenc))
               (iloc_padding cands dc pads Hcne)) in Hiloc.
    now injection Hiloc as <-. }
  assert (Habsorb :
    Pandas.drop_duplicates (fun c => link (row c)) picked
    = Pandas.drop_duplicates (fun c => link (row c))
        (map (fun i => nth i cands dc) nearest)).
  { rewrite Hpicked. unfold Pandas.drop_duplicates.
    apply drop_duplicates_from_absorb. intros b Hb. left.
    apply repeat_spec in Hb as Hbeq. subst b.
    assert (Hpos : (0 < pads)%nat).
    { destruct pads; [contradiction | lia]. }
    assert (Hfew : (List.length df_filtered <= 10)%nat)
      by (unfold pads in *; lia).
    specialize (Hperm Hfew).
    apply (in_map (fun c => link (row c))). apply in_map_iff.
    exists (List.length cands - 1)%nat. split.
    - apply nth_error_nth. now apply nth_error_last.
    - apply (Permutation_in _ (Permutation_sym Hperm)).
      apply in_seq. rewrite Hlenc. lia. }
  rewrite Habsorb. unfold Pandas.head. rewrite <- firstn_map. f_equal.
  unfold Pandas.drop_duplicates.
  rewrite <- (drop_duplicates_from_map link row). f_equal.
  rewrite map_map. apply map_ext. intro i.
  unfold cands, with_amenities_str, dc.
  now rewrite (map_nth (fun r => mkCandidate r (Py.join " " (amenities r)))).
Qed.

(** The ranking stage never fails on a non-empty table whose corpus has
    a token: every label the index reports is a valid position. *)
Lemma rank_total np_log df_filtered user_amenities :
  df_filtered <> [] ->
  Sklearn.vocabulary (corpus (with_amenities_str df_filtered) user_amenities)
  <> [] ->
  exists rows, rank np_log df_filtered user_amenities = Frame projection rows.
Proof.
  intros Hne Hvoc. unfold rank.
  destruct (fit_transform_Some np_log _ Hvoc) as [M HM]. rewrite HM.
  unfold Faiss.search. rewrite <- (scores_matrix _ _ _ _ HM).
  set (cands := with_amenities_str df_filtered).
  assert (Hlenc : List.length cands = List.length df_filtered).
  { unfold cands, with_amenities_str. apply length_map. }
  assert (Hcne : cands <> []).
  { intro E. rewrite E in Hlenc. destruct df_filtered; [congruence | discriminate]. }
  set (ds := scores np_log df_filtered user_amenities).
  assert (Hlends : List.length ds = List.length cands).
  { unfold ds. rewrite (scores_length _ _ _ _ HM). now symmetry. }
  destruct (knn_spec ds 10) as (nearest & Hknn & _ & _ & Hlt & _ & _).
  destruct cands as [| c0 cands'] eqn:Ec; [congruence |].
  rewrite Hknn.
  rewrite (iloc_app (c0 :: cands') _ _ _ _
             (iloc_labels (c0 :: cands') c0 nearest
                ltac:(now rewrite <- Hlends))
             (iloc_padding (c0 :: cands') c0 _ Hcne)).
  eauto.
Qed.

(** ** The TF-IDF vector space *)

Lemma In_add_term t u terms :
  In t (Sklearn.add_term u terms) <-> t = u \/ In t terms.
Proof.
  induction terms as [| h terms IH]; simpl.
  - intuition.
  - destruct (String.compare u h) eqn:E; simpl.
    + apply String.compare_eq_iff in E. subst h. intuition.
    + intuition.
    + rewrite IH. intuition.
Qed.

Lemma In_vocabulary t docs :
  In t (Sklearn.vocabulary docs)
  <-> exists doc, In doc docs /\ In t (Sklearn.tokenize doc).
Proof.
  unfold Sklearn.vocabulary.
  assert (H : forall l, In t (fold_right Sklearn.add_term [] l) <-> In t l).
  { induction l as [| a l IH]; simpl; [reflexivity |].
    rewrite In_add_term, IH. intuition. }
  rewrite H, in_concat. split.
  - intros (tokens & Hin & Ht). apply in_map_iff in Hin.
    destruct Hin as (doc & <- & Hdoc). now exists doc.
  - intros (doc & Hdoc & Ht). exists (Sklearn.tokenize doc).
    split; [now apply in_map | assumption].
Qed.

Lemma term_counts_length vocab doc :
  List.length (Sklearn.term_counts vocab doc) = List.length vocab.
Proof. unfold Sklearn.term_counts. apply length_map. Qed.

Lemma document_frequency_length nfeatures counts :
  Forall (fun c => List.length c = nfeatures) counts ->
  List.length (Sklearn.document_frequency nfeatures counts) = nfeatures.
Proof.
  induction 1 as [| c counts Hc Hl IH]; simpl.
  - apply repeat_length.
  - rewrite length_map, length_combine, IH, Hc. apply Nat.min_id.
Qed.

Lemma document_frequency_bound nfeatures counts :
  Forall (fun n => (n <= List.length counts)%nat)
         (Sklearn.document_frequency nfeatures counts).
Proof.
  induction counts as [| c counts IH]; simpl.
  - rewrite Forall_forall. intros n Hn. apply repeat_spec in Hn. lia.
  - rewrite Forall_forall in *. intros n Hn. apply in_map_iff in Hn.
    destruct Hn as ([tf df] & <- & Hp). apply in_combine_r in Hp.
    specialize (IH df Hp). simpl. destruct (0 <? tf)%nat; lia.
Qed.

(** ** The vector space in exact arithmetic *)

Lemma ideal_idf_positive n_samples df :
  (df <= n_samples)%nat -> (0 < Ideal.idf n_samples df)%R.
Proof.
  intro H. unfold Ideal.idf.
  assert (Hdf : (0 < 1 + INR df)%R) by (pose proof (pos_INR df); lra).
  assert (Hle : (1 + INR df <= 1 + INR n_samples)%R).
  { apply le_INR in H. lra. }
  assert (Hq : (1 <= (1 + INR n_samples) / (1 + INR df))%R).
  { apply (Rmult_le_reg_r (1 + INR df)); [assumption |].
    unfold Rdiv. rewrite Rmult_assoc, Rinv_l by lra. lra. }
  destruct (Rle_lt_or_eq_dec _ _ Hq) as [Hlt | Heq].
  - pose proof (ln_increasing 1 _ Rlt_0_1 Hlt) as Hln.
    rewrite ln_1 in Hln. lra.
  - rewrite <- Heq, ln_1. lra.
Qed.

Lemma ideal_sum_squares_nonneg v : (0 <= Ideal.sum_squares v)%R.
Proof.
  induction v as [| x v IH]; simpl; [lra |].
  pose proof (Rle_0_sqr x) as H. unfold Rsqr in H. lra.
Qed.

Lemma ideal_sum_squares_positive v x :
  In x v -> x <> 0%R -> (0 < Ideal.sum_squares v)%R.
Proof.
  induction v as [| y v IH]; simpl; intros Hin Hx; [contradiction |].
  pose proof (ideal_sum_squares_nonneg v) as Hv.
  pose proof (Rle_0_sqr y) as Hy. unfold Rsqr in Hy.
  destruct Hin as [-> | Hin].
  - pose proof (Rsqr_pos_lt x Hx) as Hp. unfold Rsqr in Hp. lra.
  - specialize (IH Hin Hx). lra.
Qed.

Lemma ideal_sum_squares_zero v :
  Forall (fun x => x = 0%R) v -> Ideal.sum_squares v = 0%R.
Proof.
  induction 1 as [| x v Hx Hv IH]; simpl; [reflexivity |].
  rewrite IH, Hx. lra.
Qed.

Lemma ideal_sum_squares_scale v k :
  k <> 0%R ->
  Ideal.sum_squares (map (fun x => (x / k)%R) v)
  = (Ideal.sum_squares v / (k * k))%R.
Proof.
  intro Hk. induction v as [| x v IH]; simpl.
  - unfold Rdiv. now rewrite Rmult_0_l.
  - rewrite IH. field. exact Hk.
Qed.

(** A normalised row has squared norm one, unless it is all zero. *)
Lemma ideal_sum_squares_normalize v :
  Ideal.sum_squares (Ideal.normalize v)
  = if Req_dec_T (Ideal.sum_squares v) 0 then 0%R else 1%R.
Proof.
  unfold Ideal.normalize.
  destruct (Req_dec_T (Ideal.sum_squares v) 0) as [E | E]; [exact E |].
  pose proof (ideal_sum_squares_nonneg v) as Hnn.
  assert (Hpos : (0 < Ideal.sum_squares v)%R) by lra.
  rewrite ideal_sum_squares_scale.
  - rewrite sqrt_sqrt by lra. now field.
  - pose proof (sqrt_lt_R0 _ Hpos). lra.
Qed.

Lemma ideal_normalize_length v :
  List.length (Ideal.normalize v) = List.length v.
Proof.
  unfold Ideal.normalize.
  destruct (Req_dec_T _ _); [reflexivity | apply length_map].
Qed.

Lemma ideal_normalize_zero v :
  Forall (fun x => x = 0%R) v -> Forall (fun x => x = 0%R) (Ideal.normalize v).
Proof.
  intro H. unfold Ideal.normalize. rewrite (ideal_sum_squares_zero v H).
  destruct (Req_dec_T 0 0); [assumption | congruence].
Qed.

(** Distance of a row to the zero vector: its own squared norm. *)
Lemma ideal_fvec_L2sqr_zero x : forall y,
  Forall (fun a => a = 0%R) x -> List.length x = List.length y ->
  Ideal.fvec_L2sqr x y = Ideal.sum_squares y.
Proof.
  induction x as [| a x IH]; intros [| b y] Hz Hlen; simpl in *;
    try reflexivity; try discriminate.
  inversion Hz as [| ? ? Ha Hx]; subst.
  rewrite (IH y Hx) by lia. ring.
Qed.

Lemma In_combine_left {A B : Type} (l : list A) : forall (l' : list B) a,
  In a l -> (List.length l <= List.length l')%nat ->
  exists b, In (a, b) (combine l l').
Proof.
  induction l as [| x l IH]; intros [| y l'] a Hin Hlen; simpl in *;
    try contradiction; try lia.
  destruct Hin as [-> | Hin].
  - exists y. now left.
  - destruct (IH l' a Hin) as [b Hb]; [lia |]. exists b. now right.
Qed.

Lemma ideal_weigh_length idfs counts :
  List.length idfs = List.length counts ->
  List.length (Ideal.weigh idfs counts) = List.length counts.
Proof.
  intro H. unfold Ideal.weigh.
  rewrite length_map, length_combine, H. apply Nat.min_id.
Qed.

(** The weights of a document without tokens are all zero. *)
Lemma ideal_weigh_no_token vocab idfs doc :
  Sklearn.tokenize doc = [] ->
  Forall (fun x => x = 0%R)
         (Ideal.weigh idfs (Sklearn.term_counts vocab doc)).
Proof.
  intro H. unfold Ideal.weigh, Sklearn.term_counts. rewrite H.
  rewrite Forall_forall. intros x Hx. apply in_map_iff in Hx.
  destruct Hx as ([tf w] & <- & Hp). apply in_combine_l in Hp.
  apply in_map_iff in Hp. destruct Hp as (t & <- & _). simpl. ring.
Qed.

(** The weights of a document of the corpus with a token are not. *)
Lemma ideal_weigh_token docs idfs doc :
  In doc docs -> Sklearn.tokenize doc <> [] ->
  List.length idfs = List.length (Sklearn.vocabulary docs) ->
  Forall (fun w => (0 < w)%R) idfs ->
  (0 < Ideal.sum_squares
         (Ideal.weigh idfs
            (Sklearn.term_counts (Sklearn.vocabulary docs) doc)))%R.
Proof.
  intros Hdoc Htok Hlen Hpos.
  destruct (Sklearn.tokenize doc) as [| t tokens] eqn:E; [congruence |].
  assert (Hv : In t (Sklearn.vocabulary docs)).
  { apply In_vocabulary. exists doc. rewrite E. split; [assumption | now left]. }
  set (f := fun u => count_occ string_dec (Sklearn.tokenize doc) u).
  assert (Hin : In (f t) (Sklearn.term_counts (Sklearn.vocabulary docs) doc)).
  { unfold Sklearn.term_counts. now apply (in_map f). }
  destruct (In_combine_left _ idfs _ Hin) as [w Hw].
  { rewrite term_counts_length. lia. }
  apply (ideal_sum_squares_positive _ (INR (f t) * w)%R).
  - unfold Ideal.weigh. apply in_map_iff. now exists (f t, w).
  - assert (Hc : (f t > 0)%nat).
    { unfold f. apply count_occ_In. rewrite E. now left. }
    apply in_combine_r in Hw. rewrite Forall_forall in Hpos.
    specialize (Hpos w Hw). apply lt_0_INR in Hc.
    apply Rgt_not_eq. now apply Rmult_lt_0_compat.
Qed.

(** The matrix of a fitted corpus, row by row. *)
Lemma ideal_fit_transform_rows docs M :
  Ideal.fit_transform docs = Some M ->
  exists idfs,
    Sklearn.vocabulary docs <> []
    /\ List.length idfs = List.length (Sklearn.vocabulary docs)
    /\ Forall (fun w => (0 < w)%R) idfs
    /\ M = map (fun doc =>
                  Ideal.normalize
                    (Ideal.weigh idfs
                       (Sklearn.term_counts (Sklearn.vocabulary docs) doc)))
               docs.
Proof.
  unfold Ideal.fit_transform.
  destruct (Sklearn.vocabulary docs) as [| t vocab] eqn:EV; [discriminate |].
  intro H. injection H as <-.
  set (counts := map (Sklearn.term_counts (t :: vocab)) docs).
  set (dfs := Sklearn.document_frequency (List.length (t :: vocab)) counts).
  exists (map (Ideal.idf (List.length docs)) dfs).
  split; [discriminate |]. split; [| split].
  - rewrite length_map. apply document_frequency_length.
    unfold counts. rewrite Forall_forall. intros c Hc.
    apply in_map_iff in Hc. destruct Hc as (doc & <- & _).
    apply term_counts_length.
  - pose proof (document_frequency_bound (List.length (t :: vocab)) counts)
      as Hb. fold dfs in Hb. rewrite Forall_forall in *.
    intros w Hw. apply in_map_iff in Hw. destruct Hw as (df & <- & Hdf).
    apply ideal_idf_positive. specialize (Hb df Hdf).
    unfold counts in Hb. now rewrite length_map in Hb.
  - unfold counts. now rewrite map_map.
Qed.

Lemma ideal_squared_distance_no_query_token df_filtered user_amenities M d i :
  Sklearn.tokenize (Py.join " " user_amenities) = [] ->
  Ideal.fit_transform
    (corpus (with_amenities_str df_filtered) user_amenities) = Some M ->
  (i < List.length df_filtered)%nat ->
  Ideal.squared_distance M i
  = if has_token (nth i df_filtered d) then 1%R else 0%R.
Proof.
  intros Hq HM Hi.
  set (docs := corpus (with_amenities_str df_filtered) user_amenities) in *.
  destruct (ideal_fit_transform_rows _ _ HM) as (idfs & Hvoc & Hlen & Hpos & ->).
  set (F := fun doc => Ideal.normalize
                 (Ideal.weigh idfs
                    (Sklearn.term_counts (Sklearn.vocabulary docs) doc))).
  set (doc := Py.join " " (amenities (nth i df_filtered d))).
  assert (Hlast : last (map F docs) [] = F (Py.join " " user_amenities)).
  { unfold docs, corpus. rewrite map_app. simpl. apply last_last. }
  assert (Hdoc : nth i docs EmptyString = doc).
  { unfold docs, corpus, with_amenities_str. rewrite map_map. simpl.
    rewrite app_nth1 by now rewrite length_map.
    rewrite (nth_indep _ EmptyString (Py.join " " (amenities d)))
      by now rewrite length_map.
    unfold doc.
    now rewrite (map_nth (fun r => Py.join " " (amenities r))). }
  assert (Hnth : nth i (map F docs) [] = F doc).
  { rewrite (nth_indep _ [] (F EmptyString)).
    - now rewrite map_nth, Hdoc.
    - rewrite length_map. unfold docs. rewrite corpus_length.
      unfold with_amenities_str. rewrite length_map. lia. }
  assert (HFlen : forall x, List.length (F x)
                            = List.length (Sklearn.vocabulary docs)).
  { intro x. unfold F. rewrite ideal_normalize_length, ideal_weigh_length;
      rewrite term_counts_length; auto. }
  unfold Ideal.squared_distance. rewrite Hlast, Hnth.
  rewrite ideal_fvec_L2sqr_zero.
  - unfold F. rewrite ideal_sum_squares_normalize. unfold has_token. fold doc.
    destruct (Sklearn.tokenize doc) as [| t tokens] eqn:Et; simpl.
    + rewrite (ideal_sum_squares_zero _ (ideal_weigh_no_token _ idfs doc Et)).
      destruct (Req_dec_T 0 0); [reflexivity | congruence].
    + assert (Hin : In doc docs).
      { rewrite <- Hdoc. apply nth_In. unfold docs. rewrite corpus_length.
        unfold with_amenities_str. rewrite length_map. lia. }
      pose proof (ideal_weigh_token docs idfs doc Hin
                    ltac:(rewrite Et; discriminate) Hlen Hpos) as Hw.
      destruct (Req_dec_T _ 0) as [E | E]; [lra | reflexivity].
  - unfold F. apply ideal_normalize_zero. now apply ideal_weigh_no_token.
  - now rewrite !HFlen.
Qed.


(** ** Rows and distances of the program *)

(** The weights of a document without tokens are all zero. *)
Lemma weigh_no_token vocab idfs doc :
  Sklearn.tokenize doc = [] ->
  Forall (fun x => x = F64.zero)
         (Sklearn.weigh idfs (Sklearn.term_counts vocab doc)).
Proof.
  intro H. unfold Sklearn.weigh, Sklearn.term_counts. rewrite H.
  rewrite Forall_forall. intros x Hx. apply in_map_iff in Hx.
  destruct Hx as ([tf w] & <- & Hp). apply in_combine_l in Hp.
  apply in_map_iff in Hp. destruct Hp as (t & <- & _). reflexivity.
Qed.

Lemma sum_squares_zero v :
  Forall (fun x => x = F64.zero) v -> Sklearn.sum_squares v = F64.zero.
Proof.
  unfold Sklearn.sum_squares.
  induction 1 as [| x v Hx Hv IH]; simpl; [reflexivity |].
  subst x. exact IH.
Qed.

(** A row of zeros is left as it is. *)
Lemma normalize_zero counts v :
  Forall (fun x => x = F64.zero) v -> Sklearn.normalize counts v = v.
Proof.
  intro H. unfold Sklearn.normalize. now rewrite (sum_squares_zero v H).
Qed.

Lemma of_F64_zero v :
  Forall (fun x => x = F64.zero) v ->
  Forall (fun x => x = F32.zero) (map F32.of_F64 v).
Proof.
  induction 1 as [| x v Hx Hv IH]; simpl; constructor; [| exact IH].
  now subst x.
Qed.

(** Two rows of zeros are at distance zero. *)
Lemma fvec_L2sqr_zero x y :
  Forall (fun a => a = F32.zero) x -> Forall (fun a => a = F32.zero) y ->
  Faiss.fvec_L2sqr x y = F32.zero.
Proof.
  unfold Faiss.fvec_L2sqr. intro Hx. revert y.
  induction Hx as [| a x Ha Hx IH]; intros y Hy; [reflexivity |].
  destruct Hy as [| b y Hb Hy]; [reflexivity |].
  subst a b. simpl. now apply IH.
Qed.

Lemma sub_same a :
  F32.sub a a = S754_zero false \/ F32.sub a a = S754_nan.
Proof.
  destruct a as [s | s | | s m e]; simpl.
  - left. now destruct s.
  - right. now destruct s.
  - now right.
  - left. unfold F32.sub, SFsub. now rewrite Z.sub_diag.
Qed.

(** A row is at distance zero from itself, unless an entry is no
    finite number. *)
Lemma fvec_L2sqr_same x :
  Faiss.fvec_L2sqr x x = S754_zero false \/ Faiss.fvec_L2sqr x x = S754_nan.
Proof.
  unfold Faiss.fvec_L2sqr.
  assert (H : forall acc,
            acc = S754_zero false \/ acc = S754_nan ->
            let r := fold_left
                       (fun res p =>
                          let tmp := F32.sub (fst p) (snd p) in
                          F32.add res (F32.mul tmp tmp))
                       (combine x x) acc in
            r = S754_zero false \/ r = S754_nan).
  { induction x as [| a x IH]; intros acc Hacc; [exact Hacc |].
    simpl. apply IH.
    destruct (sub_same a) as [-> | ->], Hacc as [-> | ->]; simpl; auto. }
  apply H. now left.
Qed.

Lemma binary_round_aux_unsigned prec emax mx ex lx :
  unsigned (binary_round_aux prec emax false mx ex lx).
Proof.
  unfold binary_round_aux.
  destruct (shr_fexp prec emax mx ex lx) as [mrs' e'].
  destruct (shr_fexp prec emax _ e' loc_Exact) as [mrs'' e''].
  destruct (shr_m mrs''); simpl; [reflexivity | | exact I].
  destruct (Z.leb e'' (Z.sub emax prec)); reflexivity.
Qed.

Lemma binary_round_unsigned prec emax mx ex :
  unsigned (binary_round prec emax false mx ex).
Proof.
  unfold binary_round.
  destruct (shl_align mx ex _) as [mz ez]. apply binary_round_aux_unsigned.
Qed.

Lemma mul_same_unsigned t : unsigned (F32.mul t t).
Proof.
  destruct t as [s | s | | s m e]; simpl.
  - now destruct s.
  - now destruct s.
  - exact I.
  - unfold F32.mul, SFmul. rewrite xorb_nilpotent.
    apply binary_round_aux_unsigned.
Qed.

Lemma add_unsigned a b :
  unsigned a -> unsigned b -> unsigned (F32.add a b).
Proof.
  destruct a as [sa | sa | | sa ma ea], b as [sb | sb | | sb mb eb];
    simpl; intros Ha Hb; try subst sa; try subst sb; try reflexivity;
    try exact I.
  unfold F32.add, SFadd. simpl. apply binary_round_unsigned.
Qed.

(** The distance the index computes has no minus sign. *)
Lemma fvec_L2sqr_unsigned x y : unsigned (Faiss.fvec_L2sqr x y).
Proof.
  unfold Faiss.fvec_L2sqr.
  assert (H : forall l acc,
            unsigned acc ->
            unsigned
              (fold_left
                 (fun res p =>
                    let tmp := F32.sub (fst p) (snd p) in
                    F32.add res (F32.mul tmp tmp))
                 l acc)).
  { induction l as [| p l IH]; intros acc Hacc; [exact Hacc |].
    simpl. apply IH. apply add_unsigned; [exact Hacc |].
    apply mul_same_unsigned. }
  apply H. reflexivity.
Qed.

(** Nothing is below zero among the numbers without a minus sign. *)
Lemma unsigned_not_below_zero d :
  unsigned d -> SFltb d (S754_zero false) = false.
Proof. destruct d as [s | s | | s m e]; simpl; intro H; subst; reflexivity. Qed.

(** A number without a minus sign that compares equal to zero is the
    zero of the index. *)
Lemma unsigned_zero d :
  unsigned d -> SFeqb d (S754_zero false) = true -> d = S754_zero false.
Proof.
  destruct d as [s | s | | s m e]; simpl; intros H E; subst;
    try reflexivity; discriminate.
Qed.

(** The matrix of a fitted corpus, row by row. *)
Lemma fit_transform_rows np_log docs M :
  Sklearn.fit_transform np_log docs = Some M ->
  exists idfs,
    Sklearn.vocabulary docs <> []
    /\ M = map (fun doc =>
                  let counts :=
                    Sklearn.term_counts (Sklearn.vocabulary docs) doc in
                  Sklearn.normalize counts (Sklearn.weigh idfs counts))
               docs.
Proof.
  unfold Sklearn.fit_transform.
  destruct (Sklearn.vocabulary docs) as [| t vocab] eqn:EV; [discriminate |].
  intro H. injection H as <-.
  eexists. split; [discriminate |]. now rewrite map_map.
Qed.

(** The rows of the matrix: the candidates in the order of the table,
    then the query. *)
Lemma matrix_rows np_log df_filtered user_amenities M :
  Sklearn.fit_transform np_log
    (corpus (with_amenities_str df_filtered) user_amenities) = Some M ->
  exists F : string -> list spec_float,
    (forall doc doc', Sklearn.tokenize doc = Sklearn.tokenize doc' ->
                      F doc = F doc')
    /\ (forall doc, Sklearn.tokenize doc = [] ->
                    Forall (fun x => x = F64.zero) (F doc))
    /\ last M [] = F (Py.join " " user_amenities)
    /\ forall i d, (i < List.length df_filtered)%nat ->
         nth i M [] = F (Py.join " " (amenities (nth i df_filtered d))).
Proof.
  intro HM.
  set (docs := corpus (with_amenities_str df_filtered) user_amenities) in *.
  destruct (fit_transform_rows _ _ _ HM) as (idfs & _ & ->).
  set (F := fun doc =>
              let counts :=
                Sklearn.term_counts (Sklearn.vocabulary docs) doc in
              Sklearn.normalize counts (Sklearn.weigh idfs counts)).
  exists F. split; [| split; [| split]].
  - intros doc doc' H. unfold F, Sklearn.term_counts. now rewrite H.
  - intros doc H. unfold F. cbv zeta.
    rewrite normalize_zero; now apply weigh_no_token.
  - unfold docs, corpus. rewrite map_app. simpl. apply last_last.
  - intros i d Hi.
    assert (Hdoc : nth i docs EmptyString
                   = Py.join " " (amenities (nth i df_filtered d))).
    { unfold docs, corpus, with_amenities_str. rewrite map_map. simpl.
      rewrite app_nth1 by now rewrite length_map.
      rewrite (nth_indep _ EmptyString (Py.join " " (amenities d)))
        by now rewrite length_map.
      now rewrite (map_nth (fun r => Py.join " " (amenities r))). }
    rewrite (nth_indep _ [] (F EmptyString)).
    + now rewrite map_nth, Hdoc.
    + rewrite length_map. unfold docs. rewrite corpus_length.
      unfold with_amenities_str. rewrite length_map. lia.
Qed.

(** The query row of a query without tokens is the zero vector. *)
Lemma query_row_zero np_log df_filtered user_amenities M :
  Sklearn.tokenize (Py.join " " user_amenities) = [] ->
  Sklearn.fit_transform np_log
    (corpus (with_amenities_str df_filtered) user_amenities) = Some M ->
  Forall (fun x => x = F64.zero) (last M []).
Proof.
  intros Hq HM.
  destruct (matrix_rows _ _ _ _ HM) as (F & _ & Hzero & -> & _).
  now apply Hzero.
Qed.

(** With no token in the query, a candidate without tokens is at
    distance zero. *)
Lemma squared_distance_no_tokens np_log df_filtered user_amenities M i r :
  Sklearn.tokenize (Py.join " " user_amenities) = [] ->
  Sklearn.fit_transform np_log
    (corpus (with_amenities_str df_filtered) user_amenities) = Some M ->
  nth_error df_filtered i = Some r ->
  has_token r = false ->
  squared_distance M i = F32.zero.
Proof.
  intros Hq HM Hi Hr.
  destruct (matrix_rows _ _ _ _ HM) as (F & _ & Hzero & Hlast & Hnth).
  assert (Hlt : (i < List.length df_filtered)%nat)
    by (apply nth_error_Some; congruence).
  unfold squared_distance. rewrite Hlast, (Hnth i r Hlt).
  rewrite (nth_error_nth _ _ r Hi).
  apply fvec_L2sqr_zero; apply of_F64_zero, Hzero; [exact Hq |].
  unfold has_token in Hr. apply negb_false_iff in Hr.
  now apply empty_true_iff in Hr.
Qed.

(** A candidate with the tokens of the query has the row of the query:
    its distance is zero, unless an entry of the row is no finite
    number. *)
Lemma squared_distance_same_tokens np_log df_filtered user_amenities M i r :
  Sklearn.fit_transform np_log
    (corpus (with_amenities_str df_filtered) user_amenities) = Some M ->
  nth_error df_filtered i = Some r ->
  Sklearn.tokenize (Py.join " " (amenities r))
  = Sklearn.tokenize (Py.join " " user_amenities) ->
  squared_distance M i = S754_zero false \/ squared_distance M i = S754_nan.
Proof.
  intros HM Hi Htok.
  destruct (matrix_rows _ _ _ _ HM) as (F & Hsame & _ & Hlast & Hnth).
  assert (Hlt : (i < List.length df_filtered)%nat)
    by (apply nth_error_Some; congruence).
  unfold squared_distance. rewrite Hlast, (Hnth i r Hlt).
  rewrite (nth_error_nth _ _ r Hi), (Hsame _ _ Htok).
  apply fvec_L2sqr_same.
Qed.

Lemma squared_distance_unsigned M i : unsigned (squared_distance M i).
Proof. apply fvec_L2sqr_unsigned. Qed.

(** ** The whole function *)

Lemma find_similar_properties_Message np_log general df user_size user_price
    user_location user_amenities text :
  find_similar_properties np_log general df user_size user_price user_location
    user_amenities = Message text
  <-> structured_filter general df user_size user_price user_location
      = Return_ text.
Proof.
  unfold find_similar_properties.
  destruct (structured_filter general df user_size user_price user_location)
    as [df_filtered | t | e].
  - split; [| discriminate]. intro H. now apply rank_not_Message in H.
  - split; intro H; injection H as <-; reflexivity.
  - split; discriminate.
Qed.

Lemma find_similar_properties_Frame np_log general df user_size user_price
    user_location user_amenities columns rows :
  find_similar_properties np_log general df user_size user_price user_location
    user_amenities = Frame columns rows ->
  exists df_filtered,
    structured_filter general df user_size user_price user_location
    = Continue df_filtered
    /\ rank np_log df_filtered user_amenities = Frame columns rows.
Proof.
  unfold find_similar_properties.
  destruct (structured_filter general df user_size user_price user_location)
    as [df_filtered | t | e]; try discriminate.
  intro H. now exists df_filtered.
Qed.

Lemma find_similar_properties_Continue np_log general df user_size user_price
    user_location user_amenities df_filtered :
  structured_filter general df user_size user_price user_location
  = Continue df_filtered ->
  find_similar_properties np_log general df user_size user_price user_location
    user_amenities = rank np_log df_filtered user_amenities.
Proof. unfold find_similar_properties. now intros ->. Qed.

Lemma NoDup_map_injective {A B : Type} (f : A -> B) (l : list A) x y :
  NoDup (map f l) -> In x l -> In y l -> f x = f y -> x = y.
Proof.
  induction l as [| a l IH]; simpl; intros Hnd Hx Hy Hf; [contradiction |].
  inversion Hnd as [| ? ? Ha Hl]; subst.
  destruct Hx as [-> | Hx], Hy as [-> | Hy]; auto.
  - exfalso. apply Ha. rewrite Hf. now apply in_map.
  - exfalso. apply Ha. rewrite <- Hf. now apply in_map.
Qed.

Lemma StronglySorted_nth_error {A : Type} (rel : A -> A -> Prop) (l : list A) :
  StronglySorted rel l ->
  forall a b x y,
    nth_error l a = Some x -> nth_error l b = Some y -> (a < b)%nat ->
    rel x y.
Proof.
  induction 1 as [| h l Hl IH Hh]; intros a b x y Ha Hb Hab.
  - destruct a; discriminate.
  - destruct b as [| b]; [lia |]. simpl in Hb.
    destruct a as [| a]; simpl in Ha.
    + injection Ha as <-. rewrite Forall_forall in Hh. apply Hh.
      now apply nth_error_In in Hb.
    + apply (IH a b); auto. lia.
Qed.

Lemma NoDup_firstn {A : Type} (l : list A) : forall n,
  NoDup l -> NoDup (firstn n l).
Proof.
  induction l as [| a l IH]; intros [| n] H; simpl; try constructor.
  - inversion H as [| ? ? Ha _]; subst. intro Hin. apply Ha.
    now apply (In_firstn l n).
  - inversion H; subst. now apply IH.
Qed.

Lemma no_token_vocabulary df_filtered user_amenities :
  (forall r, In r df_filtered -> has_token r = false) ->
  Sklearn.tokenize (Py.join " " user_amenities) = [] ->
  Sklearn.vocabulary (corpus (with_amenities_str df_filtered) user_amenities)
  = [].
Proof.
  intros Hrows Hq.
  destruct (Sklearn.vocabulary _) as [| t vocab] eqn:E; [reflexivity |].
  assert (Hin : In t (Sklearn.vocabulary
                        (corpus (with_amenities_str df_filtered)
                           user_amenities)))
    by (rewrite E; now left).
  apply In_vocabulary in Hin. destruct Hin as (doc & Hdoc & Ht).
  unfold corpus in Hdoc. apply in_app_or in Hdoc.
  destruct Hdoc as [Hdoc | [<- | []]].
  - unfold with_amenities_str in Hdoc. rewrite map_map in Hdoc.
    apply in_map_iff in Hdoc. destruct Hdoc as (r & <- & Hr). simpl in Ht.
    specialize (Hrows r Hr). unfold has_token in Hrows.
    destruct (Sklearn.tokenize _); [contradiction | discriminate].
  - rewrite Hq in Ht. contradiction.
Qed.

Lemma token_vocabulary df_filtered user_amenities r :
  In r df_filtered -> has_token r = true ->
  Sklearn.vocabulary (corpus (with_amenities_str df_filtered) user_amenities)
  <> [].
Proof.
  intros Hr Htok. unfold has_token in Htok.
  destruct (Sklearn.tokenize (Py.join " " (amenities r))) as [| t tokens] eqn:E;
    [discriminate |].
  intro Hvoc.
  assert (Hin : In t (Sklearn.vocabulary
                        (corpus (with_amenities_str df_filtered)
                           user_amenities))).
  { apply In_vocabulary. exists (Py.join " " (amenities r)). split.
    - unfold corpus, with_amenities_str. apply in_or_app. left.
      rewrite map_map. simpl.
      now apply (in_map (fun x => Py.join " " (amenities x))).
    - rewrite E. now left. }
  rewrite Hvoc in Hin. contradiction.
Qed.

Lemma NoDup_links_at_positions df_filtered d (l : list nat) :
  NoDup (map link df_filtered) -> NoDup l ->
  Forall (fun i => (i < List.length df_filtered)%nat) l ->
  NoDup (map (fun i => link (nth i df_filtered d)) l).
Proof.
  intros Hlinks Hl Hlt. induction Hl as [| a l Ha Hl IH]; simpl;
    [constructor |].
  inversion Hlt as [| ? ? Halt Hllt]; subst.
  constructor; [| now apply IH].
  intro Hin. apply in_map_iff in Hin. destruct Hin as (b & Hb & Hbl).
  rewrite Forall_forall in Hllt. specialize (Hllt b Hbl).
  apply Ha. replace a with b; [exact Hbl |].
  rewrite NoDup_nth in Hlinks. apply (Hlinks b a);
    try (now rewrite length_map).
  rewrite <- (map_nth link df_filtered d b), <- (map_nth link df_filtered d a)
    in Hb.
  exact Hb.
Qed.

Lemma StronglySorted_app_order {A : Type} (rel : A -> A -> Prop) (l1 l2 : list A) :
  StronglySorted rel (l1 ++ l2) ->
  forall x y, In x l1 -> In y l2 -> rel x y.
Proof.
  induction l1 as [| a l1 IH]; simpl; intros Hs x y Hx Hy; [contradiction |].
  inversion Hs as [| ? ? Hl Ha]; subst. destruct Hx as [<- | Hx].
  - rewrite Forall_forall in Ha. apply Ha. apply in_or_app. now right.
  - now apply IH.
Qed.

(** ** The table returned *)

Lemma ranked_leb (d : nat -> spec_float) i j :
  ranked d i j ->
  SFleb (d i) (d j) = true /\ (SFeqb (d i) (d j) = true -> (i < j)%nat).
Proof.
  unfold ranked. intros [H | [H Hij]].
  - split; [apply SFleb_cases; now left |].
    unfold SFltb in H. unfold SFeqb.
    destruct (SFcompare (d i) (d j)) as [[| |] |]; discriminate.
  - split; [apply SFleb_cases; now right | auto].
Qed.

(** With distinct links and every candidate within reach, the table
    returned is the first five of all candidate positions in ranked
    order. *)
Lemma rank_top_five np_log df_filtered user_amenities columns rows :
  NoDup (map link df_filtered) ->
  all_within_reach np_log df_filtered user_amenities = true ->
  rank np_log df_filtered user_amenities = Frame columns rows ->
  exists M all,
    Sklearn.fit_transform np_log
      (corpus (with_amenities_str df_filtered) user_amenities) = Some M
    /\ Permutation all (seq 0 (List.length df_filtered))
    /\ StronglySorted (ranked (squared_distance M)) all
    /\ forall d, rows = map (fun i => nth i df_filtered d) (firstn 5 all).
Proof.
  intros Hlinks Hreach Hrank.
  destruct (rank_Frame _ _ _ _ _ Hrank Hreach)
    as (M & nearest & HM & _ & Hne & Hdef & _ & _ & Hrows).
  unfold all_within_reach in Hreach.
  set (ds := scores np_log df_filtered user_amenities) in *.
  assert (Hlends : List.length ds = List.length df_filtered)
    by apply (scores_length _ _ _ _ HM).
  destruct (knn_spec ds (List.length ds))
    as (all & _ & Hall & _ & Hlt & Hsorted & Hfull).
  destruct (Hfull Hreach) as [_ Hperm]. clear Hfull.
  specialize (Hperm (Nat.le_refl _)). rewrite Hlends in *.
  rewrite (labelled_within_reach _ Hreach) in Hall.
  assert (Hnear : nearest = firstn 10 all).
  { rewrite Hdef, Hall, <- firstn_map. f_equal. f_equal.
    symmetry. apply firstn_all2.
    rewrite (Permutation_length (sort_by_distance_Permutation _)).
    unfold Faiss.labelled. rewrite length_combine, length_seq. lia. }
  exists M, all. split; [exact HM |]. split; [exact Hperm |]. split.
  { apply (StronglySorted_weaken (ranked (fun i => nth i ds S754_nan)));
      [| assumption].
    rewrite Forall_forall in Hlt. intros x y Hx Hy. unfold ranked, ds.
    rewrite !(scores_nth _ _ _ M) by (try exact HM; now apply Hlt).
    auto. }
  intro d. rewrite (Hrows d), Hnear.
  unfold Pandas.head, Pandas.drop_duplicates.
  rewrite drop_duplicates_from_id.
  - rewrite <- !firstn_map, firstn_firstn. reflexivity.
  - rewrite map_map. apply NoDup_links_at_positions; [assumption | |].
    + apply NoDup_firstn.
      apply (Permutation_NoDup (Permutation_sym Hperm)), seq_NoDup.
    + rewrite Forall_forall in *. intros i Hi. apply Hlt.
      now apply In_firstn in Hi.
  - intros x _ [].
Qed.

(** The table returned after a successful filter, when the corpus has a
    token and every candidate is within reach: the first five of all
    candidate positions in ranked order. *)
Lemma filter_then_rank np_log general df user_size user_price user_location
    user_amenities df_filtered :
  structured_filter general df user_size user_price user_location
  = Continue df_filtered ->
  Sklearn.vocabulary (corpus (with_amenities_str df_filtered) user_amenities)
  <> [] ->
  all_within_reach np_log df_filtered user_amenities = true ->
  exists M all rows,
    Sklearn.fit_transform np_log
      (corpus (with_amenities_str df_filtered) user_amenities) = Some M
    /\ find_similar_properties np_log general df user_size user_price
         user_location user_amenities = Frame projection rows
    /\ (forall i, In i all <-> (i < List.length df_filtered)%nat)
    /\ NoDup all
    /\ List.length all = List.length df_filtered
    /\ StronglySorted (ranked (squared_distance M)) all
    /\ forall d, rows = map (fun i => nth i df_filtered d) (firstn 5 all).
Proof.
  intros Hfilter Hvoc Hreach.
  rewrite (find_similar_properties_Continue _ _ _ _ _ _ _ _ Hfilter).
  pose proof (structured_filter_nonempty _ _ _ _ _ _ Hfilter) as Hne.
  pose proof (structured_filter_NoDup _ _ _ _ _ _ Hfilter) as Hlinks.
  destruct (rank_total np_log _ _ Hne Hvoc) as [rows Hrank].
  destruct (rank_top_five _ _ _ _ _ Hlinks Hreach Hrank)
    as (M & all & HM & Hperm & Hsorted & Hrows).
  exists M, all, rows. split; [exact HM |]. split; [exact Hrank |].
  split; [| split; [| split; [| split; [exact Hsorted | exact Hrows]]]].
  - intro i. split; intro H.
    + apply (Permutation_in _ Hperm), in_seq in H. lia.
    + apply (Permutation_in _ (Permutation_sym Hperm)), in_seq. lia.
  - apply (Permutation_NoDup (Permutation_sym Hperm)), seq_NoDup.
  - now rewrite (Permutation_length Hperm), length_seq.
Qed.

(** The same table, by the positions of its rows in the filtered
    table. *)
Lemma ranked_output np_log general df user_size user_price user_location
    user_amenities df_filtered :
  structured_filter general df user_size user_price user_location
  = Continue df_filtered ->
  Sklearn.vocabulary (corpus (with_amenities_str df_filtered) user_amenities)
  <> [] ->
  all_within_reach np_log df_filtered user_amenities = true ->
  exists M positions rows,
    Sklearn.fit_transform np_log
      (corpus (with_amenities_str df_filtered) user_amenities) = Some M
    /\ find_similar_properties np_log general df user_size user_price
         user_location user_amenities = Frame projection rows
    /\ map Some rows = map (nth_error df_filtered) positions
    /\ NoDup positions
    /\ List.length rows = Nat.min 5 (List.length df_filtered)
    /\ StronglySorted (ranked (squared_distance M)) positions
    /\ forall p q,
         In p positions -> (q < List.length df_filtered)%nat ->
         ~ In q positions -> ranked (squared_distance M) p q.
Proof.
  intros Hfilter Hvoc Hreach.
  destruct (filter_then_rank np_log _ _ _ _ _ _ _ Hfilter Hvoc Hreach)
    as (M & all & rows & HM & Hres & Hall & Hnd & Hlen & Hsorted & Hrows).
  pose proof (structured_filter_nonempty _ _ _ _ _ _ Hfilter) as Hne.
  destruct df_filtered as [| d df'] eqn:Edf; [congruence |].
  rewrite <- Edf in *.
  exists M, (firstn 5 all), rows.
  split; [exact HM |]. split; [exact Hres |].
  split; [| split; [| split; [| split]]].
  - rewrite (Hrows d), map_map. apply map_ext_in. intros i Hi.
    symmetry. apply nth_error_nth'. apply Hall. now apply In_firstn in Hi.
  - now apply NoDup_firstn.
  - now rewrite (Hrows d), length_map, length_firstn, Hlen.
  - now apply firstn_sorted.
  - intros p q Hp Hq Hnq.
    assert (Hqs : In q (skipn 5 all)).
    { apply Hall in Hq. rewrite <- (firstn_skipn 5 all) in Hq.
      apply in_app_or in Hq. destruct Hq; [contradiction | assumption]. }
    rewrite <- (firstn_skipn 5 all) in Hsorted.
    exact (StronglySorted_app_order _ _ _ Hsorted p q Hp Hqs).
Qed.

(** A candidate at distance zero is returned, unless five candidates at
    distance zero that stand before it in the filtered table take the
    five places. *)
Lemma zero_score_is_returned M (all : list nat) (rows df_filtered : list Row)
    i r :
  (forall j, In j all <-> (j < List.length df_filtered)%nat) ->
  StronglySorted (ranked (squared_distance M)) all ->
  (forall d, rows = map (fun j => nth j df_filtered d) (firstn 5 all)) ->
  nth_error df_filtered i = Some r ->
  squared_distance M i = S754_zero false ->
  In r rows
  \/ (List.length rows = 5%nat
      /\ forall x, In x rows ->
           exists p,
             (p < i)%nat /\ nth_error df_filtered p = Some x
             /\ squared_distance M p = S754_zero false).
Proof.
  intros Hall Hsorted Hrows Hi Hzero.
  assert (Hlt : (i < List.length df_filtered)%nat)
    by (apply nth_error_Some; congruence).
  pose proof (proj2 (Hall i) Hlt) as Hiall.
  rewrite <- (firstn_skipn 5 all) in Hiall. apply in_app_or in Hiall.
  destruct Hiall as [Hfirst | Hrest].
  - left. rewrite (Hrows r). apply in_map_iff. exists i.
    split; [now apply nth_error_nth | exact Hfirst].
  - right. split.
    + rewrite (Hrows r), length_map, length_firstn.
      assert (Hlen : (5 < List.length all)%nat).
      { destruct (Nat.lt_ge_cases 5 (List.length all)) as [H | H];
          [exact H |].
        rewrite skipn_all2 in Hrest by lia. contradiction. }
      lia.
    + intros x Hx. rewrite (Hrows r) in Hx. apply in_map_iff in Hx.
      destruct Hx as (p & <- & Hp).
      rewrite <- (firstn_skipn 5 all) in Hsorted.
      pose proof (StronglySorted_app_order _ _ _ Hsorted p i Hp Hrest) as Hn.
      unfold ranked in Hn. rewrite Hzero in Hn.
      assert (Hpl : (p < List.length df_filtered)%nat).
      { apply Hall. now apply In_firstn in Hp. }
      exists p. destruct Hn as [Hn | [Hn Hpi]].
      * rewrite unsigned_not_below_zero in Hn
          by apply squared_distance_unsigned.
        discriminate.
      * split; [exact Hpi |]. split; [now apply nth_error_nth' |].
        apply unsigned_zero; [apply squared_distance_unsigned | exact Hn].
Qed.

(** ** Scenarios *)

(** Two Mumbai listings, one with a gym and one with a pool, queried
    for a gym. *)
Lemma gym_scenario :
  find_similar_properties log_of_scenarios not_consulted
    [listing_gym; listing_pool]
    (Py.PInt 2) (Py.PInt 120000) (Py.PStr "mumbai") ["gym"]
  = Frame projection [listing_gym; listing_pool].
Proof. vm_compute. reflexivity. Qed.

(** A query without amenities over a listing with a gym and a listing
    without amenities. *)
Lemma bare_scenario :
  find_similar_properties log_of_scenarios not_consulted
    [listing_gym; listing_bare]
    (Py.PInt 2) (Py.PInt 120000) (Py.PStr "mumbai") []
  = Frame projection [listing_bare; listing_gym].
Proof. vm_compute. reflexivity. Qed.

(** A query without amenities over a listing with one amenity and a
    listing with two. *)
Lemma duo_scenario :
  find_similar_properties log_of_scenarios not_consulted
    [listing_gym; listing_duo]
    (Py.PInt 2) (Py.PInt 120000) (Py.PStr "mumbai") []
  = Frame projection [listing_duo; listing_gym].
Proof. vm_compute. reflexivity. Qed.

Lemma iloc_In {A : Type} (df : list A) (indices : list Z) : forall xs x,
  Pandas.iloc df indices = Some xs -> In x xs -> In x df.
Proof.
  induction indices as [| i rest IH]; simpl; intros xs x H Hx.
  - injection H as <-. contradiction.
  - destruct (Pandas.position (List.length df) i) as [p |]; [| discriminate].
    destruct (nth_error df p) as [r |] eqn:E; [| discriminate].
    destruct (Pandas.iloc df rest) as [rs |]; [| discriminate].
    injection H as <-. destruct Hx as [<- | Hx].
    + now apply nth_error_In in E.
    + now apply (IH rs).
Qed.

Lemma rank_rows_subset np_log df_filtered user_amenities columns rows r :
  rank np_log df_filtered user_amenities = Frame columns rows ->
  In r rows -> In r df_filtered.
Proof.
  intros H Hr. apply rank_unfold in H.
  destruct H as (M & nearest & _ & Hiloc & _ & ->).
  apply in_map_iff in Hr. destruct Hr as (c & <- & Hc).
  unfold Pandas.head in Hc. apply In_firstn in Hc.
  unfold Pandas.drop_duplicates in Hc.
  apply drop_duplicates_from_In in Hc. destruct Hc as [Hc _].
  apply (iloc_In _ _ _ _ Hiloc) in Hc.
  unfold with_amenities_str in Hc. apply in_map_iff in Hc.
  destruct Hc as (r & <- & Hr). exact Hr.
Qed.

Lemma ideal_fit_transform_Some docs :
  Sklearn.vocabulary docs <> [] -> exists M, Ideal.fit_transform docs = Some M.
Proof.
  unfold Ideal.fit_transform.
  destruct (Sklearn.vocabulary docs); [congruence | eauto].
Qed.

(** ** The claims *)

(** C1 (amended).  Every listing that survives the structured filter
    has the size of the query and a price of at most the limit the code
    computes, which is the binary64 product of the query's maximum price
    and 1.05, not the exact product; the bound is closed: a located
    listing whose price equals the limit survives. *)
Theorem survivors_match_size_and_price_band :
  forall general df (query_size : Z) user_price user_location survivors L,
    structured_filter general df (Py.PInt query_size) user_price user_location
    = Continue survivors ->
    In L survivors ->
    exists max_price upper_price_limit,
      Py.to_float user_price = inr max_price
      /\ upper_price_limit = F64.mul max_price (F64.of_Q 1.05)
      /\ size L = query_size
      /\ SFleb (F64.of_Q (price L)) upper_price_limit = true
      /\ exists loc found,
           Py.method_lower user_location = inr loc
           /\ Re.compile general loc = Some found
           /\ forall L',
                In L' (location_match (size_match df (Py.PInt query_size))
                         loc found) ->
                SFeqb (F64.of_Q (price L')) upper_price_limit = true ->
                In L' survivors.
Proof.
  intros general df query_size user_price user_location survivors L
         Hfilter HL.
  apply structured_filter_Continue in Hfilter.
  destruct Hfilter as (loc & found & limit & Hloc & Hre & Hmul & _ & _ & -> & _).
  unfold Py.mul_float in Hmul.
  destruct (Py.to_float user_price) as [e | max_price] eqn:Hnum;
    [discriminate |].
  injection Hmul as <-.
  apply price_band_In in HL. destruct HL as [HL Hprice].
  apply location_match_subset, size_match_In in HL. destruct HL as [_ Hsize].
  simpl in Hsize. apply Z.eqb_eq in Hsize.
  exists max_price, (F64.mul max_price (F64.of_Q 1.05)).
  split; [reflexivity |]. split; [reflexivity |].
  split; [exact Hsize |]. split; [exact Hprice |].
  exists loc, found. split; [exact Hloc |]. split; [exact Hre |].
  intros L' HL' Heq. apply price_band_In. split; [assumption |].
  apply SFleb_cases. now right.
Qed.

(** Two Mumbai listings, one priced exactly at the limit, satisfy the
    premises of C1. *)
Lemma survivors_match_size_and_price_band_witness :
  exists max_price upper_price_limit,
    Py.to_float (Py.PInt 120000) = inr max_price
    /\ upper_price_limit = F64.mul max_price (F64.of_Q 1.05)
    /\ size listing_at_limit = 2%Z
    /\ SFleb (F64.of_Q (price listing_at_limit)) upper_price_limit = true
    /\ exists loc found,
         Py.method_lower (Py.PStr "Mumbai") = inr loc
         /\ Re.compile not_consulted loc = Some found
         /\ forall L',
              In L' (location_match
                       (size_match [listing_gym; listing_at_limit] (Py.PInt 2))
                       loc found) ->
              SFeqb (F64.of_Q (price L')) upper_price_limit = true ->
              In L' [listing_gym; listing_at_limit].
Proof.
  apply (survivors_match_size_and_price_band not_consulted
           [listing_gym; listing_at_limit] 2 (Py.PInt 120000)
           (Py.PStr "Mumbai")
           [listing_gym; listing_at_limit] listing_at_limit).
  - vm_compute. reflexivity.
  - simpl. auto.
Defined.

(** C1, as stated, fails: for the maximum price 3 the code computes the
    limit 3.1500000000000004, so a listing at that price survives
    although its price is above 3 times 1.05. *)
Lemma price_limit_is_rounded :
  structured_filter not_consulted [listing_above]
    (Py.PInt 2) (Py.PInt 3) (Py.PStr "mumbai")
  = Continue [listing_above]
  /\ Py.mul_float (Py.PInt 3) 1.05 = inr (F64.of_Q 3.1500000000000004)
  /\ ~ (price listing_above <= inject_Z 3 * 1.05)%Q.
Proof.
  split; [vm_compute; reflexivity |].
  split; [vm_compute; reflexivity |].
  intro H. vm_compute in H. now apply H.
Qed.

(** C2 (amended).  On the candidates that survive the filter, provided
    their corpus has a token, the ranking stage fits one TF-IDF matrix
    on the candidates' amenity texts followed by the query's amenity
    text as last document; the score of a candidate is the squared
    Euclidean distance between its row and the query row as the index
    computes it, in binary32 on the rows cast to binary32.  When every
    score is within reach of the index, the table returned consists of
    five candidates, or of all when there are fewer, taken at distinct
    positions of the filtered table such that, whenever one stands
    before another in the output, its score is at most the other's and,
    at equal scores, it is the earlier one in the filtered table. *)
Theorem ranking_is_distance_monotonic :
  forall np_log general df user_size user_price user_location user_amenities
         df_filtered,
    structured_filter general df user_size user_price user_location
    = Continue df_filtered ->
    Sklearn.vocabulary (corpus (with_amenities_str df_filtered) user_amenities)
    <> [] ->
    all_within_reach np_log df_filtered user_amenities = true ->
    exists tfidf_matrix positions rows,
      Sklearn.fit_transform np_log
        (map amenities_str (with_amenities_str df_filtered)
         ++ [Py.join " " user_amenities])
      = Some tfidf_matrix
      /\ List.length tfidf_matrix = S (List.length df_filtered)
      /\ find_similar_properties np_log general df user_size user_price
           user_location user_amenities
         = Frame projection rows
      /\ map Some rows = map (nth_error df_filtered) positions
      /\ NoDup positions
      /\ List.length rows = Nat.min 5 (List.length df_filtered)
      /\ forall a b pa pb,
           (a < b)%nat ->
           nth_error positions a = Some pa ->
           nth_error positions b = Some pb ->
           SFleb (squared_distance tfidf_matrix pa)
             (squared_distance tfidf_matrix pb) = true
           /\ (SFeqb (squared_distance tfidf_matrix pa)
                 (squared_distance tfidf_matrix pb) = true ->
               (pa < pb)%nat).
Proof.
  intros np_log general df user_size user_price user_location user_amenities
         df_filtered Hfilter Hvoc Hreach.
  destruct (ranked_output np_log _ _ _ _ _ _ _ Hfilter Hvoc Hreach)
    as (M & positions & rows & HM & Hres & Hrows & Hnd & Hlen & Hsorted & _).
  exists M, positions, rows.
  split; [exact HM |].
  split; [exact (matrix_length _ _ _ _ HM) |].
  split; [exact Hres |]. split; [exact Hrows |]. split; [exact Hnd |].
  split; [exact Hlen |].
  intros a b pa pb Hab Ha Hb. apply ranked_leb.
  exact (StronglySorted_nth_error _ _ Hsorted a b pa pb Ha Hb Hab).
Qed.

(** The gym scenario satisfies the premises of C2. *)
Lemma ranking_is_distance_monotonic_witness :
  exists tfidf_matrix positions rows,
    Sklearn.fit_transform log_of_scenarios
      (map amenities_str (with_amenities_str [listing_gym; listing_pool])
       ++ [Py.join " " ["gym"]])
    = Some tfidf_matrix
    /\ List.length tfidf_matrix = S (List.length [listing_gym; listing_pool])
    /\ find_similar_properties log_of_scenarios not_consulted
         [listing_gym; listing_pool]
         (Py.PInt 2) (Py.PInt 120000) (Py.PStr "mumbai") ["gym"]
       = Frame projection rows
    /\ map Some rows = map (nth_error [listing_gym; listing_pool]) positions
    /\ NoDup positions
    /\ List.length rows = Nat.min 5 (List.length [listing_gym; listing_pool])
    /\ forall a b pa pb,
         (a < b)%nat ->
         nth_error positions a = Some pa ->
         nth_error positions b = Some pb ->
         SFleb (squared_distance tfidf_matrix pa)
           (squared_distance tfidf_matrix pb) = true
         /\ (SFeqb (squared_distance tfidf_matrix pa)
               (squared_distance tfidf_matrix pb) = true ->
             (pa < pb)%nat).
Proof.
  apply (ranking_is_distance_monotonic log_of_scenarios not_consulted
           [listing_gym; listing_pool] (Py.PInt 2) (Py.PInt 120000)
           (Py.PStr "mumbai") ["gym"] [listing_gym; listing_pool]).
  - vm_compute. reflexivity.
  - vm_compute. discriminate.
  - vm_compute. reflexivity.
Defined.

(** C2, as stated, fails: with no amenities in the query, a listing
    with one amenity and a later listing with two are at the same
    Euclidean distance from the query, 1, so the tie should leave them
    in filter order; the index computes 1 for the first and 0.99999994
    for the second, and the table returned has the second first. *)
Lemma rounding_breaks_a_tie :
  structured_filter not_consulted [listing_gym; listing_duo]
    (Py.PInt 2) (Py.PInt 120000) (Py.PStr "mumbai")
  = Continue [listing_gym; listing_duo]
  /\ (exists M,
        Ideal.fit_transform (corpus (with_amenities_str [listing_gym; listing_duo]) [])
        = Some M
        /\ Ideal.squared_distance M 0 = 1%R
        /\ Ideal.squared_distance M 1 = 1%R)
  /\ scores log_of_scenarios [listing_gym; listing_duo] []
     = [S754_finite false 8388608 (-23); S754_finite false 16777215 (-24)]
  /\ find_similar_properties log_of_scenarios not_consulted
       [listing_gym; listing_duo]
       (Py.PInt 2) (Py.PInt 120000) (Py.PStr "mumbai") []
     = Frame projection [listing_duo; listing_gym].
Proof.
  split; [vm_compute; reflexivity |].
  split; [| split; [vm_compute; reflexivity | exact duo_scenario]].
  destruct (ideal_fit_transform_Some
              (corpus (with_amenities_str [listing_gym; listing_duo]) []))
    as [M HM]; [vm_compute; discriminate |].
  exists M. split; [exact HM |].
  split.
  - rewrite (ideal_squared_distance_no_query_token
               [listing_gym; listing_duo] [] M listing_gym 0 eq_refl HM)
      by (simpl; lia).
    reflexivity.
  - rewrite (ideal_squared_distance_no_query_token
               [listing_gym; listing_duo] [] M listing_gym 1 eq_refl HM)
      by (simpl; lia).
    reflexivity.
Qed.

(** C3.  The claim fails where the corpus has no token: the filter
    stage keeps the listing without amenities, the query has none
    either, and the call ends in [ValueError] instead of returning a
    table of at most five rows with the seven columns. *)
Theorem no_table_for_a_corpus_without_tokens :
  structured_filter not_consulted [listing_bare; listing_gym]
    (Py.PInt 2) (Py.PInt 95000) (Py.PStr "mumbai")
  = Continue [listing_bare]
  /\ Sklearn.vocabulary (corpus (with_amenities_str [listing_bare]) ["a"])
     = []
  /\ forall np_log,
       find_similar_properties np_log not_consulted
         [listing_bare; listing_gym]
         (Py.PInt 2) (Py.PInt 95000) (Py.PStr "mumbai") ["a"]
       = Raised Py.ValueError.
Proof.
  split; [vm_compute; reflexivity |].
  split; [vm_compute; reflexivity |].
  intro np_log.
  rewrite (find_similar_properties_Continue _ _ _ _ _ _ _ [listing_bare])
    by (vm_compute; reflexivity).
  reflexivity.
Qed.

(** C4.  The claim fails for a query location with a metacharacter:
    with the query location [a.c] the listing located at [abc] passes
    the location stage although its location neither equals the query
    location nor contains it. *)
Theorem location_pattern_is_a_regex :
  structured_filter not_consulted [listing_abc]
    (Py.PInt 2) (Py.PInt 120000) (Py.PStr "a.c")
  = Continue [listing_abc]
  /\ Pandas.eq_str (location listing_abc) (Py.lower "a.c") = false
  /\ Pandas.contains_cell (Re.substringb (Py.lower "a.c"))
       (location listing_abc) = false.
Proof. repeat split; vm_compute; reflexivity. Qed.

(** C5 (amended).  Size, location and price are applied in this order
    and each stops the function with a sentence when nothing is left:
    [no_size] exactly when no listing has the query size, [no_location]
    exactly when the size stage is non-empty and the location union is
    empty, [no_price] exactly when the location stage is non-empty and
    no listing of it has a price of at most the limit, the binary64
    product of the query price and 1.05; no other text is ever returned,
    and none of them is a reason code. *)
Theorem empty_results_in_filter_order :
  forall np_log general df user_size user_price user_location user_amenities,
    let result :=
      find_similar_properties np_log general df user_size user_price
        user_location user_amenities in
    let sized := size_match df user_size in
    (result = Message no_size <-> sized = [])
    /\ (result = Message no_location
        <-> sized <> []
            /\ exists loc found,
                 Py.method_lower user_location = inr loc
                 /\ Re.compile general loc = Some found
                 /\ location_match sized loc found = [])
    /\ (result = Message no_price
        <-> sized <> []
            /\ exists loc found limit,
                 Py.method_lower user_location = inr loc
                 /\ Re.compile general loc = Some found
                 /\ location_match sized loc found <> []
                 /\ Py.mul_float user_price 1.05 = inr limit
                 /\ price_band (location_match sized loc found) limit = [])
    /\ (forall text, result = Message text ->
          text = no_size \/ text = no_location \/ text = no_price)
    /\ no_size = "No properties found with the given size."
    /\ no_location = "No properties found in the specified location."
    /\ no_price = "No properties found within the price range.".
Proof.
  intros np_log general df user_size user_price user_location user_amenities
         result sized.
  unfold result. rewrite !find_similar_properties_Message.
  split; [apply structured_filter_no_size |].
  split; [apply structured_filter_no_location |].
  split; [apply structured_filter_no_price |].
  split; [| repeat split].
  intros text H. apply find_similar_properties_Message in H.
  now apply structured_filter_messages in H.
Qed.

(** C5, as stated, fails: a query whose size matches nothing gets the
    sentence of the size stage, which is not the code [no-size-match]. *)
Lemma empty_result_is_a_sentence :
  find_similar_properties log_of_scenarios not_consulted
    [listing_gym; listing_pool]
    (Py.PInt 3) (Py.PInt 120000) (Py.PStr "mumbai") ["gym"]
  = Message "No properties found with the given size."
  /\ Message "No properties found with the given size."
     <> Message "no-size-match".
Proof. split; [vm_compute; reflexivity | discriminate]. Qed.

(** C6 (amended).  A query whose size, price and location are all
    missing is forwarded to the filter like any other: no listing has
    the size [None], so the size stage is empty and the driver prints
    the sentence of the size stage. *)
Theorem unparsed_query_reports_no_size :
  forall np_log general respond eval_ df user_query,
    search_braces (respond user_query) = None ->
    extract_keywords_from_text respond eval_ user_query = nothing_extracted
    /\ structured_filter general df Py.PNone Py.PNone Py.PNone
       = Return_ no_size
    /\ main np_log general respond eval_ df user_query = Message no_size.
Proof.
  intros np_log general respond eval_ df user_query Hnone.
  assert (Hex : extract_keywords_from_text respond eval_ user_query
                = nothing_extracted).
  { unfold extract_keywords_from_text. now rewrite Hnone. }
  assert (Hsize : size_match df Py.PNone = []).
  { unfold size_match. induction df as [| r df IH]; [reflexivity | exact IH]. }
  assert (Hf : structured_filter general df Py.PNone Py.PNone Py.PNone
               = Return_ no_size)
    by now apply structured_filter_no_size.
  split; [exact Hex |]. split; [exact Hf |].
  unfold main. rewrite Hex. simpl.
  now apply find_similar_properties_Message.
Qed.

(** An answer of the language model without braces satisfies the
    premise of C6. *)
Lemma unparsed_query_reports_no_size_witness :
  extract_keywords_from_text (fun _ => "I could not read that.")
    (fun _ => nothing_extracted) "a flat, somewhere"
  = nothing_extracted
  /\ structured_filter not_consulted [listing_gym; listing_pool]
       Py.PNone Py.PNone Py.PNone
     = Return_ no_size
  /\ main log_of_scenarios not_consulted (fun _ => "I could not read that.")
       (fun _ => nothing_extracted) [listing_gym; listing_pool]
       "a flat, somewhere"
     = Message no_size.
Proof.
  apply (unparsed_query_reports_no_size log_of_scenarios not_consulted
           (fun _ => "I could not read that.") (fun _ => nothing_extracted)
           [listing_gym; listing_pool] "a flat, somewhere").
  reflexivity.
Defined.

(** C6, as stated, fails: for a query with every field missing the
    driver runs the filter and prints the sentence of the size stage,
    not [could not parse query]. *)
Lemma unparsed_query_is_filtered :
  extract_keywords_from_text (fun _ => "I could not read that.")
    (fun _ => nothing_extracted) "a flat, somewhere"
  = mkExtracted Py.PNone Py.PNone Py.PNone []
  /\ main log_of_scenarios not_consulted (fun _ => "I could not read that.")
       (fun _ => nothing_extracted) [listing_gym; listing_pool]
       "a flat, somewhere"
     = Message "No properties found with the given size."
  /\ Message "No properties found with the given size."
     <> Message "could not parse query".
Proof. repeat split; try (vm_compute; reflexivity). discriminate. Qed.

(** C7 (amended).  For a query without amenities whose filter stage is
    non-empty and has a candidate with an amenity token, the query row
    is the zero vector, and so is the row of a candidate whose amenity
    text has no token: its score is zero, the smallest there is, whereas
    the other scores need not be equal.  When every score is within
    reach of the index, the table returned lists five candidates, or
    all when there are fewer, with ascending scores and in filter order
    among equal scores, and a candidate without tokens is left out only
    when five candidates with the score zero that stand before it in the
    filtered table take the five places. *)
Theorem zero_amenity_query_order :
  forall np_log general df user_size user_price user_location df_filtered,
    structured_filter general df user_size user_price user_location
    = Continue df_filtered ->
    (exists r, In r df_filtered /\ has_token r = true) ->
    all_within_reach np_log df_filtered [] = true ->
    exists tfidf_matrix positions rows,
      Sklearn.fit_transform np_log (corpus (with_amenities_str df_filtered) [])
      = Some tfidf_matrix
      /\ Forall (fun x => x = F64.zero) (last tfidf_matrix [])
      /\ (forall i r,
            nth_error df_filtered i = Some r -> has_token r = false ->
            squared_distance tfidf_matrix i = F32.zero)
      /\ (forall i, SFltb (squared_distance tfidf_matrix i) F32.zero = false)
      /\ find_similar_properties np_log general df user_size user_price
           user_location []
         = Frame projection rows
      /\ map Some rows = map (nth_error df_filtered) positions
      /\ List.length rows = Nat.min 5 (List.length df_filtered)
      /\ StronglySorted (ranked (squared_distance tfidf_matrix)) positions
      /\ forall i r,
           nth_error df_filtered i = Some r -> has_token r = false ->
           In r rows
           \/ (List.length rows = 5%nat
               /\ forall x, In x rows ->
                    exists p,
                      (p < i)%nat /\ nth_error df_filtered p = Some x
                      /\ squared_distance tfidf_matrix p = F32.zero).
Proof.
  intros np_log general df user_size user_price user_location df_filtered
         Hfilter (r0 & Hr0 & Htok) Hreach.
  pose proof (token_vocabulary _ [] _ Hr0 Htok) as Hvoc.
  destruct (filter_then_rank np_log _ _ _ _ _ _ _ Hfilter Hvoc Hreach)
    as (M & all & rows & HM & Hres & Hall & Hnd & Hlen & Hsorted & Hrows).
  pose proof (structured_filter_nonempty _ _ _ _ _ _ Hfilter) as Hne.
  exists M, (firstn 5 all), rows. split; [exact HM |].
  split; [now apply (query_row_zero np_log df_filtered []) |].
  split; [intros i r Hi Hr;
          now apply (squared_distance_no_tokens np_log df_filtered [] M i r) |].
  split; [intro i; apply unsigned_not_below_zero,
                     squared_distance_unsigned |].
  split; [exact Hres |].
  destruct df_filtered as [| d df'] eqn:Edf; [congruence |].
  rewrite <- Edf in *.
  split; [| split; [| split]].
  - rewrite (Hrows d), map_map. apply map_ext_in. intros i Hi.
    symmetry. apply nth_error_nth'. apply Hall. now apply In_firstn in Hi.
  - now rewrite (Hrows d), length_map, length_firstn, Hlen.
  - now apply firstn_sorted.
  - intros i r Hi Hr.
    apply (zero_score_is_returned M all rows df_filtered i r Hall Hsorted
             Hrows Hi).
    now apply (squared_distance_no_tokens np_log df_filtered [] M i r).
Qed.

(** A listing with a gym and a listing without amenities satisfy the
    premises of C7. *)
Lemma zero_amenity_query_order_witness :
  exists tfidf_matrix positions rows,
    Sklearn.fit_transform log_of_scenarios
      (corpus (with_amenities_str [listing_gym; listing_bare]) [])
    = Some tfidf_matrix
    /\ Forall (fun x => x = F64.zero) (last tfidf_matrix [])
    /\ (forall i r,
          nth_error [listing_gym; listing_bare] i = Some r ->
          has_token r = false ->
          squared_distance tfidf_matrix i = F32.zero)
    /\ (forall i, SFltb (squared_distance tfidf_matrix i) F32.zero = false)
    /\ find_similar_properties log_of_scenarios not_consulted
         [listing_gym; listing_bare]
         (Py.PInt 2) (Py.PInt 120000) (Py.PStr "mumbai") []
       = Frame projection rows
    /\ map Some rows = map (nth_error [listing_gym; listing_bare]) positions
    /\ List.length rows = Nat.min 5 (List.length [listing_gym; listing_bare])
    /\ StronglySorted (ranked (squared_distance tfidf_matrix)) positions
    /\ forall i r,
         nth_error [listing_gym; listing_bare] i = Some r ->
         has_token r = false ->
         In r rows
         \/ (List.length rows = 5%nat
             /\ forall x, In x rows ->
                  exists p,
                    (p < i)%nat
                    /\ nth_error [listing_gym; listing_bare] p = Some x
                    /\ squared_distance tfidf_matrix p = F32.zero).
Proof.
  apply (zero_amenity_query_order log_of_scenarios not_consulted
           [listing_gym; listing_bare]
           (Py.PInt 2) (Py.PInt 120000) (Py.PStr "mumbai")
           [listing_gym; listing_bare]).
  - vm_compute. reflexivity.
  - exists listing_gym. split; [simpl; auto | reflexivity].
  - vm_compute. reflexivity.
Defined.

(** C7, as stated, fails: with no amenities in the query, the filter
    stage keeps the listing with a gym before the listing without
    amenities; their scores are 1 and 0, and the table returned has
    them the other way round. *)
Lemma bare_listing_outranks :
  structured_filter not_consulted [listing_gym; listing_bare]
    (Py.PInt 2) (Py.PInt 120000) (Py.PStr "mumbai")
  = Continue [listing_gym; listing_bare]
  /\ scores log_of_scenarios [listing_gym; listing_bare] []
     = [S754_finite false 8388608 (-23); S754_zero false]
  /\ find_similar_properties log_of_scenarios not_consulted
       [listing_gym; listing_bare]
       (Py.PInt 2) (Py.PInt 120000) (Py.PStr "mumbai") []
     = Frame projection [listing_bare; listing_gym]
  /\ [listing_bare; listing_gym] <> [listing_gym; listing_bare].
Proof.
  split; [vm_compute; reflexivity |].
  split; [vm_compute; reflexivity |].
  split; [exact bare_scenario | discriminate].
Qed.

(** C8.  The claim fails: with a listing without amenities and a query
    without amenities the vocabulary is empty and the call ends in
    [ValueError]; it returns neither a sentence nor a table. *)
Theorem empty_vocabulary_raises :
  structured_filter not_consulted [listing_bare]
    (Py.PInt 2) (Py.PInt 120000) (Py.PStr "mumbai")
  = Continue [listing_bare]
  /\ Sklearn.vocabulary (corpus (with_amenities_str [listing_bare]) []) = []
  /\ forall np_log,
       find_similar_properties np_log not_consulted [listing_bare]
         (Py.PInt 2) (Py.PInt 120000) (Py.PStr "mumbai") []
       = Raised Py.ValueError.
Proof.
  split; [vm_compute; reflexivity |].
  split; [vm_compute; reflexivity |].
  intro np_log.
  rewrite (find_similar_properties_Continue _ _ _ _ _ _ _ [listing_bare])
    by (vm_compute; reflexivity).
  reflexivity.
Qed.





(** C10 (amended).  What the function hands back depends on the branch:
    the sentence of the first empty stage, a bare string, on each of
    the three empty branches, and, when the filter leaves candidates
    whose corpus has a token, a table with the seven projected columns
    and between one and five rows.  A string is returned only on those
    three branches and a table only after a successful filter, so the
    type of the result tells an empty result from data; the three
    sentences differ from each other and are all the caller is told
    about the reason. *)
Theorem result_shape_by_branch :
  forall np_log general df user_size user_price user_location user_amenities,
    let result :=
      find_similar_properties np_log general df user_size user_price
        user_location user_amenities in
    let sized := size_match df user_size in
    (sized = [] -> result = Message no_size)
    /\ (forall loc found,
          sized <> [] ->
          Py.method_lower user_location = inr loc ->
          Re.compile general loc = Some found ->
          location_match sized loc found = [] ->
          result = Message no_location)
    /\ (forall loc found limit,
          sized <> [] ->
          Py.method_lower user_location = inr loc ->
          Re.compile general loc = Some found ->
          location_match sized loc found <> [] ->
          Py.mul_float user_price 1.05 = inr limit ->
          price_band (location_match sized loc found) limit = [] ->
          result = Message no_price)
    /\ (forall df_filtered,
          structured_filter general df user_size user_price user_location
          = Continue df_filtered ->
          Sklearn.vocabulary
            (corpus (with_amenities_str df_filtered) user_amenities) <> [] ->
          exists rows,
            result = Frame projection rows
            /\ rows <> []
            /\ (List.length rows <= 5)%nat
            /\ forall r, In r rows -> In r df_filtered)
    /\ (isinstance_str result = true
        <-> exists text,
              result = Message text
              /\ structured_filter general df user_size user_price
                   user_location
                 = Return_ text
              /\ (text = no_size \/ text = no_location \/ text = no_price))
    /\ (forall columns rows,
          result = Frame columns rows ->
          isinstance_str result = false
          /\ columns = projection
          /\ List.length columns = 7%nat
          /\ rows <> []
          /\ (List.length rows <= 5)%nat
          /\ exists df_filtered,
               structured_filter general df user_size user_price user_location
               = Continue df_filtered
               /\ df_filtered <> [])
    /\ no_size <> no_location
    /\ no_size <> no_price
    /\ no_location <> no_price.
Proof.
  intros np_log general df user_size user_price user_location user_amenities
         result sized. unfold result.
  split; [| split; [| split; [| split; [| split; [| split]]]]].
  - intro H. apply find_similar_properties_Message.
    now apply structured_filter_no_size.
  - intros loc found H1 H2 H3 H4. apply find_similar_properties_Message.
    apply structured_filter_no_location. split; [exact H1 |].
    now exists loc, found.
  - intros loc found limit H1 H2 H3 H4 H5 H6.
    apply find_similar_properties_Message.
    apply structured_filter_no_price. split; [exact H1 |].
    now exists loc, found, limit.
  - intros df_filtered Hf Hvoc.
    rewrite (find_similar_properties_Continue _ _ _ _ _ _ _ _ Hf).
    pose proof (structured_filter_nonempty _ _ _ _ _ _ Hf) as Hne.
    destruct (rank_total np_log _ _ Hne Hvoc) as [rows Hrank].
    exists rows. split; [exact Hrank |].
    destruct (rank_rows_count _ _ _ _ _ Hrank) as [H1 H2].
    split; [exact H1 |]. split; [exact H2 |].
    intros r Hr. exact (rank_rows_subset _ _ _ _ _ _ Hrank Hr).
  - split.
    + intro H.
      destruct (find_similar_properties np_log general df user_size
                  user_price user_location user_amenities)
        as [text | columns rows | e] eqn:E; try discriminate.
      exists text. split; [reflexivity |].
      apply find_similar_properties_Message in E. split; [exact E |].
      now apply structured_filter_messages in E.
    + intros (text & -> & _). reflexivity.
  - intros columns rows H. rewrite H. split; [reflexivity |].
    apply find_similar_properties_Frame in H.
    destruct H as (df_filtered & Hf & Hrank).
    destruct (rank_rows_count _ _ _ _ _ Hrank) as [H1 H2].
    destruct (rank_unfold _ _ _ _ _ Hrank) as (_ & _ & _ & _ & -> & _).
    split; [reflexivity |]. split; [reflexivity |].
    split; [exact H1 |]. split; [exact H2 |].
    exists df_filtered. split; [exact Hf |].
    now apply structured_filter_nonempty in Hf.
  - repeat split; discriminate.
Qed.

(** C10, as stated, fails: a caller can tell an empty result from data
    by the type of the value alone, a string in one case and a table in
    the other. *)
Lemma results_differ_in_type :
  find_similar_properties log_of_scenarios not_consulted
    [listing_gym; listing_pool]
    (Py.PInt 3) (Py.PInt 120000) (Py.PStr "mumbai") ["gym"]
  = Message no_size
  /\ find_similar_properties log_of_scenarios not_consulted
       [listing_gym; listing_pool]
       (Py.PInt 2) (Py.PInt 120000) (Py.PStr "mumbai") ["gym"]
     = Frame projection [listing_gym; listing_pool]
  /\ isinstance_str (Message no_size) = true
  /\ isinstance_str (Frame projection [listing_gym; listing_pool]) = false.
Proof.
  split; [vm_compute; reflexivity |].
  split; [exact gym_scenario |]. split; reflexivity.
Qed.

(** * Further properties of the code

    ** Texts: [split], [join] and the analyzer *)

Lemma split_not_nil sep s : split sep s <> [].
Proof.
  destruct s as [| c s]; simpl; [discriminate |].
  destruct (Ascii.eqb c sep); [discriminate |].
  destruct (split sep s); discriminate.
Qed.

Lemma split_app_sep sep a b :
  split sep (a ++ String sep b) = split sep a ++ split sep b.
Proof.
  induction a as [| c a IH]; simpl.
  - now rewrite Ascii.eqb_refl.
  - destruct (Ascii.eqb c sep); [now rewrite IH |].
    rewrite IH. pose proof (split_not_nil sep a) as Hne.
    destruct (split sep a) as [| p ps]; [congruence | reflexivity].
Qed.

Lemma split_without_sep sep s : occurs sep s = false -> split sep s = [s].
Proof.
  induction s as [| c s IH]; simpl; intro H; [reflexivity |].
  apply orb_false_iff in H. destruct H as [Hc Hs].
  rewrite Hc, (IH Hs). reflexivity.
Qed.

Lemma join_cons_char sep c p ps :
  Py.join sep (String c p :: ps) = String c (Py.join sep (p :: ps)).
Proof. destruct ps; reflexivity. Qed.

Lemma join_split sep s : Py.join (String sep EmptyString) (split sep s) = s.
Proof.
  induction s as [| c s IH]; simpl; [reflexivity |].
  pose proof (split_not_nil sep s) as Hne.
  destruct (Ascii.eqb c sep) eqn:E.
  - apply Ascii.eqb_eq in E. subst c.
    destruct (split sep s) as [| p ps]; [congruence |].
    change (Py.join (String sep EmptyString) (EmptyString :: p :: ps))
      with (String sep (Py.join (String sep EmptyString) (p :: ps))).
    now rewrite IH.
  - destruct (split sep s) as [| p ps]; [congruence |].
    now rewrite join_cons_char, IH.
Qed.

Lemma split_join sep xs :
  xs <> [] ->
  split sep (Py.join (String sep EmptyString) xs)
  = List.concat (map (split sep) xs).
Proof.
  induction xs as [| x xs IH]; intro Hne; [congruence |].
  destruct xs as [| y xs].
  - simpl. now rewrite app_nil_r.
  - change (Py.join (String sep EmptyString) (x :: y :: xs))
      with (x ++ String sep (Py.join (String sep EmptyString) (y :: xs)))%string.
    rewrite split_app_sep, IH by discriminate. reflexivity.
Qed.

Lemma concat_singletons (xs : list string) :
  List.concat (map (fun x => [x]) xs) = xs.
Proof. induction xs as [| x xs IH]; simpl; [reflexivity | now rewrite IH]. Qed.

Lemma lower_app a b : Py.lower (a ++ b) = (Py.lower a ++ Py.lower b)%string.
Proof. induction a as [| c a IH]; simpl; [reflexivity | now rewrite IH]. Qed.

(** A character that is no word character ends the run being read. *)
Lemma word_runs_app_sep d a b : forall cur,
  Sklearn.is_word d = false ->
  Sklearn.word_runs (a ++ String d b) cur
  = Sklearn.word_runs a cur ++ Sklearn.word_runs b EmptyString.
Proof.
  induction a as [| c a IH]; intros cur Hd; simpl.
  - now rewrite Hd.
  - destruct (Sklearn.is_word c); [now apply IH |].
    now rewrite IH.
Qed.

Lemma tokenize_app_sep c a b :
  Sklearn.is_word (Py.lower_char c) = false ->
  Sklearn.tokenize (a ++ String c b)
  = Sklearn.tokenize a ++ Sklearn.tokenize b.
Proof.
  intro Hc. unfold Sklearn.tokenize. rewrite lower_app. simpl.
  now rewrite word_runs_app_sep, filter_app.
Qed.

(** Joining texts with a separator that is no word character
    concatenates their tokens. *)
Lemma tokenize_join c xs :
  Sklearn.is_word (Py.lower_char c) = false ->
  Sklearn.tokenize (Py.join (String c EmptyString) xs)
  = List.concat (map Sklearn.tokenize xs).
Proof.
  intro Hc. induction xs as [| x xs IH]; [reflexivity |].
  destruct xs as [| y xs].
  - simpl. now rewrite app_nil_r.
  - change (Py.join (String c EmptyString) (x :: y :: xs))
      with (x ++ String c (Py.join (String c EmptyString) (y :: xs)))%string.
    rewrite tokenize_app_sep, IH by assumption. reflexivity.
Qed.

(** Cutting a text at its commas and joining the pieces with blanks
    changes no token. *)
Lemma word_runs_join_split s : forall cur,
  Sklearn.word_runs (Py.lower (Py.join " " (split ","%char s))) cur
  = Sklearn.word_runs (Py.lower s) cur.
Proof.
  induction s as [| c s IH]; intro cur; [reflexivity |].
  pose proof (split_not_nil ","%char s) as Hne.
  simpl split. destruct (Ascii.eqb c ","%char) eqn:E.
  - apply Ascii.eqb_eq in E. subst c.
    destruct (split ","%char s) as [| p ps] eqn:Es; [congruence |].
    change (Py.join " " (EmptyString :: p :: ps))
      with (String " " (Py.join " " (p :: ps))).
    simpl. now rewrite IH.
  - destruct (split ","%char s) as [| p ps] eqn:Es; [congruence |].
    rewrite join_cons_char. simpl.
    destruct (Sklearn.is_word (Py.lower_char c)); now rewrite IH.
Qed.

Lemma tokenize_join_split s :
  Sklearn.tokenize (Py.join " " (split ","%char s)) = Sklearn.tokenize s.
Proof. unfold Sklearn.tokenize. now rewrite word_runs_join_split. Qed.

Lemma lower_char_idempotent c : Py.lower_char (Py.lower_char c) = Py.lower_char c.
Proof. destruct c as [[] [] [] [] [] [] [] []]; reflexivity. Qed.

Lemma lower_idempotent s : Py.lower (Py.lower s) = Py.lower s.
Proof.
  induction s as [| c s IH]; simpl; [reflexivity |].
  now rewrite lower_char_idempotent, IH.
Qed.

(** ** Cleaning, storing and loading *)

(** X1.  A list of amenities that is joined for storage (line 25) and
    split on loading (line 46) comes back as the pieces of its elements
    cut at their commas; an empty list comes back as the list of one
    empty string; a non-empty list whose elements have no comma comes
    back unchanged. *)
Theorem amenities_through_storage :
  forall xs,
    split_amenities (join_amenities (Items xs))
    = Items (match xs with
             | [] => [EmptyString]
             | _ :: _ => List.concat (map (split ","%char) xs)
             end)
    /\ (xs <> [] ->
        Forall (fun x => occurs ","%char x = false) xs ->
        split_amenities (join_amenities (Items xs)) = Items xs).
Proof.
  intro xs.
  assert (H : split_amenities (join_amenities (Items xs))
              = Items (match xs with
                       | [] => [EmptyString]
                       | _ :: _ => List.concat (map (split ","%char) xs)
                       end)).
  { destruct xs as [| x xs]; [reflexivity |].
    unfold join_amenities, split_amenities.
    f_equal. apply (split_join ","%char). discriminate. }
  split; [exact H |].
  intros Hne Hfree. rewrite H. destruct xs as [| x xs]; [congruence |].
  f_equal. rewrite <- (concat_singletons (x :: xs)) at 2. f_equal.
  apply map_ext_in. intros y Hy. rewrite Forall_forall in Hfree.
  now apply split_without_sep, Hfree.
Qed.

(** X2.  The tokens the ranking reads for a listing (line 82 joins its
    loaded amenities with blanks) are the tokens of the amenities as
    they were before storage, element by element, whether or not the
    elements contain commas. *)
Theorem stored_amenities_keep_their_tokens :
  forall xs (r : Row),
    Items (amenities r) = split_amenities (join_amenities (Items xs)) ->
    map (fun c => Sklearn.tokenize (amenities_str c)) (with_amenities_str [r])
    = [List.concat (map Sklearn.tokenize xs)].
Proof.
  intros xs r H. simpl in H. injection H as H. simpl. rewrite H.
  f_equal. rewrite tokenize_join_split.
  apply (tokenize_join ","%char). reflexivity.
Qed.

(** A listing stored from the amenities [cctv, lift] and [Gym]
    satisfies the premise of X2. *)
Lemma stored_amenities_keep_their_tokens_witness :
  map (fun c => Sklearn.tokenize (amenities_str c))
      (with_amenities_str
         [mkRow "id7" 2 90000 (Some "mumbai") ["cctv"; " lift"; "Gym"]
            "two rooms" "tower g"])
  = [List.concat (map Sklearn.tokenize ["cctv, lift"; "Gym"])].
Proof.
  apply (stored_amenities_keep_their_tokens ["cctv, lift"; "Gym"]
           (mkRow "id7" 2 90000 (Some "mumbai") ["cctv"; " lift"; "Gym"]
              "two rooms" "tower g")).
  reflexivity.
Defined.

Lemma apply_amenities_inr f df out :
  apply_amenities f df = inr out ->
  Forall2 (fun r o => exists x, f (raw_amenities r) = inr x
                                /\ o = set_amenities r x) df out.
Proof.
  revert out. induction df as [| r df IH]; simpl; intros out H.
  - injection H as <-. constructor.
  - destruct (f (raw_amenities r)) as [e | x] eqn:Ef; [discriminate |].
    destruct (apply_amenities f df) as [e | rest]; [discriminate |].
    injection H as <-. constructor; [| now apply IH]. now exists x.
Qed.

Lemma apply_amenities_inl f df e :
  apply_amenities f df = inl e <->
  exists pre r post,
    df = pre ++ r :: post
    /\ Forall (fun r' => exists x, f (raw_amenities r') = inr x) pre
    /\ f (raw_amenities r) = inl e.
Proof.
  induction df as [| r df IH]; simpl.
  - split; [discriminate |]. intros (pre & r & post & H & _).
    destruct pre; discriminate.
  - split.
    + destruct (f (raw_amenities r)) as [e' | x] eqn:Ef.
      * intro H. injection H as ->. exists [], r, df. auto.
      * destruct (apply_amenities f df) as [e' | rest]; [| discriminate].
        intro H. injection H as ->.
        destruct (proj1 IH eq_refl) as (pre & r' & post & Hdf & Hpre & He).
        exists (r :: pre), r', post. rewrite Hdf.
        split; [reflexivity |]. split; [| exact He].
        constructor; [now exists x | assumption].
    + intros (pre & r' & post & Hdf & Hpre & He).
      destruct pre as [| p pre]; simpl in Hdf; injection Hdf as Hr Hrest.
      * subst r'. now rewrite He.
      * subst p. inversion Hpre as [| ? ? [x Hx] Hpre']; subst.
        rewrite Hx.
        assert (H : apply_amenities f (pre ++ r' :: post) = inl e).
        { apply IH. now exists pre, r', post. }
        now rewrite H.
Qed.

Lemma location_without_text_ext (a b : list RawRow) :
  map missing_location a = map missing_location b ->
  location_without_text a = location_without_text b.
Proof.
  intro H. unfold location_without_text.
  assert (He : Pandas.empty a = Pandas.empty b).
  { destruct a, b; try reflexivity; discriminate. }
  rewrite He. f_equal. clear He. revert b H.
  induction a as [| r a IH]; intros [| s b] H; try discriminate;
    [reflexivity |].
  simpl in *. injection H as Hr Hrest. now rewrite Hr, (IH b Hrest).
Qed.

Lemma apply_amenities_locations f df out :
  apply_amenities f df = inr out ->
  map raw_location out = map raw_location df.
Proof.
  intro H. apply apply_amenities_inr in H.
  induction H as [| r o df out (x & _ & ->) _ IH]; simpl;
    [reflexivity | now rewrite IH].
Qed.

(** Line 25 over the column: [TypeError] when some list has an item
    that is no string, and otherwise every list joined. *)
Lemma join_column (df : list RawRow) :
  ((exists r, In r df /\ raw_amenities r = Mixed)
   /\ apply_amenities join_checked df = inl Py.TypeError)
  \/ ((forall r, In r df -> raw_amenities r <> Mixed)
      /\ apply_amenities join_checked df
         = inr (map (fun r => set_amenities r (join_amenities (raw_amenities r)))
                    df)).
Proof.
  induction df as [| r df IH]; simpl.
  - right. split; [intros r [] | reflexivity].
  - destruct (raw_amenities r) as [s | l | |] eqn:Er; simpl.
    + destruct IH as [[(r' & Hin & Hm) ->] | [Hno ->]].
      * left. split; [exists r'; auto | reflexivity].
      * right. split; [| reflexivity].
        intros r' [<- | Hin]; [congruence | now apply Hno].
    + destruct IH as [[(r' & Hin & Hm) ->] | [Hno ->]].
      * left. split; [exists r'; auto | reflexivity].
      * right. split; [| reflexivity].
        intros r' [<- | Hin]; [congruence | now apply Hno].
    + left. split; [exists r; auto | reflexivity].
    + destruct IH as [[(r' & Hin & Hm) ->] | [Hno ->]].
      * left. split; [exists r'; auto | reflexivity].
      * right. split; [| reflexivity].
        intros r' [<- | Hin]; [congruence | now apply Hno].
Qed.

(** The rows a successful cleaning writes, row by row. *)
Lemma cleaned_rows literal_eval raw_df table :
  save_cleaned_data literal_eval raw_df = inr table ->
  location_without_text raw_df = false
  /\ Forall2
       (fun r o =>
          exists x,
            eval_amenities literal_eval (raw_amenities r) = inr x
            /\ x <> Mixed
            /\ o = set_amenities (lower_location r) (join_amenities x))
       raw_df table.
Proof.
  unfold save_cleaned_data, preprocess_data, str_lower_location.
  destruct (apply_amenities _ raw_df) as [e | df1] eqn:E; [discriminate |].
  assert (Hloc : location_without_text df1 = location_without_text raw_df).
  { apply location_without_text_ext. unfold missing_location.
    rewrite <- !(map_map raw_location
                   (fun l => match l with None => true | Some _ => false end)).
    now rewrite (apply_amenities_locations _ _ _ E). }
  rewrite Hloc.
  destruct (location_without_text raw_df); [discriminate |].
  destruct (join_column (map lower_location df1)) as [[_ ->] | [Hno ->]];
    [discriminate |].
  intro H. injection H as <-. split; [reflexivity |].
  apply apply_amenities_inr in E. rewrite map_map. clear Hloc.
  revert Hno.
  induction E as [| r o raw_df df1 (x & Hx & ->) _ IH]; simpl; intro Hno;
    constructor.
  - exists x. split; [exact Hx |]. split; [| reflexivity].
    apply (Hno (lower_location (set_amenities r x))). now left.
  - apply IH. intros r' Hr'. apply Hno. now right.
Qed.

(** X3.  When the cleaning succeeds, the table read back by
    [load_cleaned_data] has one row per row of the CSV frame, in the
    same order, with the other columns kept, the location lower-cased,
    and the amenities cut at the commas of their stored text: no text
    is left in that column, and the row can be read by
    [find_similar_properties] unless its amenities are missing. *)
Theorem cleaned_table_after_loading :
  forall literal_eval raw_df table,
    save_cleaned_data literal_eval raw_df = inr table ->
    Forall2
      (fun r o =>
         raw_link o = raw_link r
         /\ raw_size o = raw_size r
         /\ raw_price o = raw_price r
         /\ raw_description o = raw_description r
         /\ raw_building_name o = raw_building_name r
         /\ raw_location o = option_map Py.lower (raw_location r)
         /\ (exists x,
               eval_amenities literal_eval (raw_amenities r) = inr x
               /\ raw_amenities o = split_amenities (join_amenities x))
         /\ (forall s, raw_amenities o <> Text s)
         /\ (as_row o = None <-> raw_amenities o = Missing))
      raw_df (load_cleaned_data table).
Proof.
  intros literal_eval raw_df table H.
  apply cleaned_rows in H. destruct H as [_ H].
  unfold load_cleaned_data.
  induction H as [| r o raw_df table (x & Hx & Hm & ->) _ IH]; simpl;
    constructor; [| exact IH].
  repeat (split; [reflexivity |]).
  split; [exists x; split; [exact Hx | reflexivity] |].
  unfold as_row. simpl.
  destruct x as [s | l | |]; simpl; repeat split;
    try discriminate; try reflexivity; try congruence; intro; discriminate.
Qed.

(** A frame of one row whose amenities text denotes the list of [gym]
    and [pool] satisfies the premise of X3. *)
Lemma cleaned_table_after_loading_witness :
  Forall2
    (fun r o =>
       raw_link o = raw_link r
       /\ raw_size o = raw_size r
       /\ raw_price o = raw_price r
       /\ raw_description o = raw_description r
       /\ raw_building_name o = raw_building_name r
       /\ raw_location o = option_map Py.lower (raw_location r)
       /\ (exists x,
             eval_amenities
               (fun s => if String.eqb s "['gym', 'pool']"
                         then inr (Items ["gym"; "pool"])
                         else inl Py.ValueError)
               (raw_amenities r) = inr x
             /\ raw_amenities o = split_amenities (join_amenities x))
       /\ (forall s, raw_amenities o <> Text s)
       /\ (as_row o = None <-> raw_amenities o = Missing))
    [mkRawRow "id1" 2 100000 (Some "Mumbai") (Text "['gym', 'pool']")
       "two rooms" "tower a"]
    (load_cleaned_data
       [mkRawRow "id1" 2 100000 (Some "mumbai") (Text "gym,pool")
          "two rooms" "tower a"]).
Proof.
  apply (cleaned_table_after_loading
           (fun s => if String.eqb s "['gym', 'pool']"
                     then inr (Items ["gym"; "pool"])
                     else inl Py.ValueError)
           [mkRawRow "id1" 2 100000 (Some "Mumbai") (Text "['gym', 'pool']")
              "two rooms" "tower a"]
           [mkRawRow "id1" 2 100000 (Some "mumbai") (Text "gym,pool")
              "two rooms" "tower a"]).
  reflexivity.
Defined.

(** X4.  The cleaning raises in three cases, tried in this order: some
    amenities text is no literal, and the exception is that of the
    first such row; the frame has rows and none of them has a location
    text, and the exception is [AttributeError]; some evaluated
    amenities are a list with an item that is no string, and the
    exception is [TypeError].  In every other case it succeeds. *)
Theorem cleaning_raises_in_three_cases :
  forall literal_eval df e,
    preprocess_data literal_eval df = inl e
    <-> (exists pre r post s,
           df = pre ++ r :: post
           /\ Forall (fun r' =>
                        exists x,
                          eval_amenities literal_eval (raw_amenities r')
                          = inr x)
                     pre
           /\ raw_amenities r = Text s
           /\ literal_eval s = inl e)
        \/ (exists evaluated,
              apply_amenities (eval_amenities literal_eval) df = inr evaluated
              /\ if location_without_text df then e = Py.AttributeError
                 else e = Py.TypeError
                      /\ exists r, In r evaluated /\ raw_amenities r = Mixed).
Proof.
  intros literal_eval df e. unfold preprocess_data, str_lower_location.
  destruct (apply_amenities (eval_amenities literal_eval) df) as [e' | df1] eqn:E.
  - split.
    + intro H. injection H as ->. left. apply apply_amenities_inl in E.
      destruct E as (pre & r & post & Hdf & Hpre & He).
      destruct (raw_amenities r) as [s | l | |] eqn:Er; simpl in He;
        try discriminate.
      now exists pre, r, post, s.
    + intros [(pre & r & post & s & Hdf & Hpre & Hr & He) | (ev & Hev & _)];
        [| discriminate].
      assert (H : apply_amenities (eval_amenities literal_eval) df = inl e).
      { apply apply_amenities_inl. exists pre, r, post.
        repeat split; auto. now rewrite Hr. }
      congruence.
  - assert (Hloc : location_without_text df1 = location_without_text df).
    { apply location_without_text_ext. unfold missing_location.
      rewrite <- !(map_map raw_location
                     (fun l => match l with None => true | Some _ => false end)).
      now rewrite (apply_amenities_locations _ _ _ E). }
    rewrite Hloc. split.
    + intro H. right. exists df1. split; [reflexivity |].
      destruct (location_without_text df); [congruence |].
      destruct (join_column (map lower_location df1))
        as [[(r & Hin & Hm) Heq] | [_ Heq]]; rewrite Heq in H;
        [| discriminate].
      injection H as <-. split; [reflexivity |].
      apply in_map_iff in Hin. destruct Hin as (r' & <- & Hr').
      now exists r'.
    + intros [(pre & r & post & s & Hdf & Hpre & Hr & He) | (ev & Hev & H)].
      * assert (H : apply_amenities (eval_amenities literal_eval) df = inl e).
        { apply apply_amenities_inl. exists pre, r, post.
          repeat split; auto. now rewrite Hr. }
        congruence.
      * injection Hev as <-.
        destruct (location_without_text df); [now subst |].
        destruct H as (-> & r & Hin & Hm).
        destruct (join_column (map lower_location df1))
          as [[_ Heq] | [Hno _]]; [exact Heq |].
        elim (Hno (lower_location r)); [now apply in_map | exact Hm].
Qed.

Lemma apply_amenities_no_text literal_eval df :
  Forall (fun r => forall s, raw_amenities r <> Text s) df ->
  apply_amenities (eval_amenities literal_eval) df = inr df.
Proof.
  induction 1 as [| r df Hr _ IH]; simpl; [reflexivity |].
  rewrite IH. destruct r as [l z p loc [s | items | |] d b]; simpl in *;
    try reflexivity.
  now elim (Hr s).
Qed.

(** X5.  Cleaning the table read back by [load_cleaned_data] gives the
    stored table again, without any text being evaluated: loading and
    cleaning are inverse to each other on what the cleaning wrote. *)
Theorem cleaning_a_loaded_table_restores_it :
  forall literal_eval other_eval raw_df table,
    save_cleaned_data literal_eval raw_df = inr table ->
    preprocess_data other_eval (load_cleaned_data table) = inr table.
Proof.
  intros literal_eval other_eval raw_df table H.
  apply cleaned_rows in H. destruct H as [Hloc H].
  assert (Hform : forall o, In o table ->
            exists r x,
              x <> Mixed
              /\ o = set_amenities (lower_location r) (join_amenities x)).
  { clear Hloc.
    induction H as [| r o raw_df table (x & _ & Hm & Ho) _ IH];
      intros o' Hin; [contradiction |].
    destruct Hin as [<- | Hin]; [now exists r, x | now apply IH]. }
  assert (Hlocs : location_without_text (load_cleaned_data table) = false).
  { rewrite <- Hloc. apply location_without_text_ext.
    unfold load_cleaned_data. rewrite map_map. clear Hform Hloc.
    induction H as [| r o raw_df table (x & _ & _ & ->) _ IH];
      [reflexivity |].
    simpl. rewrite IH. f_equal. unfold missing_location. simpl.
    now destruct (raw_location r). }
  unfold preprocess_data, str_lower_location.
  rewrite apply_amenities_no_text.
  - rewrite Hlocs.
    destruct (join_column (map lower_location (load_cleaned_data table)))
      as [[(r & Hin & Hm) _] | [_ ->]].
    + exfalso. apply in_map_iff in Hin. destruct Hin as (o' & <- & Hin).
      unfold load_cleaned_data in Hin. apply in_map_iff in Hin.
      destruct Hin as (o & <- & Ho).
      destruct (Hform o Ho) as (r & x & Hx & ->). simpl in Hm.
      destruct x; simpl in Hm; congruence.
    + f_equal. unfold load_cleaned_data. rewrite !map_map.
      rewrite <- (map_id table) at 2. apply map_ext_in. intros o Ho.
      destruct (Hform o Ho) as (r & x & Hx & ->).
      destruct r as [l z p loc a d b]. unfold set_amenities, lower_location.
      simpl. f_equal.
      * destruct loc as [c |]; simpl; [now rewrite lower_idempotent | reflexivity].
      * destruct x as [s | items | |]; simpl; try reflexivity; try congruence.
        -- f_equal. apply (join_split ","%char).
        -- f_equal. apply (join_split ","%char).
  - unfold load_cleaned_data. rewrite Forall_forall. intros o Ho.
    apply in_map_iff in Ho. destruct Ho as (o' & <- & Ho').
    simpl. intros s. destruct (raw_amenities o'); discriminate.
Qed.

(** A frame of one row whose amenities text denotes the list of [gym]
    and [pool] satisfies the premise of X5. *)
Lemma cleaning_a_loaded_table_restores_it_witness :
  preprocess_data (fun _ => inl Py.ValueError)
    (load_cleaned_data
       [mkRawRow "id1" 2 100000 (Some "mumbai") (Text "gym,pool")
          "two rooms" "tower a"])
  = inr [mkRawRow "id1" 2 100000 (Some "mumbai") (Text "gym,pool")
           "two rooms" "tower a"].
Proof.
  apply (cleaning_a_loaded_table_restores_it
           (fun s => if String.eqb s "['gym', 'pool']"
                     then inr (Items ["gym"; "pool"])
                     else inl Py.ValueError)
           (fun _ => inl Py.ValueError)
           [mkRawRow "id1" 2 100000 (Some "Mumbai") (Text "['gym', 'pool']")
              "two rooms" "tower a"]).
  reflexivity.
Defined.




(** ** What the returned table holds *)

(** X7.  Every row of a returned table is a listing of the table given
    to the function that has the size of the query, a location that is
    not missing and equals the lower-cased query location or is matched
    by it as a pattern, and a price of at most the limit, the binary64
    product of the query price and 1.05. *)
Theorem returned_rows_meet_the_query :
  forall np_log general df user_size user_price user_location user_amenities
         columns rows,
    find_similar_properties np_log general df user_size user_price
      user_location user_amenities = Frame columns rows ->
    exists loc found limit,
      Py.method_lower user_location = inr loc
      /\ Re.compile general loc = Some found
      /\ Py.mul_float user_price 1.05 = inr limit
      /\ forall r, In r rows ->
           In r df /\ meets user_size loc found limit r
           /\ location r <> None.
Proof.
  intros np_log general df user_size user_price user_location user_amenities
         columns rows H.
  apply find_similar_properties_Frame in H.
  destruct H as (df_filtered & Hfilter & Hrank).
  apply structured_filter_Continue in Hfilter.
  destruct Hfilter as (loc & found & limit & Hl & Hc & Hm & _ & _ & -> & _).
  exists loc, found, limit.
  split; [exact Hl |]. split; [exact Hc |]. split; [exact Hm |].
  intros r Hr. apply (rank_rows_subset _ _ _ _ _ _ Hrank) in Hr.
  apply price_band_In in Hr. destruct Hr as [Hr Hprice].
  apply location_match_In in Hr.
  assert (Hloc : In r (size_match df user_size)
                 /\ (Pandas.eq_str (location r) loc = true
                     \/ Pandas.contains_cell found (location r) = true)).
  { unfold exact_match, partial_match in Hr.
    destruct Hr as [Hr | Hr]; apply filter_In in Hr; destruct Hr; auto. }
  destruct Hloc as [Hsized Hloc]. apply size_match_In in Hsized.
  destruct Hsized as [Hdf Hsize].
  split; [exact Hdf |]. split; [now repeat split |].
  intro Hnone. rewrite Hnone in Hloc. simpl in Hloc.
  destruct Hloc; discriminate.
Qed.

(** The gym scenario satisfies the premise of X7. *)
Lemma returned_rows_meet_the_query_witness :
  exists loc found limit,
    Py.method_lower (Py.PStr "mumbai") = inr loc
    /\ Re.compile not_consulted loc = Some found
    /\ Py.mul_float (Py.PInt 120000) 1.05 = inr limit
    /\ forall r, In r [listing_gym; listing_pool] ->
         In r [listing_gym; listing_pool]
         /\ meets (Py.PInt 2) loc found limit r
         /\ location r <> None.
Proof.
  apply (returned_rows_meet_the_query log_of_scenarios not_consulted
           [listing_gym; listing_pool] (Py.PInt 2) (Py.PInt 120000)
           (Py.PStr "mumbai") ["gym"] projection [listing_gym; listing_pool]).
  exact gym_scenario.
Defined.

(** X8.  When the corpus of the surviving candidates has a token and
    every score is within reach of the index, the table returned holds
    exactly the five candidates with the smallest scores, or all of
    them when fewer than five survive, each once: the score of a
    candidate that is not returned is at least that of every returned
    one and, at equal scores, it comes later in the filtered table. *)
Theorem returned_rows_are_nearest :
  forall np_log general df user_size user_price user_location user_amenities
         df_filtered,
    structured_filter general df user_size user_price user_location
    = Continue df_filtered ->
    Sklearn.vocabulary (corpus (with_amenities_str df_filtered) user_amenities)
    <> [] ->
    all_within_reach np_log df_filtered user_amenities = true ->
    exists tfidf_matrix positions rows,
      Sklearn.fit_transform np_log
        (corpus (with_amenities_str df_filtered) user_amenities)
      = Some tfidf_matrix
      /\ find_similar_properties np_log general df user_size user_price
           user_location user_amenities
         = Frame projection rows
      /\ map Some rows = map (nth_error df_filtered) positions
      /\ NoDup positions
      /\ List.length rows = Nat.min 5 (List.length df_filtered)
      /\ forall p q,
           In p positions ->
           (q < List.length df_filtered)%nat ->
           ~ In q positions ->
           SFleb (squared_distance tfidf_matrix p)
             (squared_distance tfidf_matrix q) = true
           /\ (SFeqb (squared_distance tfidf_matrix p)
                 (squared_distance tfidf_matrix q) = true ->
               (p < q)%nat).
Proof.
  intros np_log general df user_size user_price user_location user_amenities
         df_filtered Hfilter Hvoc Hreach.
  destruct (ranked_output np_log _ _ _ _ _ _ _ Hfilter Hvoc Hreach)
    as (M & positions & rows & HM & Hres & Hrows & Hnd & Hlen & _ & Hout).
  exists M, positions, rows.
  split; [exact HM |]. split; [exact Hres |]. split; [exact Hrows |].
  split; [exact Hnd |]. split; [exact Hlen |].
  intros p q Hp Hq Hnq. apply ranked_leb. now apply Hout.
Qed.

(** The gym scenario satisfies the premises of X8. *)
Lemma returned_rows_are_nearest_witness :
  exists tfidf_matrix positions rows,
    Sklearn.fit_transform log_of_scenarios
      (corpus (with_amenities_str [listing_gym; listing_pool]) ["gym"])
    = Some tfidf_matrix
    /\ find_similar_properties log_of_scenarios not_consulted
         [listing_gym; listing_pool]
         (Py.PInt 2) (Py.PInt 120000) (Py.PStr "mumbai") ["gym"]
       = Frame projection rows
    /\ map Some rows = map (nth_error [listing_gym; listing_pool]) positions
    /\ NoDup positions
    /\ List.length rows = Nat.min 5 (List.length [listing_gym; listing_pool])
    /\ forall p q,
         In p positions ->
         (q < List.length [listing_gym; listing_pool])%nat ->
         ~ In q positions ->
         SFleb (squared_distance tfidf_matrix p)
           (squared_distance tfidf_matrix q) = true
         /\ (SFeqb (squared_distance tfidf_matrix p)
               (squared_distance tfidf_matrix q) = true ->
             (p < q)%nat).
Proof.
  apply (returned_rows_are_nearest log_of_scenarios not_consulted
           [listing_gym; listing_pool] (Py.PInt 2) (Py.PInt 120000)
           (Py.PStr "mumbai") ["gym"] [listing_gym; listing_pool]).
  - vm_compute. reflexivity.
  - vm_compute. discriminate.
  - vm_compute. reflexivity.
Defined.

Lemma within_reach_nth np_log df_filtered user_amenities M i :
  all_within_reach np_log df_filtered user_amenities = true ->
  Sklearn.fit_transform np_log
    (corpus (with_amenities_str df_filtered) user_amenities) = Some M ->
  (i < List.length df_filtered)%nat ->
  SFltb (squared_distance M i) F32.max = true.
Proof.
  intros Hreach HM Hi. unfold all_within_reach in Hreach.
  rewrite forallb_forall in Hreach.
  rewrite <- (scores_nth np_log df_filtered user_amenities M i HM Hi).
  apply Hreach. apply nth_In. now rewrite (scores_length _ _ _ _ HM).
Qed.

(** X9.  A candidate with at least one amenity token whose amenity text
    has the tokens of the request has the score zero, when every score
    is within reach of the index, and is returned, unless five
    candidates with the score zero that stand before it in the filtered
    table take the five places. *)
Theorem exact_amenity_match_is_returned :
  forall np_log general df user_size user_price user_location user_amenities
         df_filtered i r,
    structured_filter general df user_size user_price user_location
    = Continue df_filtered ->
    nth_error df_filtered i = Some r ->
    Sklearn.tokenize (Py.join " " (amenities r))
    = Sklearn.tokenize (Py.join " " user_amenities) ->
    has_token r = true ->
    all_within_reach np_log df_filtered user_amenities = true ->
    exists tfidf_matrix rows,
      Sklearn.fit_transform np_log
        (corpus (with_amenities_str df_filtered) user_amenities)
      = Some tfidf_matrix
      /\ find_similar_properties np_log general df user_size user_price
           user_location user_amenities
         = Frame projection rows
      /\ squared_distance tfidf_matrix i = F32.zero
      /\ (In r rows
          \/ (List.length rows = 5%nat
              /\ forall x, In x rows ->
                   exists p,
                     (p < i)%nat /\ nth_error df_filtered p = Some x
                     /\ squared_distance tfidf_matrix p = F32.zero)).
Proof.
  intros np_log general df user_size user_price user_location user_amenities
         df_filtered i r Hfilter Hi Htok Hhas Hreach.
  assert (Hin : In r df_filtered) by now apply nth_error_In in Hi.
  destruct (filter_then_rank np_log _ _ _ _ _ user_amenities _ Hfilter
              (token_vocabulary _ _ _ Hin Hhas) Hreach)
    as (M & all & rows & HM & Hres & Hall & _ & _ & Hsorted & Hrows).
  assert (Hlt : (i < List.length df_filtered)%nat)
    by (apply nth_error_Some; congruence).
  assert (Hzero : squared_distance M i = F32.zero).
  { destruct (squared_distance_same_tokens _ _ _ _ _ _ HM Hi Htok)
      as [H | H]; [exact H |].
    pose proof (within_reach_nth _ _ _ _ _ Hreach HM Hlt) as Hr.
    rewrite H in Hr. discriminate. }
  exists M, rows. split; [exact HM |]. split; [exact Hres |].
  split; [exact Hzero |].
  exact (zero_score_is_returned M all rows df_filtered i r Hall Hsorted
           Hrows Hi Hzero).
Qed.

(** The gym scenario satisfies the premises of X9. *)
Lemma exact_amenity_match_is_returned_witness :
  exists tfidf_matrix rows,
    Sklearn.fit_transform log_of_scenarios
      (corpus (with_amenities_str [listing_pool; listing_gym]) ["Gym"])
    = Some tfidf_matrix
    /\ find_similar_properties log_of_scenarios not_consulted
         [listing_pool; listing_gym]
         (Py.PInt 2) (Py.PInt 120000) (Py.PStr "mumbai") ["Gym"]
       = Frame projection rows
    /\ squared_distance tfidf_matrix 1 = F32.zero
    /\ (In listing_gym rows
        \/ (List.length rows = 5%nat
            /\ forall x, In x rows ->
                 exists p,
                   (p < 1)%nat
                   /\ nth_error [listing_pool; listing_gym] p = Some x
                   /\ squared_distance tfidf_matrix p = F32.zero)).
Proof.
  apply (exact_amenity_match_is_returned log_of_scenarios not_consulted
           [listing_pool; listing_gym] (Py.PInt 2) (Py.PInt 120000)
           (Py.PStr "mumbai") ["Gym"] [listing_pool; listing_gym]
           1%nat listing_gym).
  - vm_compute. reflexivity.
  - reflexivity.
  - reflexivity.
  - reflexivity.
  - vm_compute. reflexivity.
Defined.

(** ** Arguments of the wrong kind, and the budget *)

(** X10.  A location that is no text raises [AttributeError], but only
    once the size stage has found a listing: with no listing of the
    query size the sentence of the size stage is returned instead. *)
Theorem location_must_be_text :
  forall np_log general df user_size user_price user_location user_amenities,
    (forall s, user_location <> Py.PStr s) ->
    find_similar_properties np_log general df user_size user_price
      user_location user_amenities
    = if Pandas.empty (size_match df user_size)
      then Message no_size
      else Raised Py.AttributeError.
Proof.
  intros np_log general df user_size user_price user_location user_amenities
         Hloc.
  unfold find_similar_properties, structured_filter.
  destruct (Pandas.empty (size_match df user_size)); [reflexivity |].
  destruct user_location as [| z | q | s]; try reflexivity.
  now elim (Hloc s).
Qed.

(** A missing location over a table with a listing of the query size
    satisfies the premise of X10. *)
Lemma location_must_be_text_witness :
  find_similar_properties log_of_scenarios not_consulted
    [listing_gym; listing_pool]
    (Py.PInt 2) (Py.PInt 120000) Py.PNone ["gym"]
  = if Pandas.empty (size_match [listing_gym; listing_pool] (Py.PInt 2))
    then Message no_size
    else Raised Py.AttributeError.
Proof.
  apply (location_must_be_text log_of_scenarios not_consulted
           [listing_gym; listing_pool]
           (Py.PInt 2) (Py.PInt 120000) Py.PNone ["gym"]).
  intros s. discriminate.
Defined.

(** X11.  A price that is no number raises [TypeError], but only once
    the size and location stages have both found a listing: before
    that, the sentence of the first empty stage is returned. *)
Theorem price_must_be_a_number :
  forall np_log general df user_size user_price (user_location : string)
         user_amenities found,
    Re.compile general (Py.lower user_location) = Some found ->
    Py.as_number user_price = None ->
    find_similar_properties np_log general df user_size user_price
      (Py.PStr user_location) user_amenities
    = if Pandas.empty (size_match df user_size) then Message no_size
      else if Pandas.empty
                (location_match (size_match df user_size)
                   (Py.lower user_location) found)
           then Message no_location
           else Raised Py.TypeError.
Proof.
  intros np_log general df user_size user_price user_location user_amenities
         found Hre Hnum.
  unfold find_similar_properties, structured_filter.
  destruct (Pandas.empty (size_match df user_size)); [reflexivity |].
  simpl Py.method_lower. cbv iota. rewrite Hre.
  destruct (Pandas.empty (location_match _ _ found)); [reflexivity |].
  destruct user_price as [| z | q | s]; try discriminate; reflexivity.
Qed.

(** A missing price with the location [mumbai] satisfies the premises
    of X11. *)
Lemma price_must_be_a_number_witness :
  find_similar_properties log_of_scenarios not_consulted
    [listing_gym; listing_pool]
    (Py.PInt 2) Py.PNone (Py.PStr "mumbai") ["gym"]
  = if Pandas.empty (size_match [listing_gym; listing_pool] (Py.PInt 2))
    then Message no_size
    else if Pandas.empty
              (location_match
                 (size_match [listing_gym; listing_pool] (Py.PInt 2))
                 (Py.lower "mumbai")
                 (Re.search [Re.Lit "m"; Re.Lit "u"; Re.Lit "m"; Re.Lit "b";
                             Re.Lit "a"; Re.Lit "i"]%char))
         then Message no_location
         else Raised Py.TypeError.
Proof.
  apply (price_must_be_a_number log_of_scenarios not_consulted
           [listing_gym; listing_pool]
           (Py.PInt 2) Py.PNone "mumbai" ["gym"]).
  - vm_compute. reflexivity.
  - reflexivity.
Defined.

(** X12.  The budget acts through the computed limit only, and a
    larger limit never loses a candidate: when the limit computed for
    one budget is at most the limit computed for another, the listings
    the filter lets through for the first it lets through for the
    second, in the same order, together with the listings that the
    higher limit newly admits. *)
Theorem larger_budget_keeps_survivors :
  forall general df user_size user_location budget larger limit limit'
         survivors,
    Py.mul_float budget 1.05 = inr limit ->
    Py.mul_float larger 1.05 = inr limit' ->
    SFleb limit limit' = true ->
    structured_filter general df user_size budget user_location
    = Continue survivors ->
    exists more,
      structured_filter general df user_size larger user_location
      = Continue more
      /\ survivors = price_band more limit
      /\ forall r, In r survivors -> In r more.
Proof.
  intros general df user_size user_location budget larger limit limit'
         survivors Hb Hl Hle H.
  apply structured_filter_Continue in H.
  destruct H as (loc & found & limit0 & Hloc & Hc & Hm & Hs & Hlm & -> & Hne).
  rewrite Hb in Hm. injection Hm as <-.
  set (located := location_match (size_match df user_size) loc found) in *.
  assert (Hmono : forall r, SFleb (F64.of_Q (price r)) limit = true ->
                            SFleb (F64.of_Q (price r)) limit' = true).
  { intros r Hr. exact (SFleb_trans _ _ _ Hr Hle). }
  assert (Hsub : forall r, In r (price_band located limit) ->
                           In r (price_band located limit')).
  { intros r Hr. apply price_band_In in Hr. apply price_band_In.
    destruct Hr as [Hr Hp]. split; [exact Hr | now apply Hmono]. }
  exists (price_band located limit'). split; [| split].
  - apply structured_filter_Continue. exists loc, found, limit'.
    repeat split; try assumption.
    destruct (price_band located limit) as [| r rest] eqn:E;
      [congruence |].
    intro Hnil. specialize (Hsub r (or_introl eq_refl)).
    rewrite Hnil in Hsub. contradiction.
  - unfold price_band. clear - Hmono.
    induction located as [| r located IH]; simpl; [reflexivity |].
    destruct (SFleb (F64.of_Q (price r)) limit) eqn:E1.
    + rewrite (Hmono r E1). simpl. rewrite E1. now rewrite <- IH.
    + destruct (SFleb (F64.of_Q (price r)) limit'); simpl;
        [rewrite E1 |]; exact IH.
  - exact Hsub.
Qed.

(** The budgets 100000 and 120000 over the gym and pool listings
    satisfy the premises of X12. *)
Lemma larger_budget_keeps_survivors_witness :
  exists more,
    structured_filter not_consulted [listing_gym; listing_pool] (Py.PInt 2)
      (Py.PFloat 120000) (Py.PStr "mumbai")
    = Continue more
    /\ [listing_gym] = price_band more (F64.of_Z 105000)
    /\ forall r, In r [listing_gym] -> In r more.
Proof.
  apply (larger_budget_keeps_survivors not_consulted
           [listing_gym; listing_pool] (Py.PInt 2) (Py.PStr "mumbai")
           (Py.PFloat 100000) (Py.PFloat 120000)
           (F64.of_Z 105000) (F64.of_Z 126000) [listing_gym]).
  - vm_compute. reflexivity.
  - vm_compute. reflexivity.
  - vm_compute. reflexivity.
  - vm_compute. reflexivity.
Defined.

(** ** The amenity text *)

(** The matrix depends on the documents through their tokens only. *)
Lemma fit_transform_tokens np_log docs docs' :
  map Sklearn.tokenize docs = map Sklearn.tokenize docs' ->
  Sklearn.fit_transform np_log docs = Sklearn.fit_transform np_log docs'.
Proof.
  intro H.
  assert (Hvoc : Sklearn.vocabulary docs = Sklearn.vocabulary docs')
    by (unfold Sklearn.vocabulary; now rewrite H).
  assert (Hlen : List.length docs = List.length docs').
  { rewrite <- (length_map Sklearn.tokenize docs), H. apply length_map. }
  assert (Hcounts : forall vocab,
            map (Sklearn.term_counts vocab) docs
            = map (Sklearn.term_counts vocab) docs').
  { intro vocab.
    assert (Hc : forall l,
              map (Sklearn.term_counts vocab) l
              = map (fun tokens =>
                       map (fun t => count_occ string_dec tokens t) vocab)
                    (map Sklearn.tokenize l))
      by (intro l; rewrite map_map; reflexivity).
    now rewrite !Hc, H. }
  unfold Sklearn.fit_transform. rewrite Hvoc, Hlen.
  destruct (Sklearn.vocabulary docs'); [reflexivity |].
  now rewrite Hcounts.
Qed.

Lemma rank_tokens np_log df_filtered user_amenities user_amenities' :
  Sklearn.tokenize (Py.join " " user_amenities)
  = Sklearn.tokenize (Py.join " " user_amenities') ->
  rank np_log df_filtered user_amenities
  = rank np_log df_filtered user_amenities'.
Proof.
  intro H. unfold rank.
  rewrite (fit_transform_tokens np_log
             (corpus (with_amenities_str df_filtered) user_amenities)
             (corpus (with_amenities_str df_filtered) user_amenities')).
  - reflexivity.
  - unfold corpus. rewrite !map_app. simpl. now rewrite H.
Qed.

Lemma lower_join_blank xs :
  Py.lower (Py.join " " xs) = Py.join " " (map Py.lower xs).
Proof.
  induction xs as [| x xs IH]; [reflexivity |].
  destruct xs as [| y xs]; [reflexivity |].
  change (Py.join " " (x :: y :: xs))
    with (x ++ String " " (Py.join " " (y :: xs)))%string.
  rewrite lower_app.
  change (Py.lower (String " " (Py.join " " (y :: xs))))
    with (String " " (Py.lower (Py.join " " (y :: xs)))).
  rewrite IH. reflexivity.
Qed.

(** X13.  The requested amenities reach the result through the tokens
    of their joined text only: two requests with the same tokens get
    the same result, so neither the letter case of the amenities nor the
    way they are grouped into list elements matters. *)
Theorem ranking_reads_tokens_only :
  forall np_log general df user_size user_price user_location
         user_amenities user_amenities',
    Sklearn.tokenize (Py.join " " user_amenities)
    = Sklearn.tokenize (Py.join " " user_amenities') ->
    find_similar_properties np_log general df user_size user_price
      user_location user_amenities
    = find_similar_properties np_log general df user_size user_price
        user_location user_amenities'
    /\ find_similar_properties np_log general df user_size user_price
         user_location (map Py.lower user_amenities)
       = find_similar_properties np_log general df user_size user_price
           user_location user_amenities.
Proof.
  intros np_log general df user_size user_price user_location
         user_amenities user_amenities' H.
  unfold find_similar_properties.
  destruct (structured_filter general df user_size user_price user_location)
    as [df_filtered | text | e]; try (split; reflexivity).
  split; [now apply rank_tokens |].
  apply rank_tokens. rewrite <- lower_join_blank.
  unfold Sklearn.tokenize. now rewrite lower_idempotent.
Qed.

(** The requests [Gym; POOL] and [gym pool] satisfy the premise of
    X13. *)
Lemma ranking_reads_tokens_only_witness :
  find_similar_properties log_of_scenarios not_consulted
    [listing_gym; listing_pool]
    (Py.PInt 2) (Py.PInt 120000) (Py.PStr "mumbai") ["Gym"; "POOL"]
  = find_similar_properties log_of_scenarios not_consulted
      [listing_gym; listing_pool]
      (Py.PInt 2) (Py.PInt 120000) (Py.PStr "mumbai") ["gym pool"]
  /\ find_similar_properties log_of_scenarios not_consulted
       [listing_gym; listing_pool]
       (Py.PInt 2) (Py.PInt 120000) (Py.PStr "mumbai")
       (map Py.lower ["Gym"; "POOL"])
     = find_similar_properties log_of_scenarios not_consulted
         [listing_gym; listing_pool]
         (Py.PInt 2) (Py.PInt 120000) (Py.PStr "mumbai") ["Gym"; "POOL"].
Proof.
  apply (ranking_reads_tokens_only log_of_scenarios not_consulted
           [listing_gym; listing_pool]
           (Py.PInt 2) (Py.PInt 120000) (Py.PStr "mumbai")
           ["Gym"; "POOL"] ["gym pool"]).
  reflexivity.
Defined.

(** X14.  The amenities read at the prompt are the pieces of the typed
    line cut at its commas: the list is never empty, even for an empty
    line, its joined text has the tokens of the line, and searching
    with it gives what searching with the whole line as one amenity
    gives. *)
Theorem console_amenities_are_the_line :
  forall int_ float_ size_line price_line location_line amenities_line
         user_size user_price user_location user_amenities,
    get_user_input int_ float_ size_line price_line location_line
      amenities_line
    = inr (user_size, user_price, user_location, user_amenities) ->
    user_amenities <> []
    /\ Py.join "," user_amenities = amenities_line
    /\ Sklearn.tokenize (Py.join " " user_amenities)
       = Sklearn.tokenize amenities_line
    /\ forall np_log general df,
         find_similar_properties np_log general df (Py.PInt user_size)
           (Py.PFloat user_price) (Py.PStr user_location) user_amenities
         = find_similar_properties np_log general df (Py.PInt user_size)
             (Py.PFloat user_price) (Py.PStr user_location) [amenities_line].
Proof.
  intros int_ float_ size_line price_line location_line amenities_line
         user_size user_price user_location user_amenities H.
  unfold get_user_input in H.
  destruct (int_ size_line) as [e | z]; [discriminate |].
  destruct (float_ price_line) as [e | q]; [discriminate |].
  injection H as <- <- <- <-.
  split; [apply split_not_nil |]. split; [apply (join_split ","%char) |].
  split; [apply tokenize_join_split |].
  intros np_log general df. unfold find_similar_properties.
  destruct (structured_filter _ _ _ _ _); try reflexivity.
  apply rank_tokens. apply tokenize_join_split.
Qed.

(** The lines [2], [120000], [Mumbai] and [gym, pool] satisfy the
    premise of X14. *)
Lemma console_amenities_are_the_line_witness :
  ["gym"; " pool"] <> []
  /\ Py.join "," ["gym"; " pool"] = "gym, pool"
  /\ Sklearn.tokenize (Py.join " " ["gym"; " pool"])
     = Sklearn.tokenize "gym, pool"
  /\ forall np_log general df,
       find_similar_properties np_log general df (Py.PInt 2)
         (Py.PFloat 120000) (Py.PStr "Mumbai") ["gym"; " pool"]
       = find_similar_properties np_log general df (Py.PInt 2)
           (Py.PFloat 120000) (Py.PStr "Mumbai") ["gym, pool"].
Proof.
  apply (console_amenities_are_the_line
           (fun _ => inr 2%Z) (fun _ => inr 120000%Q)
           "2" "120000" "Mumbai" "gym, pool").
  reflexivity.
Defined.

(** ** Edges of the size and location stages *)

(** X15.  An empty query location does not restrict the search by
    location: every listing of the query size whose location is not
    missing passes the location stage under its link. *)
Theorem empty_location_keeps_every_located_listing :
  forall general df user_size,
    exists found,
      Re.compile general (Py.lower EmptyString) = Some found
      /\ forall r,
           In r (size_match df user_size) ->
           location r <> None ->
           In r (partial_match (size_match df user_size) found)
           /\ In (link r)
                (map link
                   (location_match (size_match df user_size)
                      (Py.lower EmptyString) found)).
Proof.
  intros general df user_size. exists (Re.search []).
  split; [reflexivity |]. intros r Hr Hloc.
  assert (Hp : In r (partial_match (size_match df user_size) (Re.search []))).
  { unfold partial_match. apply filter_In. split; [exact Hr |].
    destruct (location r) as [c |]; [| congruence].
    simpl. now destruct c. }
  split; [exact Hp |]. apply location_match_links. now right.
Qed.

Lemma size_match_float_int df z :
  size_match df (Py.PFloat (inject_Z z)) = size_match df (Py.PInt z).
Proof.
  unfold size_match. apply filter_ext. intro r. simpl.
  unfold Qeq_bool. simpl. now rewrite !Z.mul_1_r.
Qed.

(** X16.  The size is compared by value: the float [2.0] selects what
    the integer [2] selects, and a size given as a text selects
    nothing, so that the sentence of the size stage is returned whatever
    the table and the other arguments are. *)
Theorem size_is_compared_by_value :
  forall np_log general df user_price user_location user_amenities,
    (forall z,
       find_similar_properties np_log general df (Py.PFloat (inject_Z z))
         user_price user_location user_amenities
       = find_similar_properties np_log general df (Py.PInt z) user_price
           user_location user_amenities)
    /\ (forall s,
          find_similar_properties np_log general df (Py.PStr s) user_price
            user_location user_amenities
          = Message no_size).
Proof.
  intros np_log general df user_price user_location user_amenities. split.
  - intro z. unfold find_similar_properties, structured_filter.
    now rewrite size_match_float_int.
  - intro s. apply find_similar_properties_Message.
    apply structured_filter_no_size. unfold size_match.
    induction df as [| r df IH]; [reflexivity | exact IH].
Qed.

Lemma drop_duplicates_from_repeat {A : Type} (key : A -> string)
    (l rest : list A) (x : A) : forall seen,
  In (key x) (map key l) \/ In (key x) seen ->
  Pandas.drop_duplicates_from key seen (l ++ x :: rest)
  = Pandas.drop_duplicates_from key seen (l ++ rest).
Proof.
  induction l as [| a l IH]; intros seen H; simpl.
  - destruct H as [[] | H]. apply existsb_eqb_In in H. now rewrite H.
  - destruct (existsb (String.eqb (key a)) seen) eqn:E.
    + apply IH. destruct H as [[H | H] | H]; auto.
      right. rewrite <- H. now apply existsb_eqb_In.
    + f_equal. apply IH. destruct H as [[H | H] | H]; simpl; auto.
Qed.

Lemma location_match_repeat sized loc found r :
  In r sized ->
  location_match (sized ++ [r]) loc found = location_match sized loc found.
Proof.
  intro Hr. unfold location_match, exact_match, partial_match,
    Pandas.drop_duplicates.
  rewrite !filter_app. simpl.
  set (exact := filter (fun x => Pandas.eq_str (location x) loc) sized).
  set (partial := filter (fun x => Pandas.contains_cell found (location x))
                         sized).
  assert (Hpart : Pandas.drop_duplicates_from link []
                    (exact ++ partial
                     ++ (if Pandas.contains_cell found (location r)
                         then [r] else []))
                  = Pandas.drop_duplicates_from link [] (exact ++ partial)).
  { destruct (Pandas.contains_cell found (location r)) eqn:E;
      [| now rewrite app_nil_r].
    rewrite app_assoc. apply drop_duplicates_from_absorb.
    intros b [<- | []]. left. apply in_map. apply in_or_app. right.
    unfold partial. apply filter_In. auto. }
  destruct (Pandas.eq_str (location r) loc) eqn:E.
  - rewrite <- app_assoc. simpl.
    rewrite drop_duplicates_from_repeat; [exact Hpart |].
    left. apply in_map. unfold exact. apply filter_In. auto.
  - rewrite app_nil_r. exact Hpart.
Qed.

(** X17.  A listing that is in the table twice counts once: adding a
    copy of a listing of the table at its end changes nothing in what
    the function returns or raises. *)
Theorem repeated_listing_changes_nothing :
  forall np_log general df r user_size user_price user_location
         user_amenities,
    In r df ->
    find_similar_properties np_log general (df ++ [r]) user_size user_price
      user_location user_amenities
    = find_similar_properties np_log general df user_size user_price
        user_location user_amenities.
Proof.
  intros np_log general df r user_size user_price user_location
         user_amenities Hr.
  unfold find_similar_properties, structured_filter.
  assert (Happ : size_match (df ++ [r]) user_size
                 = size_match df user_size
                   ++ (if Pandas.eq_scalar (size r) user_size
                       then [r] else []))
    by (unfold size_match; now rewrite filter_app).
  rewrite Happ. clear Happ.
  destruct (Pandas.eq_scalar (size r) user_size) eqn:E;
    [| now rewrite app_nil_r].
  assert (Hs : In r (size_match df user_size))
    by (apply size_match_In; auto).
  assert (He : Pandas.empty (size_match df user_size ++ [r])
               = Pandas.empty (size_match df user_size)).
  { destruct (size_match df user_size); [contradiction | reflexivity]. }
  rewrite He. destruct (Pandas.empty (size_match df user_size));
    [reflexivity |].
  destruct (Py.method_lower user_location) as [e | loc]; [reflexivity |].
  destruct (Re.compile general loc) as [found |]; [| reflexivity].
  now rewrite (location_match_repeat _ loc found r Hs).
Qed.

(** The gym listing repeated at the end of the table satisfies the
    premise of X17. *)
Lemma repeated_listing_changes_nothing_witness :
  find_similar_properties log_of_scenarios not_consulted
    ([listing_gym; listing_pool] ++ [listing_gym])
    (Py.PInt 2) (Py.PInt 120000) (Py.PStr "mumbai") ["gym"]
  = find_similar_properties log_of_scenarios not_consulted
      [listing_gym; listing_pool]
      (Py.PInt 2) (Py.PInt 120000) (Py.PStr "mumbai") ["gym"].
Proof.
  apply (repeated_listing_changes_nothing log_of_scenarios not_consulted
           [listing_gym; listing_pool] listing_gym).
  simpl. auto.
Defined.

(** ** The text taken from the answer of the language model *)

Lemma string_app_assoc (a b c : string) :
  ((a ++ b) ++ c = a ++ (b ++ c))%string.
Proof. induction a as [| x a IH]; simpl; [reflexivity | now rewrite IH]. Qed.

Lemma from_open_brace_app pre t :
  occurs "{"%char pre = false ->
  from_open_brace (pre ++ String "{"%char t) = Some (String "{"%char t).
Proof.
  induction pre as [| c pre IH]; simpl; intro H; [reflexivity |].
  apply orb_false_iff in H. destruct H as [Hc Hp].
  rewrite Hc. now apply IH.
Qed.

Lemma to_last_close_brace_None s :
  occurs "}"%char s = false -> to_last_close_brace s = None.
Proof.
  induction s as [| c s IH]; simpl; intro H; [reflexivity |].
  apply orb_false_iff in H. destruct H as [Hc Hs].
  now rewrite (IH Hs), Hc.
Qed.

Lemma to_last_close_brace_app a post :
  occurs "}"%char post = false ->
  to_last_close_brace (a ++ String "}"%char post)
  = Some (a ++ String "}"%char EmptyString)%string.
Proof.
  intro H. induction a as [| c a IH]; simpl.
  - now rewrite (to_last_close_brace_None post H).
  - now rewrite IH.
Qed.

Lemma from_open_brace_Some s t :
  from_open_brace s = Some t ->
  exists pre t',
    s = (pre ++ t)%string /\ t = String "{"%char t'
    /\ occurs "{"%char pre = false.
Proof.
  induction s as [| c s IH]; simpl; intro H; [discriminate |].
  destruct (Ascii.eqb c "{"%char) eqn:E.
  - injection H as <-. apply Ascii.eqb_eq in E. subst c.
    now exists EmptyString, s.
  - destruct (IH H) as (pre & t' & -> & -> & Hpre).
    exists (String c pre), t'. simpl. rewrite E. auto.
Qed.

Lemma to_last_close_brace_Some s : forall m,
  to_last_close_brace s = Some m ->
  exists m0 post,
    m = (m0 ++ String "}"%char EmptyString)%string
    /\ s = (m ++ post)%string /\ occurs "}"%char post = false.
Proof.
  induction s as [| c s IH]; simpl; intros m H; [discriminate |].
  destruct (to_last_close_brace s) as [t |] eqn:Et.
  - injection H as <-. destruct (IH t eq_refl) as (m0 & post & -> & -> & Hp).
    exists (String c m0), post. auto.
  - destruct (Ascii.eqb c "}"%char) eqn:E; [| discriminate].
    injection H as <-. apply Ascii.eqb_eq in E. subst c.
    exists EmptyString, s. repeat split.
    clear IH. induction s as [| d s IHs]; [reflexivity |].
    simpl in Et |- *. destruct (to_last_close_brace s); [discriminate |].
    destruct (Ascii.eqb d "}"%char); [discriminate |]. now apply IHs.
Qed.

(** X18.  The text handed to [eval] runs from the first opening brace
    of the answer to its last closing brace, whatever stands between
    them: [search_braces] finds [m] exactly when the answer is some text
    without opening brace, then [m], which starts and ends with a
    brace, then some text without closing brace. *)
Theorem braces_from_first_to_last :
  forall text m,
    search_braces text = Some m
    <-> exists pre inner post,
          text = (pre ++ m ++ post)%string
          /\ m = (String "{"%char inner ++ String "}"%char EmptyString)%string
          /\ occurs "{"%char pre = false
          /\ occurs "}"%char post = false.
Proof.
  intros text m. unfold search_braces. split.
  - destruct (from_open_brace text) as [t |] eqn:Et; [| discriminate].
    intro Hm. destruct (from_open_brace_Some _ _ Et) as (pre & t' & -> & -> & Hpre).
    destruct (to_last_close_brace_Some _ _ Hm) as (m0 & post & -> & Ht & Hpost).
    destruct m0 as [| c inner]; simpl in Ht.
    + injection Ht as Hc _. discriminate.
    + injection Ht as Hc Ht'. subst c. exists pre, inner, post.
      rewrite Ht'. simpl. auto.
  - intros (pre & inner & post & -> & -> & Hpre & Hpost).
    simpl. rewrite from_open_brace_app by assumption.
    rewrite string_app_assoc. simpl.
    now rewrite (to_last_close_brace_app inner post Hpost).
Qed.

(** X19.  When the answer holds a braced text, the extractor returns
    what [eval] makes of that text alone: the words before the first
    opening brace and after the last closing brace have no effect, and
    two braced objects in one answer are evaluated as one text. *)
Theorem extractor_evaluates_the_braces :
  forall respond eval_ user_text pre inner post,
    respond user_text
    = (pre ++ String "{"%char inner ++ String "}"%char post)%string ->
    occurs "{"%char pre = false ->
    occurs "}"%char post = false ->
    extract_keywords_from_text respond eval_ user_text
    = eval_ (String "{"%char inner ++ String "}"%char EmptyString)%string.
Proof.
  intros respond eval_ user_text pre inner post Hr Hpre Hpost.
  unfold extract_keywords_from_text.
  assert (H : search_braces (respond user_text)
              = Some (String "{"%char inner
                      ++ String "}"%char EmptyString)%string).
  { rewrite Hr. unfold search_braces.
    change (String "{"%char inner ++ String "}"%char post)%string
      with (String "{"%char (inner ++ String "}"%char post)).
    rewrite from_open_brace_app by assumption. simpl.
    now rewrite (to_last_close_brace_app inner post Hpost). }
  now rewrite H.
Qed.

(** An answer with two braced objects and words around them satisfies
    the premises of X19. *)
Lemma extractor_evaluates_the_braces_witness :
  extract_keywords_from_text (fun _ => "Here: {a} or {b}. Done")
    (fun matched => mkExtracted (Py.PStr matched) Py.PNone Py.PNone [])
    "a flat"
  = (fun matched => mkExtracted (Py.PStr matched) Py.PNone Py.PNone [])
      (String "{"%char "a} or {b" ++ String "}"%char EmptyString)%string.
Proof.
  apply (extractor_evaluates_the_braces
           (fun _ => "Here: {a} or {b}. Done")
           (fun matched => mkExtracted (Py.PStr matched) Py.PNone Py.PNone [])
           "a flat" "Here: " "a} or {b" ". Done").
  - reflexivity.
  - reflexivity.
  - reflexivity.
Defined.

(** ** The location union and the empty vocabulary *)

(** X20.  When the lower-cased query location compiles as a pattern,
    the location stage keeps the exact matches and the pattern matches,
    de-duplicated by link with the first occurrence kept and the exact
    matches first: every kept row is an exact or a pattern match, every
    link of such a match is kept, exactly once, by a row that is itself
    an exact match when there is one; when links are unique in the
    table, the kept rows are exactly the union; and the pattern match
    is the substring test when the location has no metacharacter. *)
Theorem location_union_exact_first :
  forall general df user_size (user_location : string) found,
    let sized := size_match df user_size in
    let loc := Py.lower user_location in
    let final := location_match sized loc found in
    Re.compile general loc = Some found ->
    (forall r, In r final ->
       In r (exact_match sized loc) \/ In r (partial_match sized found))
    /\ (forall r,
          In r (exact_match sized loc) \/ In r (partial_match sized found) ->
          In (link r) (map link final))
    /\ NoDup (map link final)
    /\ (forall r, In r (exact_match sized loc) ->
          exists r', In r' final /\ link r' = link r
                     /\ In r' (exact_match sized loc))
    /\ (NoDup (map link df) ->
        forall r, In r final
                  <-> In r (exact_match sized loc)
                      \/ In r (partial_match sized found))
    /\ (Re.literal loc = true -> forall s, found s = Re.substringb loc s).
Proof.
  intros general df user_size user_location found sized loc final Hre.
  split; [intros r; apply location_match_In |].
  split; [intros r; apply location_match_links |].
  split; [apply location_match_NoDup |].
  split; [| split].
  - intros r Hr.
    destruct (first_with_key link _ _ Hr) as (l1 & r' & l2 & Hsplit & Hk & Hn).
    exists r'. split; [| split; [exact Hk |]].
    + unfold final, location_match, Pandas.drop_duplicates.
      rewrite Hsplit, <- app_assoc. simpl.
      apply drop_duplicates_from_first; [intros [] |]. now rewrite Hk.
    + rewrite Hsplit. apply in_or_app. right. now left.
  - intros Hnd r. split; [apply location_match_In |].
    intro Hr. pose proof (location_match_links sized loc found r Hr) as Hl.
    apply in_map_iff in Hl. destruct Hl as (r' & Hk & Hr').
    assert (Hdf : forall x, In x sized -> In x df).
    { intros x Hx. now apply size_match_In in Hx. }
    assert (Hin : In r sized).
    { unfold exact_match, partial_match in Hr.
      destruct Hr as [Hr | Hr]; apply filter_In in Hr; apply Hr. }
    pose proof (location_match_subset _ _ _ _ Hr') as Hin'.
    rewrite <- (NoDup_map_injective link df r' r Hnd
                  (Hdf _ Hin') (Hdf _ Hin) Hk).
    exact Hr'.
  - intros Hlit s. destruct (literal_compile general loc Hlit)
      as (found' & Hre' & Hsub).
    rewrite Hre in Hre'. injection Hre' as <-. apply Hsub.
Qed.

(** The query location [Mumbai] satisfies the premise of X20. *)
Lemma location_union_exact_first_witness :
  let sized := size_match [listing_gym; listing_abc] (Py.PInt 2) in
  let loc := Py.lower "Mumbai" in
  let found :=
    Re.search [Re.Lit "m"; Re.Lit "u"; Re.Lit "m"; Re.Lit "b"; Re.Lit "a";
               Re.Lit "i"]%char in
  let final := location_match sized loc found in
  (forall r, In r final ->
     In r (exact_match sized loc) \/ In r (partial_match sized found))
  /\ (forall r,
        In r (exact_match sized loc) \/ In r (partial_match sized found) ->
        In (link r) (map link final))
  /\ NoDup (map link final)
  /\ (forall r, In r (exact_match sized loc) ->
        exists r', In r' final /\ link r' = link r
                   /\ In r' (exact_match sized loc))
  /\ (NoDup (map link [listing_gym; listing_abc]) ->
      forall r, In r final
                <-> In r (exact_match sized loc)
                    \/ In r (partial_match sized found))
  /\ (Re.literal loc = true -> forall s, found s = Re.substringb loc s).
Proof.
  apply (location_union_exact_first not_consulted
           [listing_gym; listing_abc] (Py.PInt 2) "Mumbai").
  vm_compute. reflexivity.
Defined.

(** X21.  When neither a surviving candidate's amenity text nor the
    query's has a token, the vectorizer raises [ValueError] for the
    empty vocabulary and the exception leaves the function: no value is
    returned. *)
Theorem empty_vocabulary_is_ValueError :
  forall np_log general df user_size user_price user_location user_amenities
         df_filtered,
    structured_filter general df user_size user_price user_location
    = Continue df_filtered ->
    (forall r, In r df_filtered -> has_token r = false) ->
    Sklearn.tokenize (Py.join " " user_amenities) = [] ->
    Sklearn.vocabulary (corpus (with_amenities_str df_filtered) user_amenities)
    = []
    /\ find_similar_properties np_log general df user_size user_price
         user_location user_amenities
       = Raised Py.ValueError.
Proof.
  intros np_log general df user_size user_price user_location user_amenities
         df_filtered Hfilter Hrows Hq.
  pose proof (no_token_vocabulary _ _ Hrows Hq) as Hvoc.
  split; [exact Hvoc |].
  rewrite (find_similar_properties_Continue _ _ _ _ _ _ _ _ Hfilter).
  unfold rank. apply (fit_transform_None np_log) in Hvoc. now rewrite Hvoc.
Qed.

(** A listing without amenities and a query of one-character words
    satisfy the premises of X21. *)
Lemma empty_vocabulary_is_ValueError_witness :
  Sklearn.vocabulary (corpus (with_amenities_str [listing_bare]) ["a"; "-"])
  = []
  /\ find_similar_properties log_of_scenarios not_consulted
       [listing_bare; listing_pool]
       (Py.PInt 2) (Py.PInt 100000) (Py.PStr "mumbai") ["a"; "-"]
     = Raised Py.ValueError.
Proof.
  apply (empty_vocabulary_is_ValueError log_of_scenarios not_consulted
           [listing_bare; listing_pool] (Py.PInt 2) (Py.PInt 100000)
           (Py.PStr "mumbai") ["a"; "-"] [listing_bare]).
  - vm_compute. reflexivity.
  - intros r [<- | []]. reflexivity.
  - reflexivity.
Defined.
